(** * FuelCostHedgeEngine: extraction and ingestion, embedded and verified

    Shallow embedding of
      - [genera_scraper.py]          (module [Scraper]),
      - [genera_plants_scraper.py]   (modules [Plants], [PlantsSession]),
      - [pr_grid_logger.py]          (modules [Logger], [Poller]),
      - [genera_fuel_mix_scraper.py] (module [FuelTable]),
    and of the JSON hand-over from the scraper to the logger (module
    [Interchange]), on top of a small model of the Python values and
    library calls the scripts use (modules [Py], [Re]).

    Modelling conventions.
    - A Python [str] is a list of Unicode code points ([N]).  Literals are
      written [py "..."], which decodes the UTF-8 bytes of the Rocq string.
    - Whitespace follows Python's complete table ([str.isspace], [\s]).
      Decimal digits, word characters and case folding are modelled on
      U+0000..U+00FF, which covers the Spanish labels of the dashboard.
    - A Python [float] is a binary64 value: an infinity, NaN, or a finite
      number kept as the decimal [mant * 10^expo] that denotes it exactly.
      [float(s)] and [+] round to the nearest binary64, ties to even, and
      overflow to infinity; [sum] is the left fold of [+] (CPython up to
      3.11).  The sign of zero is not kept.
    - The browser, the clock, the JSON reader and [datetime.fromisoformat]
      are collaborators; what they return is an input of the model. *)

From Stdlib Require Import ZArith NArith List String Ascii Bool Lia DecimalString.
From stdpp Require Import gmap.
Import ListNotations.

Set Default Proof Using "Type".

(* ===================================================================== *)
(** * Python values *)
(* ===================================================================== *)

Module Py.

Definition str := list N.

Definition bytes_of (s : string) : list N :=
  map N_of_ascii (list_ascii_of_string s).

(** UTF-8 decoding of a source literal (the literals of this file are
    well-formed UTF-8; a truncated sequence ends the result). *)
Fixpoint utf8_decode (bs : list N) : str :=
  match bs with
  | [] => []
  | b0 :: r0 =>
    if (b0 <? 128)%N then b0 :: utf8_decode r0
    else if (b0 <? 224)%N then
      match r0 with
      | b1 :: r1 => ((b0 - 192) * 64 + (b1 - 128))%N :: utf8_decode r1
      | [] => []
      end
    else if (b0 <? 240)%N then
      match r0 with
      | b1 :: b2 :: r2 =>
        ((b0 - 224) * 4096 + (b1 - 128) * 64 + (b2 - 128))%N :: utf8_decode r2
      | _ => []
      end
    else
      match r0 with
      | b1 :: b2 :: b3 :: r3 =>
        ((b0 - 240) * 262144 + (b1 - 128) * 4096 + (b2 - 128) * 64 + (b3 - 128))%N
          :: utf8_decode r3
      | _ => []
      end
  end.

Definition py (s : string) : str := utf8_decode (bytes_of s).

Fixpoint str_eqb (a b : str) : bool :=
  match a, b with
  | [], [] => true
  | x :: a', y :: b' => (x =? y)%N && str_eqb a' b'
  | _, _ => false
  end.

(** ** Character classes *)

Definition in_range (lo hi c : N) : bool := ((lo <=? c) && (c <=? hi))%N.

(** [str.isspace] on one character; also the class [\s] of [re]. *)
Definition is_space (c : N) : bool :=
  in_range 9 13 c || in_range 28 32 c || (c =? 133)%N || (c =? 160)%N
  || (c =? 5760)%N || in_range 8192 8202 c || (c =? 8232)%N || (c =? 8233)%N
  || (c =? 8239)%N || (c =? 8287)%N || (c =? 12288)%N.

(** The class [\d], on U+0000..U+00FF. *)
Definition is_digit (c : N) : bool := in_range 48 57 c.

(** The class [\w], on U+0000..U+00FF: alphanumerics and the underscore. *)
Definition is_word (c : N) : bool :=
  in_range 48 57 c || in_range 65 90 c || in_range 97 122 c || (c =? 95)%N
  || (c =? 170)%N || (c =? 178)%N || (c =? 179)%N || (c =? 181)%N
  || (c =? 185)%N || (c =? 186)%N || in_range 188 190 c
  || in_range 192 214 c || in_range 216 246 c || in_range 248 255 c.

(** [str.lower] on one character, on U+0000..U+00FF. *)
Definition lower_char (c : N) : N :=
  if in_range 65 90 c then (c + 32)%N
  else if in_range 192 222 c && negb (c =? 215)%N then (c + 32)%N
  else c.

Definition lower (s : str) : str := map lower_char s.

(** ** String methods *)

Fixpoint lstrip_by (p : N -> bool) (s : str) : str :=
  match s with
  | c :: t => if p c then lstrip_by p t else s
  | [] => []
  end.

Definition strip_by (p : N -> bool) (s : str) : str :=
  rev (lstrip_by p (rev (lstrip_by p s))).

(** [s.strip()] *)
Definition strip (s : str) : str := strip_by is_space s.

(** [s.strip(chars)] *)
Definition strip_chars (chars : str) (s : str) : str :=
  strip_by (fun c => existsb (N.eqb c) chars) s.

Fixpoint starts_with (p s : str) : option str :=
  match p, s with
  | [], _ => Some s
  | x :: p', y :: s' => if (x =? y)%N then starts_with p' s' else None
  | _ :: _, [] => None
  end.

(** [sub in s] *)
Fixpoint contains (sub s : str) : bool :=
  match starts_with sub s with
  | Some _ => true
  | None => match s with
            | _ :: t => contains sub t
            | [] => false
            end
  end.

Fixpoint replace_fuel (fuel : nat) (old new s : str) : str :=
  match fuel with
  | O => s
  | S f =>
    match starts_with old s with
    | Some r => new ++ replace_fuel f old new r
    | None => match s with
              | c :: t => c :: replace_fuel f old new t
              | [] => []
              end
    end
  end.

(** [s.replace(old, new)], left to right without overlap; with an empty
    [old], [new] is put before every character and at the end. *)
Definition replace (old new s : str) : str :=
  match old with
  | [] => new ++ flat_map (fun c => c :: new) s
  | _ :: _ => replace_fuel (S (length s)) old new s
  end.

(** [sep.join(parts)] *)
Fixpoint join (sep : str) (parts : list str) : str :=
  match parts with
  | [] => []
  | [p] => p
  | p :: rest => p ++ sep ++ join sep rest
  end.

(** Line boundaries of [str.splitlines]. *)
Definition is_linebreak (c : N) : bool :=
  in_range 10 13 c || in_range 28 30 c || (c =? 133)%N
  || (c =? 8232)%N || (c =? 8233)%N.

Fixpoint splitlines_acc (cur : str) (s : str) : list str :=
  match s with
  | [] => match cur with [] => [] | _ => [rev cur] end
  | c :: t =>
    if is_linebreak c then
      match c, t with
      | 13%N, 10%N :: t' => rev cur :: splitlines_acc [] t'
      | _, _ => rev cur :: splitlines_acc [] t
      end
    else splitlines_acc (c :: cur) t
  end.

(** [s.splitlines()] *)
Definition splitlines (s : str) : list str := splitlines_acc [] s.

(** ** Floats: binary64 values, each kept as the decimal it denotes *)

Record dec := Dec { mant : Z; expo : Z }.

Inductive float := Fin (d : dec) | Inf (negative : bool) | NaN.

Fixpoint strip10 (fuel : nat) (m e : Z) : dec :=
  match fuel with
  | O => Dec m e
  | S f => if (m mod 10 =? 0)%Z then strip10 f (m / 10)%Z (e + 1)%Z else Dec m e
  end.

(** The canonical form of [m * 10^e]: no factor 10 left in the mantissa. *)
Definition mkdec (m e : Z) : dec :=
  if (m =? 0)%Z then Dec 0 0
  else strip10 (S (Z.to_nat (Z.log2 (Z.abs m)))) m e.

(** Numerator and denominator of [(n / d) / 2^k]. *)
Definition scale2 (n d k : Z) : Z * Z :=
  if (0 <=? k)%Z then (n, d * 2 ^ k)%Z else (n * 2 ^ (- k), d)%Z.

(** The binary64 nearest to [n / d], for [0 < n] and [0 < d], with the
    given sign.  [k] is the exponent of the last bit: the one that leaves
    53 bits before it, and -1074 at least (subnormal numbers); the quotient
    by [2^k] is rounded to the nearest integer, ties to even, and a result of
    [2^1024] or more is an infinity. *)
Definition nearest64 (negative : bool) (n d : Z) : float :=
  let k0 := (Z.log2 n - Z.log2 d - 52)%Z in
  let '(a0, b0) := scale2 n d k0 in
  let k := Z.max (if (a0 / b0 <? 2 ^ 52)%Z then k0 - 1 else k0) (-1074) in
  let '(a, b) := scale2 n d k in
  let q := (a / b)%Z in
  let r := (a mod b)%Z in
  let q' := if (2 * r <? b)%Z then q
            else if (b <? 2 * r)%Z then (q + 1)%Z
            else if Z.even q then q else (q + 1)%Z in
  let s := if negative then (-1)%Z else 1%Z in
  if (0 <=? k)%Z then
    if (2 ^ 1024 <=? q' * 2 ^ k)%Z then Inf negative
    else Fin (mkdec (s * (q' * 2 ^ k)) 0)
  else Fin (mkdec (s * (q' * 5 ^ (- k))) k).

(** The binary64 nearest to [m * 10^e]. *)
Definition round64 (m e : Z) : float :=
  if (m =? 0)%Z then Fin (Dec 0 0)
  else if (0 <=? e)%Z then nearest64 (m <? 0)%Z (Z.abs m * 10 ^ e) 1
       else nearest64 (m <? 0)%Z (Z.abs m) (10 ^ (- e)).

(** [decimal n k] is the float written [n / 10^k], e.g. [decimal 2305 1]
    is 230.5. *)
Definition decimal (n : Z) (k : nat) : float := round64 n (- Z.of_nat k).

(** [a + b] on finite floats: the exact sum, rounded. *)
Definition dec_add (a b : dec) : float :=
  let e := Z.min (expo a) (expo b) in
  round64 (mant a * 10 ^ (expo a - e) + mant b * 10 ^ (expo b - e))%Z e.

Definition fadd (x y : float) : float :=
  match x, y with
  | NaN, _ | _, NaN => NaN
  | Inf a, Inf b => if Bool.eqb a b then Inf a else NaN
  | Inf a, Fin _ | Fin _, Inf a => Inf a
  | Fin a, Fin b => dec_add a b
  end.

(** [sum(values)]: the fold of [+] from the integer 0. *)
Definition sum (values : list float) : float :=
  fold_left fadd values (Fin (Dec 0 0)).

(** *** [float(s)] for a string *)

(** After a digit: more digits, each optionally preceded by one underscore. *)
Fixpoint digit_run (s : str) : list N * str :=
  match s with
  | [] => ([], [])
  | c :: t =>
    if is_digit c then let '(ds, r) := digit_run t in (c :: ds, r)
    else if (c =? 95)%N then
      match t with
      | d :: t' =>
        if is_digit d then let '(ds, r) := digit_run t' in (d :: ds, r)
        else ([], s)
      | [] => ([], s)
      end
    else ([], s)
  end.

Definition digitpart (s : str) : option (list N * str) :=
  match s with
  | c :: t => if is_digit c
              then let '(ds, r) := digit_run t in Some (c :: ds, r)
              else None
  | [] => None
  end.

Definition digits_value (ds : list N) : Z :=
  fold_left (fun acc c => (acc * 10 + Z.of_N (c - 48))%Z) ds 0%Z.

(** [digitpart ["." [digitpart]] | "." digitpart], as mantissa and scale. *)
Definition number (s : str) : option (Z * Z * str) :=
  match digitpart s with
  | Some (ip, r) =>
    match r with
    | 46%N :: r1 =>
      match digitpart r1 with
      | Some (fp, r2) =>
        Some (digits_value (ip ++ fp), (- Z.of_nat (length fp))%Z, r2)
      | None => Some (digits_value ip, 0%Z, r1)
      end
    | _ => Some (digits_value ip, 0%Z, r)
    end
  | None =>
    match s with
    | 46%N :: r1 =>
      match digitpart r1 with
      | Some (fp, r2) => Some (digits_value fp, (- Z.of_nat (length fp))%Z, r2)
      | None => None
      end
    | _ => None
    end
  end.

Definition sign (s : str) : bool * str :=
  match s with
  | 45%N :: t => (true, t)
  | 43%N :: t => (false, t)
  | _ => (false, s)
  end.

(** [("e" | "E") ["+" | "-"] digitpart] up to the end of the string. *)
Definition exponent (s : str) : option Z :=
  match s with
  | [] => Some 0%Z
  | c :: t =>
    if (c =? 101)%N || (c =? 69)%N then
      let '(neg, t') := sign t in
      match digitpart t' with
      | Some (ds, []) =>
        Some (if neg then (- digits_value ds)%Z else digits_value ds)
      | _ => None
      end
    else None
  end.

(** The blanks [float] skips at both ends: those of [str.isspace] but
    the four separators U+001C..U+001F. *)
Definition float_space (c : N) : bool := is_space c && negb (in_range 28 31 c).

(** The grammar of [float]: sign, then [inf], [infinity], [nan] or a
    decimal number with an optional exponent, between optional blanks; the
    number read is rounded to binary64. *)
Definition parse_float (s : str) : option float :=
  let '(neg, body) := sign (strip_by float_space s) in
  let low := lower body in
  if str_eqb low (py "inf") || str_eqb low (py "infinity") then Some (Inf neg)
  else if str_eqb low (py "nan") then Some NaN
  else
    match number body with
    | Some (m, sc, r) =>
      match exponent r with
      | Some e => Some (round64 (if neg then (- m)%Z else m) (sc + e)%Z)
      | None => None
      end
    | None => None
    end.

(** ** Exceptions *)

Inductive exn :=
| ValueError
| TypeError
| AttributeError
| OverflowError
| UnicodeEncodeError
| SqliteError
| OtherError (what : str).

Inductive result (A : Type) :=
| Ok (a : A)
| Raise (e : exn).
Arguments Ok {A} a.
Arguments Raise {A} e.

Definition bind {A B : Type} (x : result A) (f : A -> result B) : result B :=
  match x with
  | Ok a => f a
  | Raise e => Raise e
  end.

(** The value a call returns, [None] standing for a raised exception. *)
Definition value_of {A : Type} (r : result (option A)) : option A :=
  match r with
  | Ok v => v
  | Raise _ => None
  end.

Declare Scope py_scope.
Delimit Scope py_scope with py.
Notation "'let!' x ':=' c 'in' k" := (bind c (fun x => k))
  (at level 10, x name, c at level 100, k at level 200) : py_scope.

(** [for x in xs: acc = body(acc, x)], stopping at the first exception. *)
Fixpoint for_each {A X : Type} (body : A -> X -> result A) (xs : list X)
  (acc : A) : result A :=
  match xs with
  | [] => Ok acc
  | x :: xs' => bind (body acc x) (for_each body xs')
  end.

(** [float(s)] for a string [s]: the value, or [ValueError]. *)
Definition float_of_str (s : str) : result float :=
  match parse_float s with
  | Some v => Ok v
  | None => Raise ValueError
  end.

(** ** Dictionaries, in insertion order *)

Definition dict (V : Type) := list (str * V).

Section Dict.
Context {V : Type}.

(** [d.get(k)] *)
Fixpoint get (d : dict V) (k : str) : option V :=
  match d with
  | [] => None
  | (k', v) :: d' => if str_eqb k' k then Some v else get d' k
  end.

(** [d[k] = v] *)
Fixpoint set (d : dict V) (k : str) (v : V) : dict V :=
  match d with
  | [] => [(k, v)]
  | (k', v') :: d' =>
    if str_eqb k' k then (k', v) :: d' else (k', v') :: set d' k v
  end.

(** [d.setdefault(k, v)] (the returned value is not used by the source) *)
Definition setdefault (d : dict V) (k : str) (v : V) : dict V :=
  match get d k with
  | Some _ => d
  | None => set d k v
  end.

Definition keys (d : dict V) : list str := map fst d.
End Dict.

(** [k in keys] on a list of strings *)
Definition mem (k : str) (ks : list str) : bool := existsb (str_eqb k) ks.

(** The text ["\n"]. *)
Definition newline : str := [10%N].

(** The character of a one-character literal. *)
Definition chr (s : string) : N := hd 0%N (py s).

End Py.


(* ===================================================================== *)
(** * Regular expressions of Python's [re], by backtracking *)
(* ===================================================================== *)

Module Re.
Import Py.

(** The constructs the patterns of the source use.  [Chr p] is one
    character of a class; [Star true] is a greedy and [Star false] a lazy
    repetition; [Group n] is the n-th capturing group; [WordB] is [\b]. *)
Inductive regex :=
| Eps
| Chr (p : N -> bool)
| Seq (a b : regex)
| Alt (a b : regex)
| Star (greedy : bool) (a : regex)
| Group (n : nat) (a : regex)
| WordB.

Definition plus (greedy : bool) (a : regex) : regex := Seq a (Star greedy a).
Definition opt (a : regex) : regex := Alt a Eps.

Definition is_char (c : N) : N -> bool := fun x => (x =? c)%N.

(** A literal character under [re.IGNORECASE]. *)
Definition ci (c : N) : N -> bool := fun x => (lower_char x =? lower_char c)%N.

(** [re.escape(s)] under [re.IGNORECASE]: the text [s], letter case apart. *)
Definition lit_ci (s : str) : regex :=
  fold_right (fun c r => Seq (Chr (ci c)) r) Eps s.

Definition seqs (rs : list regex) : regex := fold_right Seq Eps rs.

(** A position of the matcher in the subject: the index, the character
    before it (for [\b]), the text from it on, and the groups closed so
    far (most recent first). *)
Record mstate := MState {
  pos : nat;
  prev : option N;
  rest : str;
  caps : list (nat * str)
}.

Definition is_word_opt (c : option N) : bool :=
  match c with Some x => is_word x | None => false end.

Section Engine.
Context {A : Type}.

Definition orelse (x y : option A) : option A :=
  match x with Some _ => x | None => y end.

(** [run r st k]: the first way, in backtracking order, of matching [r]
    at [st] so that the continuation [k] succeeds.  A repetition goes on
    only after an iteration that consumed a character (no iteration of
    the source's patterns can match the empty string). *)
Fixpoint run (r : regex) (st : mstate) (k : mstate -> option A)
  {struct r} : option A :=
  match r with
  | Eps => k st
  | Chr p =>
    match rest st with
    | c :: t => if p c then k (MState (S (pos st)) (Some c) t (caps st))
                else None
    | [] => None
    end
  | Seq a b => run a st (fun st' => run b st' k)
  | Alt a b => orelse (run a st k) (run b st k)
  | Star greedy a =>
    (fix loop (fuel : nat) (st : mstate) {struct fuel} : option A :=
       match fuel with
       | O => k st
       | S f =>
         let again :=
           run a st (fun st' =>
             if (pos st <? pos st')%nat then loop f st' else None) in
         if greedy then orelse again (k st) else orelse (k st) again
       end) (S (length (rest st))) st
  | Group n a =>
    run a st (fun st' =>
      k (MState (pos st') (prev st') (rest st')
           ((n, firstn (pos st' - pos st) (rest st)) :: caps st')))
  | WordB =>
    if xorb (is_word_opt (prev st)) (is_word_opt (head (rest st)))
    then k st else None
  end.
End Engine.

(** A match object: [m.start()], [m.end()] and the captured groups. *)
Record match_ := Match {
  m_start : nat;
  m_end : nat;
  m_groups : list (nat * str)
}.

(** [m.group(n)] for a group that took part in the match. *)
Definition group (m : match_) (n : nat) : str :=
  match find (fun g => (fst g =? n)%nat) (m_groups m) with
  | Some g => snd g
  | None => []
  end.

(** The first match at or after a position, with the state after it. *)
Fixpoint search_from (r : regex) (p : nat) (pv : option N) (s : str)
  : option (match_ * mstate) :=
  match run r (MState p pv s []) Some with
  | Some fin => Some (Match p (pos fin) (caps fin), fin)
  | None =>
    match s with
    | c :: t => search_from r (S p) (Some c) t
    | [] => None
    end
  end.

(** The matcher's state [k] characters into the scan of [s] begun at [p]. *)
Fixpoint state_at (p : nat) (pv : option N) (s : str) (k : nat) : mstate :=
  match k, s with
  | S k', c :: t => state_at (S p) (Some c) t k'
  | _, _ => MState p pv s []
  end.

(** [re.search(r, s)] *)
Definition search (r : regex) (s : str) : option match_ :=
  option_map fst (search_from r 0 None s).

(** Where the scan resumes after a match: at its end, one character
    further after an empty match. *)
Definition resume (m : match_) (fin : mstate) : option mstate :=
  if (m_start m <? m_end m)%nat then Some fin
  else match rest fin with
       | c :: t => Some (MState (S (pos fin)) (Some c) t [])
       | [] => None
       end.

Fixpoint finditer_from (fuel : nat) (r : regex) (p : nat) (pv : option N)
  (s : str) : list match_ :=
  match fuel with
  | O => []
  | S f =>
    match search_from r p pv s with
    | None => []
    | Some (m, fin) =>
      m :: match resume m fin with
           | Some st => finditer_from f r (pos st) (prev st) (rest st)
           | None => []
           end
    end
  end.

(** [r.finditer(s)]: the successive matches, left to right, not overlapping. *)
Definition finditer (r : regex) (s : str) : list match_ :=
  finditer_from (S (length s)) r 0 None s.

Fixpoint sub_from (fuel : nat) (r : regex) (repl : str) (p : nat)
  (pv : option N) (s : str) : str :=
  match fuel with
  | O => s
  | S f =>
    match search_from r p pv s with
    | None => s
    | Some (m, fin) =>
      firstn (m_start m - p) s ++ repl ++
      match resume m fin with
      | Some st =>
        firstn (pos st - m_end m) (rest fin)
          ++ sub_from f r repl (pos st) (prev st) (rest st)
      | None => []
      end
    end
  end.

(** [re.sub(r, repl, s)] for a replacement text without group references. *)
Definition sub (r : regex) (repl : str) (s : str) : str :=
  sub_from (S (length s)) r repl 0 None s.

End Re.

(* ===================================================================== *)
(** * genera_scraper.py *)
(* ===================================================================== *)

Module Scraper.
Import Py Re.
Local Open Scope py_scope.

Definition PAGES : list str :=
  [ py "https://genera-pr.com/data-tr";
    py "https://genera-pr.com/data-generacion" ].

(** A catalog entry: (label, unit, key). *)
Definition field_spec := (str * str * str)%type.

Definition key_of (f : field_spec) : str := snd f.

Definition DETALLE_LABELS : list field_spec :=
  [ (py "Generación Total del Sistema", py "MW", py "generacion_total_MW");
    (py "Capacidad Disponible", py "MW", py "capacidad_disponible_MW");
    (py "Reserva en Rotación", py "MW", py "reserva_en_rotacion_MW");
    (py "Reserva Operacional", py "MW", py "reserva_operacional_MW") ].

Definition PRONOSTICO_LABELS : list field_spec :=
  [ (py "Demanda Próxima Hora", py "MW", py "proxima_hora_MW");
    (py "Demanda Máxima Registrada Hoy", py "MW", py "maxima_hoy_MW") ].

Definition FUEL_LABELS : list field_spec :=
  [ (py "Gas Natural", py "%", py "gas_natural");
    (py "Carbón", py "%", py "carbon");
    (py "Bunker/Diésel", py "%", py "bunker_diesel");
    (py "Bunker / Diésel", py "%", py "bunker_diesel");
    (py "Renovables", py "%", py "renovables");
    (py "Otros", py "%", py "otros") ].

Definition UPDATED_LABEL : str := py "Actualizado".

(** Lines 45-52 of [_to_float]: the text handed to [float], with the
    separators of [num_str] put in dot-decimal form. *)
Definition dot_decimal (num_str : str) : str :=
  let s := strip num_str in
  if contains (py ",") s && contains (py ".") s
  then replace (py ",") (py "") s
  else if contains (py ",") s
       then replace (py ",") (py ".") (replace (py ".") (py "") s)
       else s.

(** [_to_float(num_str)]: the [try] catches [ValueError] only. *)
Definition _to_float (num_str : option str) : result (option float) :=
  match num_str with
  | None => Ok None
  | Some [] => Ok None
  | Some ((_ :: _) as num_str) =>
    match float_of_str (dot_decimal num_str) with
    | Ok v => Ok (Some v)
    | Raise ValueError => Ok None
    | Raise e => Raise e
    end
  end.

(** The class [[\d\.,]]. *)
Definition num_char (c : N) : bool :=
  is_digit c || (c =? chr ".")%N || (c =? chr ",")%N.

Definition ws : regex := Star true (Chr is_space).

(** [rf"{re.escape(label)}(?:[^\n\r]*?\n|\s+)*?([\d\.,]+)\s*{re.escape(unit)}"]
    with [re.IGNORECASE]. *)
Definition number_after_label (label unit : str) : regex :=
  seqs [ lit_ci label;
         Star false
           (Alt (Seq (Star false
                        (Chr (fun c => negb ((c =? 10)%N || (c =? 13)%N))))
                     (Chr (is_char 10)))
                (plus true (Chr is_space)));
         Group 1 (plus true (Chr num_char));
         ws;
         lit_ci unit ].

Definition _search_number_after_label (page_text label unit : str)
  : result (option float) :=
  match search (number_after_label label unit) page_text with
  | Some m => _to_float (Some (group m 1))
  | None => Ok None
  end.

(** [rf"{re.escape(UPDATED_LABEL)}\s*([^\n\r]+)"] with [re.IGNORECASE]. *)
Definition timestamp_re : regex :=
  seqs [ lit_ci UPDATED_LABEL;
         ws;
         Group 1 (plus true
                    (Chr (fun c => negb ((c =? 10)%N || (c =? 13)%N)))) ].

Definition _search_timestamp (page_text : str) : option str :=
  match search timestamp_re page_text with
  | Some m => Some (strip (group m 1))
  | None => None
  end.

(** [(Gas\s*Natural|Carb[oó]n|Bunker\s*/?\s*Di[ée]sel|Renovables|Otros)]
    [\s*[:\-]?\s*([\d\.,]+)\s*%] with [re.IGNORECASE]. *)
Definition FUEL_REGEX : regex :=
  seqs [ Group 1
           (Alt (seqs [lit_ci (py "Gas"); ws; lit_ci (py "Natural")])
           (Alt (seqs [lit_ci (py "Carb");
                       Chr (fun c => ci (chr "o") c || ci (chr "ó") c);
                       lit_ci (py "n")])
           (Alt (seqs [lit_ci (py "Bunker"); ws; opt (Chr (is_char (chr "/")));
                       ws; lit_ci (py "Di");
                       Chr (fun c => ci (chr "é") c || ci (chr "e") c);
                       lit_ci (py "sel")])
           (Alt (lit_ci (py "Renovables"))
                (lit_ci (py "Otros"))))));
         ws;
         opt (Chr (fun c => (c =? chr ":")%N || (c =? chr "-")%N));
         ws;
         Group 2 (plus true (Chr num_char));
         ws;
         Chr (is_char (chr "%")) ].

Definition LABEL_NORMALIZE : dict str :=
  [ (py "gas natural", py "gas_natural");
    (py "carbón", py "carbon");
    (py "carbon", py "carbon");
    (py "bunker diésel", py "bunker_diesel");
    (py "bunker diesel", py "bunker_diesel");
    (py "renovables", py "renovables");
    (py "otros", py "otros") ].

(** The label steps of [parse_fuel_mix] (lines 145-148): lower-case, turn a
    slash and the blanks around it into one blank, fold the two accented
    vowels and trim ([canonical_label]), then look the result up in
    [LABEL_NORMALIZE] ([fuel_key]). *)
Definition canonical_label (raw : str) : str :=
  let label := lower (strip raw) in
  let label := sub (seqs [ws; Chr (is_char (chr "/")); ws]) (py " ") label in
  strip (replace (py "é") (py "e") (replace (py "ó") (py "o") label)).

Definition fuel_key (raw : str) : option str :=
  get LABEL_NORMALIZE (canonical_label raw).

(** [if key:], the truth value of an optional key. *)
Definition truthy_key (key : option str) : option str :=
  match key with
  | Some ((_ :: _) as k) => Some k
  | _ => None
  end.

Definition parse_fuel_mix (page_text : str) : result (dict (option float)) :=
  let out : dict (option float) :=
    [ (py "gas_natural", None);
      (py "carbon", None);
      (py "bunker_diesel", None);
      (py "renovables", None);
      (py "otros", None) ] in
  for_each
    (fun out m =>
       match truthy_key (fuel_key (group m 1)) with
       | Some key =>
         let! v := _to_float (Some (group m 2)) in
         Ok (set out key v)
       | None => Ok out
       end)
    (finditer FUEL_REGEX page_text) out.

(** ** The browser, as seen by [scrape_once] *)

(** What a visit of one of [PAGES] leaves in [page_texts]: the body text
    when the navigation went through, else the text the second
    [inner_text] returns, if it returns. *)
Inductive capture :=
| Loaded (body : str)
| Failed (body : option str).

Record browser := Browser {
  (** the clock, as [isoformat(timespec="seconds")] *)
  now : str;
  (** the outcome of visiting each page *)
  visit : str -> capture;
  (** the body text read after the click on "Porcentajes"; [None] when a
      step of that [try] block raised *)
  porcentajes : option str;
  (** [None] when going back to the first page or loading the helper
      raised; else what [page.evaluate(helper, label, unit)] gives *)
  dom_helper : option (str -> str -> result (option str))
}.

Definition page_text (c : capture) : str :=
  match c with
  | Loaded body => body
  | Failed (Some body) => body
  | Failed None => []
  end.

Record snapshot := Snapshot {
  scraped_at : str;
  updated_label_raw : option str;
  detalles_generacion : dict (option float);
  pronostico_demanda : dict (option float);
  fuel_mix_pct : dict (option float);
  source_pages : list str
}.

Inductive bucket_id := InDetalles | InPronostico | InFuelMix.

(** The conditional expression that picks [bucket] from [key]. *)
Definition bucket_of (key : str) : bucket_id :=
  if mem key (map key_of DETALLE_LABELS) then InDetalles
  else if mem key (map key_of PRONOSTICO_LABELS) then InPronostico
  else InFuelMix.

Definition bucket (out : snapshot) (b : bucket_id) : dict (option float) :=
  match b with
  | InDetalles => detalles_generacion out
  | InPronostico => pronostico_demanda out
  | InFuelMix => fuel_mix_pct out
  end.

(** [bucket[key] = val], seen from [out], which holds the dictionary. *)
Definition bucket_set (out : snapshot) (b : bucket_id) (key : str)
  (val : option float) : snapshot :=
  match b with
  | InDetalles =>
    Snapshot (scraped_at out) (updated_label_raw out)
      (set (detalles_generacion out) key val) (pronostico_demanda out)
      (fuel_mix_pct out) (source_pages out)
  | InPronostico =>
    Snapshot (scraped_at out) (updated_label_raw out)
      (detalles_generacion out) (set (pronostico_demanda out) key val)
      (fuel_mix_pct out) (source_pages out)
  | InFuelMix =>
    Snapshot (scraped_at out) (updated_label_raw out)
      (detalles_generacion out) (pronostico_demanda out)
      (set (fuel_mix_pct out) key val) (source_pages out)
  end.

(** [d.get(key)] read as a value: [None] for a missing key too. *)
Definition get_value (d : dict (option float)) (key : str) : option float :=
  match get d key with
  | Some v => v
  | None => None
  end.

(** The first pass over one catalog: [group[key] = val] for each entry. *)
Definition first_pass (merged_text : str) (catalog : list field_spec)
  : result (dict (option float)) :=
  for_each
    (fun d '(label, unit, key) =>
       let! val := _search_number_after_label merged_text label unit in
       Ok (set d key val))
    catalog [].

(** The entries whose bucket still holds [None] after the first pass. *)
Definition missing_fields (out : snapshot) : list field_spec :=
  List.filter
    (fun '(label, unit, key) =>
       match get_value (bucket out (bucket_of key)) key with
       | None => true
       | Some _ => false
       end)
    (DETALLE_LABELS ++ PRONOSTICO_LABELS ++ FUEL_LABELS).

(** One turn of the fallback loop; the inner [try] turns any exception of
    the helper or of [_to_float] into [val = None]. *)
Definition fallback_step (helper : str -> str -> result (option str))
  (out : snapshot) (f : field_spec) : snapshot :=
  let '(label, unit, key) := f in
  let val :=
    match (let! val_str := helper label unit in _to_float val_str) with
    | Ok val => val
    | Raise _ => None
    end in
  let b := bucket_of key in
  match get_value (bucket out b) key, val with
  | None, Some _ => bucket_set out b key val
  | _, _ => out
  end.

Definition scrape_once (page : browser) : result snapshot :=
  let page_texts := map (fun url => page_text (visit page url)) PAGES in
  let merged_text := join newline page_texts in
  let merged_text :=
    match porcentajes page with
    | Some porcentajes_text => merged_text ++ newline ++ porcentajes_text
    | None => merged_text
    end in
  let merged_text := join newline page_texts in
  let! detalles := first_pass merged_text DETALLE_LABELS in
  let! pronostico := first_pass merged_text PRONOSTICO_LABELS in
  let! parsed_mix := parse_fuel_mix merged_text in
  let fuel :=
    fold_left (fun d f => setdefault d (key_of f) None) FUEL_LABELS [] in
  let fuel :=
    fold_left
      (fun d '(k, v) => match v with Some _ => set d k v | None => d end)
      parsed_mix fuel in
  let out :=
    Snapshot (now page) (_search_timestamp merged_text)
      detalles pronostico fuel PAGES in
  let missing := missing_fields out in
  match missing, dom_helper page with
  | _ :: _, Some helper => Ok (fold_left (fallback_step helper) missing out)
  | _, _ => Ok out
  end.

(** ** Vocabulary of the statements below *)

(** The text every search of [scrape_once] runs on. *)
Definition merged_pages (page : browser) : str :=
  join newline (map (fun url => page_text (visit page url)) PAGES).

(** The loop bodies of [scrape_once] and [parse_fuel_mix] as plain steps,
    for the proofs: each is the body with the value of the call it makes. *)

Definition label_step (merged_text : str) (d : dict (option float))
  (f : field_spec) : dict (option float) :=
  let '(label, unit, key) := f in
  set d key (value_of (_search_number_after_label merged_text label unit)).

Definition fuel_step (out : dict (option float)) (m : match_)
  : dict (option float) :=
  match truthy_key (fuel_key (group m 1)) with
  | Some key => set out key (value_of (_to_float (Some (group m 2))))
  | None => out
  end.

Definition merge_step (d : dict (option float)) (kv : str * option float)
  : dict (option float) :=
  let '(k, v) := kv in
  match v with Some _ => set d k v | None => d end.

(** The dictionary [parse_fuel_mix] starts from. *)
Definition empty_mix : dict (option float) :=
  [ (py "gas_natural", None);
    (py "carbon", None);
    (py "bunker_diesel", None);
    (py "renovables", None);
    (py "otros", None) ].

(** [out] as it stands after the first pass, before the fallback. *)
Definition first_stage (page : browser) : snapshot :=
  let merged_text := merged_pages page in
  Snapshot (now page) (_search_timestamp merged_text)
    (fold_left (label_step merged_text) DETALLE_LABELS [])
    (fold_left (label_step merged_text) PRONOSTICO_LABELS [])
    (fold_left merge_step
       (fold_left fuel_step (finditer FUEL_REGEX merged_text) empty_mix)
       (fold_left (fun d f => setdefault d (key_of f) None) FUEL_LABELS []))
    PAGES.

(** The second pass, from [out] as the first pass left it. *)
Definition second_stage (page : browser) (out : snapshot) : snapshot :=
  match missing_fields out, dom_helper page with
  | _ :: _, Some helper => fold_left (fallback_step helper) (missing_fields out) out
  | _, _ => out
  end.

(** Visits that find [text] on the first page and nothing on the others. *)
Definition first_page_only (text : str) (url : str) : capture :=
  if str_eqb url (hd [] PAGES) then Loaded text else Failed None.

(** The same browser with another outcome of the "Porcentajes" step. *)
Definition with_porcentajes (page : browser) (text : option str) : browser :=
  Browser (now page) (visit page) text (dom_helper page).

(** The same browser with the DOM fallback out of reach. *)
Definition without_helper (page : browser) : browser :=
  Browser (now page) (visit page) (porcentajes page) None.

(** The keys of the fuel-mix catalog, each once. *)
Definition FUEL_KEYS : list str :=
  [ py "gas_natural"; py "carbon"; py "bunker_diesel"; py "renovables";
    py "otros" ].

(** The canonical keys of the catalog behind each group of the snapshot. *)
Definition bucket_keys (b : bucket_id) : list str :=
  match b with
  | InDetalles => map key_of DETALLE_LABELS
  | InPronostico => map key_of PRONOSTICO_LABELS
  | InFuelMix => FUEL_KEYS
  end.

(** Each group of the snapshot holds exactly the keys of its catalog. *)
Definition catalog_keyed (out : snapshot) : Prop :=
  forall b, keys (bucket out b) = bucket_keys b.

(** Whether a match of [FUEL_REGEX] carries a label of [key]. *)
Definition labels_key (key : str) (m : match_) : bool :=
  match fuel_key (group m 1) with
  | Some k => str_eqb k key
  | None => false
  end.

(** The number a match of [FUEL_REGEX] carries, normalised. *)
Definition match_value (m : match_) : option float :=
  value_of (_to_float (Some (group m 2))).

(** The occurrences of the labels of [key] in the text, in text order. *)
Definition occurrences (page_text key : str) : list (option float) :=
  map match_value
    (List.filter (labels_key key) (finditer FUEL_REGEX page_text)).

(** "First match wins", in the words of the specification. *)
Definition first_occurrence (page_text key : str) : option float :=
  hd None (occurrences page_text key).

(** The last occurrence, which is what the loop leaves in place. *)
Definition last_occurrence (page_text key : str) : option float :=
  List.last (occurrences page_text key) None.


(** A browser that finds [text] on the first page and nothing else: no
    other page, no "Porcentajes" view, no DOM helper. *)
Definition showing (text : str) : browser :=
  Browser (py "2025-10-20T23:31:15-04:00") (first_page_only text) None None.

End Scraper.

(* ===================================================================== *)
(** * genera_plants_scraper.py *)
(* ===================================================================== *)

Module Plants.
Import Py Re.
Local Open Scope py_scope.

Definition PLANT_LABELS : list str :=
  [ py "San Juan"; py "Palo Seco"; py "Aguirre"; py "Costa Sur" ].

Definition PRIVATE_LABELS : list str := [ py "Ecoeléctrica"; py "AES" ].

(** [([\d\.,]+)\s*MW\b] with [re.IGNORECASE]. *)
Definition MW_RE : regex :=
  seqs [ Group 1 (plus true (Chr Scraper.num_char));
         Star true (Chr is_space);
         lit_ci (py "MW");
         WordB ].

(** Lines 29-33 of [_to_float]: the text handed to [float]. *)
Definition dot_decimal (s : str) : str :=
  let x := strip s in
  if contains (py ",") x && contains (py ".") x
  then replace (py ",") (py "") x
  else if contains (py ",") x
       then replace (py ",") (py ".") (replace (py ".") (py "") x)
       else x.

(** [_to_float(s)]: here the [except] is bare and catches everything. *)
Definition _to_float (s : option str) : result (option float) :=
  match s with
  | None => Ok None
  | Some [] => Ok None
  | Some ((_ :: _) as s) =>
    match float_of_str (dot_decimal s) with
    | Ok v => Ok (Some v)
    | Raise _ => Ok None
    end
  end.

Definition _extract_mw_values (text : option str) : result (list float) :=
  let text := match text with Some ((_ :: _) as t) => t | _ => [] end in
  for_each
    (fun vals m =>
       let! f := _to_float (Some (group m 1)) in
       match f with
       | Some f => Ok (vals ++ [f])
       | None => Ok vals
       end)
    (finditer MW_RE text) [].

Record unit_reading := Unit { unidad : str; mw : option float }.

Record plant_reading := Plant {
  nombre : str;
  total_MW : option float;
  unidades : list unit_reading
}.

(** The page, as seen by [harvest_for]: whether a card carries the title,
    and the text of the panel read after its details were opened. *)
Record page := Page {
  has_card : str -> bool;
  detail_of : str -> str
}.

(** [ln[:m.start()].strip().strip(":").strip("-").strip()], or
    [f"{title} unidad"] when that is empty. *)
Definition name_guess (title ln : str) (m : match_) : str :=
  match strip (strip_chars (py "-")
                 (strip_chars (py ":") (strip (firstn (m_start m) ln)))) with
  | [] => title ++ py " unidad"
  | guess => guess
  end.

Definition harvest_for (pg : page) (title : str)
  : result (option plant_reading) :=
  if negb (has_card pg title) then Ok None
  else
    let detail_text := detail_of pg title in
    let! unit_values := _extract_mw_values (Some detail_text) in
    let total_mw :=
      match unit_values with
      | [] => None
      | _ :: _ => Some (sum unit_values)
      end in
    let lines :=
      List.filter (fun ln => match strip ln with [] => false | _ => true end)
        (splitlines detail_text) in
    let! per_unit :=
      for_each
        (fun per_unit ln =>
           match search MW_RE ln with
           | None => Ok per_unit
           | Some m =>
             let! val := _to_float (Some (group m 1)) in
             Ok (per_unit ++ [Unit (name_guess title ln m) val])
           end)
        lines [] in
    Ok (Some (Plant title total_mw per_unit)).

(** ** Vocabulary of the statements below *)

(** The value a match of [MW_RE] contributes to [unit_values]: its number
    when it normalises, nothing otherwise. *)
Definition normalized (m : match_) : list float :=
  match value_of (_to_float (Some (group m 1))) with
  | Some f => [f]
  | None => []
  end.

(** The loop body of the per-line pass of [harvest_for], as a plain step. *)
Definition line_step (title : str) (per_unit : list unit_reading) (ln : str)
  : list unit_reading :=
  match search MW_RE ln with
  | None => per_unit
  | Some m =>
    per_unit ++ [Unit (name_guess title ln m)
                   (value_of (_to_float (Some (group m 1))))]
  end.

(** A page that shows one card, with the given panel text. *)
Definition one_card (text : str) : page := Page (fun _ => true) (fun _ => text).


(** [sum(vals) if vals else None] *)
Definition total_of (vals : list float) : option float :=
  match vals with
  | [] => None
  | _ :: _ => Some (sum vals)
  end.


(** [unit_values]: the numbers of all the MW matches of the text. *)
Definition unit_values (detail_text : str) : list float :=
  flat_map normalized (finditer MW_RE detail_text).




(** The sum of the values of the units that resolved, [None] when none
    did: the total in the words of the specification. *)
Definition units_total (units : list unit_reading) : option float :=
  total_of
    (flat_map (fun u => match mw u with Some f => [f] | None => [] end) units).

End Plants.

(* ===================================================================== *)
(** * pr_grid_logger.py *)
(* ===================================================================== *)

Module Logger.
Import Py.
Local Open Scope py_scope.

Definition COLUMNS : list str :=
  [ py "scraped_at_iso"; py "updated_label_raw"; py "generacion_total_MW";
    py "capacidad_disponible_MW"; py "reserva_en_rotacion_MW";
    py "reserva_operacional_MW"; py "demanda_proxima_hora_MW";
    py "demanda_maxima_hoy_MW"; py "gas_natural_pct"; py "carbon_pct";
    py "bunker_diesel_pct"; py "renovables_pct"; py "otros_pct";
    py "source_pages" ].

(** What [json.loads] builds. *)
#[warnings="-register-all"]
Inductive value :=
| VNone
| VBool (b : bool)
| VInt (z : Z)
| VFloat (f : float)
| VStr (s : str)
| VList (items : list value)
| VDict (entries : dict value).

(** The truth value of [v], as [or] tests it. *)
Definition truthy (v : value) : bool :=
  match v with
  | VNone => false
  | VBool b => b
  | VInt z => negb (z =? 0)%Z
  | VFloat (Fin d) => negb (mant d =? 0)%Z
  | VFloat _ => true
  | VStr s => match s with [] => false | _ => true end
  | VList items => match items with [] => false | _ => true end
  | VDict entries => match entries with [] => false | _ => true end
  end.

(** [payload.get(key, default) or default] *)
Definition get_or (payload : dict value) (key : str) (default : value)
  : value :=
  match get payload key with
  | Some v => if truthy v then v else default
  | None => default
  end.

(** [g.get(key)] on a value that may not be a dictionary. *)
Definition value_get (g : value) (key : str) : result value :=
  match g with
  | VDict d => Ok (match get d key with Some v => v | None => VNone end)
  | _ => Raise AttributeError
  end.

(** [float(z)] for an integer: beyond the largest double it overflows. *)
Definition float_of_int (z : Z) : result float :=
  if (Z.abs z <? 2 ^ 1024 - 2 ^ 970)%Z then Ok (round64 z 0)
  else Raise OverflowError.

(** [num(x)]: [float(x) if x is not None else None] *)
Definition num (x : value) : result (option float) :=
  match x with
  | VNone => Ok None
  | VBool b => Ok (Some (Fin (Dec (if b then 1 else 0) 0)))
  | VInt z => let! f := float_of_int z in Ok (Some f)
  | VFloat f => Ok (Some f)
  | VStr s => let! f := float_of_str s in Ok (Some f)
  | VList _ | VDict _ => Raise TypeError
  end.

(** [",".join(pages)] for whatever [pages] is. *)
Definition join_pages (pages : value) : result str :=
  match pages with
  | VList items =>
    let! parts :=
      for_each
        (fun acc item =>
           match item with
           | VStr s => Ok (acc ++ [s])
           | _ => Raise TypeError
           end)
        items [] in
    Ok (join (py ",") parts)
  | VStr s => Ok (join (py ",") (map (fun c => [c]) s))
  | VDict entries => Ok (join (py ",") (keys entries))
  | _ => Raise TypeError
  end.

(** The list [parse_row] returns, by column: the key, the raw label, the
    eleven readings and the joined pages. *)
Record row := Row {
  scraped_at_iso : str;
  updated_label_raw : value;
  readings : list (option float);
  source_pages : str
}.

Definition reading_cell (x : option float) : value :=
  match x with
  | Some f => VFloat f
  | None => VNone
  end.

(** The fourteen cells of a row, in the order of [COLUMNS]. *)
Definition cells (r : row) : list value :=
  VStr (scraped_at_iso r) :: updated_label_raw r
    :: map reading_cell (readings r) ++ [VStr (source_pages r)].

(** ** The files *)

(** What reading and parsing the snapshot file gives: the text of the
    exception of [read_text] or [json.loads], or the payload. *)
Inductive json_read :=
| Malformed (error : str)
| Payload (payload : value).

(** The files [process_once] touches (three distinct paths) and the two
    output streams.  The table [readings] is keyed by its primary key. *)
Record world := World {
  json_file : option json_read;
  csv_file : option (list (list value));
  db_file : option (gmap str row);
  stdout : list str;
  stderr : list str
}.

Definition with_csv (w : world) (csv : list (list value)) : world :=
  World (json_file w) (Some csv) (db_file w) (stdout w) (stderr w).

Definition with_db (w : world) (db : gmap str row) : world :=
  World (json_file w) (csv_file w) (Some db) (stdout w) (stderr w).

Definition print (w : world) (line : str) : world :=
  World (json_file w) (csv_file w) (db_file w) (stdout w ++ [line]) (stderr w).

Definition print_err (w : world) (line : str) : world :=
  World (json_file w) (csv_file w) (db_file w) (stdout w) (stderr w ++ [line]).

Definition ensure_csv (w : world) : world :=
  match csv_file w with
  | Some _ => w
  | None => with_csv w [map VStr COLUMNS]
  end.

Definition ensure_sqlite (w : world) : world :=
  match db_file w with
  | Some _ => w
  | None => with_db w ∅
  end.

Definition write_csv (r : row) (w : world) : world :=
  let w := ensure_csv w in
  match csv_file w with
  | Some lines => with_csv w (lines ++ [cells r])
  | None => w
  end.

Definition has_surrogate (s : str) : bool := existsb (in_range 55296 57343) s.

(** Binding one cell to a [?]: sqlite3 takes [None], numbers that fit 64
    bits, and text that encodes as UTF-8. *)
Definition bind_cell (v : value) : result unit :=
  match v with
  | VNone | VBool _ | VFloat _ => Ok tt
  | VInt z =>
    if ((- 2 ^ 63 <=? z) && (z <? 2 ^ 63))%Z then Ok tt else Raise OverflowError
  | VStr s => if has_surrogate s then Raise UnicodeEncodeError else Ok tt
  | VList _ | VDict _ => Raise SqliteError
  end.

(** [INSERT OR IGNORE]: a row whose key is taken is dropped silently. *)
Definition insert_or_ignore (db : gmap str row) (r : row) : gmap str row :=
  match db !! scraped_at_iso r with
  | Some _ => db
  | None => <[scraped_at_iso r := r]> db
  end.

Definition write_sqlite (r : row) (w : world) : world * result unit :=
  let w := ensure_sqlite w in
  match for_each (fun _ v => bind_cell v) (cells r) tt with
  | Raise e => (w, Raise e)
  | Ok _ =>
    match db_file w with
    | Some db => (with_db w (insert_or_ignore db r), Ok tt)
    | None => (w, Ok tt)
    end
  end.

(** [path.name]: what follows the last slash. *)
Definition path_name (path : str) : str :=
  rev (fold_left
         (fun acc c => if (c =? chr "/")%N then [] else c :: acc) path []).

(** ** Ingestion *)

Section Library.
(** [datetime.fromisoformat(s).isoformat()]; [None] when it raises. *)
Variable iso_roundtrip : str -> option str.
(** [str(v)] for a value that is neither a string nor [None]. *)
Variable str_of : value -> str.

Definition parse_row (payload : value) : result row :=
  match payload with
  | VDict payload =>
    let scraped_at :=
      match get payload (py "scraped_at") with
      | Some v => v
      | None => VNone
      end in
    let scraped_at_iso :=
      match scraped_at with
      | VStr s => match iso_roundtrip s with
                  | Some iso => iso
                  | None => s
                  end
      | VNone => []
      | other => str_of other
      end in
    let updated_label_raw :=
      match get payload (py "updated_label_raw") with
      | Some v => v
      | None => VStr []
      end in
    let dg := get_or payload (py "detalles_generacion") (VDict []) in
    let pd := get_or payload (py "pronostico_demanda") (VDict []) in
    let fx := get_or payload (py "fuel_mix_pct") (VDict []) in
    let! readings :=
      for_each
        (fun acc '(g, key) =>
           let! x := value_get g key in
           let! f := num x in
           Ok (acc ++ [f]))
        [ (dg, py "generacion_total_MW");
          (dg, py "capacidad_disponible_MW");
          (dg, py "reserva_en_rotacion_MW");
          (dg, py "reserva_operacional_MW");
          (pd, py "proxima_hora_MW");
          (pd, py "maxima_hoy_MW");
          (fx, py "gas_natural");
          (fx, py "carbon");
          (fx, py "bunker_diesel");
          (fx, py "renovables");
          (fx, py "otros") ] [] in
    let! pages := join_pages (get_or payload (py "source_pages") (VList [])) in
    Ok (Row scraped_at_iso updated_label_raw readings pages)
  | _ => Raise AttributeError
  end.

Definition process_once (json_path csv_path db_path : str) (verbose : bool)
  (w : world) : world * result unit :=
  match json_file w with
  | None =>
    (if verbose then print w (py "[WARN] JSON not found: " ++ json_path)
     else w, Ok tt)
  | Some (Malformed e) =>
    (print_err w (py "[ERROR] Failed to read/parse JSON: " ++ e), Ok tt)
  | Some (Payload payload) =>
    match parse_row payload with
    | Raise e => (w, Raise e)
    | Ok r =>
      match write_sqlite r w with
      | (w, Raise e) => (w, Raise e)
      | (w, Ok _) =>
        let w := write_csv r w in
        (if verbose
         then print w (py "[OK] Ingested scraped_at=" ++ scraped_at_iso r
                         ++ py " → CSV:" ++ path_name csv_path
                         ++ py ", DB:" ++ path_name db_path)
         else w, Ok tt)
      end
    end
  end.
End Library.

(** ** The library calls on the values the scraper writes *)

Definition two_digits (a b : N) : option N :=
  if is_digit a && is_digit b then Some ((a - 48) * 10 + (b - 48))%N else None.

Definition leap_year (y : N) : bool :=
  ((y mod 4 =? 0) && (negb (y mod 100 =? 0) || (y mod 400 =? 0)))%N.

Definition days_in_month (y m : N) : N :=
  if (m =? 2)%N then (if leap_year y then 29 else 28)%N
  else if existsb (N.eqb m) [4; 6; 9; 11]%N then 30%N else 31%N.

(** [fromisoformat] then [isoformat] on a stamp of the shape
    [YYYY-MM-DD?HH:MM:SS+HH:MM], the one [isoformat(timespec="seconds")]
    writes for an aware time: the date and the time are checked, the
    separator becomes ["T"] and a zero offset is written [+00:00].  Other
    shapes are left to the caller's fallback. *)
Definition iso_seconds (s : str) : option str :=
  match s with
  | [y1; y2; y3; y4; 45; m1; m2; 45; d1; d2; sep; h1; h2; 58; n1; n2; 58;
     s1; s2; sg; o1; o2; 58; p1; p2]%N =>
    match two_digits y1 y2, two_digits y3 y4, two_digits m1 m2,
          two_digits d1 d2, two_digits h1 h2, two_digits n1 n2,
          two_digits s1 s2, two_digits o1 o2, two_digits p1 p2 with
    | Some yh, Some yl, Some mo, Some d, Some h, Some mi, Some se,
      Some oh, Some om =>
      let y := (yh * 100 + yl)%N in
      if ((1 <=? y) && (1 <=? mo) && (mo <=? 12) && (1 <=? d)
          && (d <=? days_in_month y mo) && (h <? 24) && (mi <? 60)
          && (se <? 60) && (oh <? 24) && (om <? 60)
          && ((sg =? 43) || (sg =? 45)))%N
      then
        let sg' := if ((oh =? 0) && (om =? 0))%N then 43%N else sg in
        Some [y1; y2; y3; y4; 45; m1; m2; 45; d1; d2; 84; h1; h2; 58;
              n1; n2; 58; s1; s2; sg'; o1; o2; 58; p1; p2]%N
      else None
    | _, _, _, _, _, _, _, _, _ => None
    end
  | _ => None
  end.

(** [str(v)] for the scalars [True], [False] and the integers; the other
    values stand as a placeholder. *)
Definition str_scalar (v : value) : str :=
  match v with
  | VBool true => py "True"
  | VBool false => py "False"
  | VInt z => py (DecimalString.NilZero.string_of_int (Z.to_int z))
  | _ => py "<object>"
  end.

(** The rows of the flat log below its header. *)
Definition csv_rows (w : world) : list (list value) :=
  match csv_file w with
  | Some lines => tl lines
  | None => []
  end.

(** The rows of the table [readings]. *)
Definition db_rows (w : world) : gmap str row :=
  match db_file w with
  | Some db => db
  | None => ∅
  end.

(** ** Vocabulary of the statements below *)

(** sqlite3 accepts every cell of the row. *)
Definition bindable (r : row) : Prop :=
  for_each (fun _ v => bind_cell v) (cells r) tt = Ok tt.

(** The lines of the flat log, none when the file is not there. *)
Definition csv_lines (w : world) : list (list value) :=
  match csv_file w with
  | Some lines => lines
  | None => []
  end.

(** Nothing on disk but the snapshot file, with the given content. *)
Definition fresh_world (content : json_read) : world :=
  World (Some content) None None [] [].

(** A snapshot scraped at 2025-10-20T23:31:15-04:00. *)
Definition scenario_payload : value :=
  VDict
    [ (py "scraped_at", VStr (py "2025-10-20T23:31:15-04:00"));
      (py "updated_label_raw", VStr (py "10/20/2025 11:30:02 PM"));
      (py "detalles_generacion",
       VDict [ (py "generacion_total_MW", VFloat (decimal 2129 0));
               (py "capacidad_disponible_MW", VNone);
               (py "reserva_en_rotacion_MW", VNone);
               (py "reserva_operacional_MW", VNone) ]);
      (py "pronostico_demanda",
       VDict [ (py "proxima_hora_MW", VNone); (py "maxima_hoy_MW", VNone) ]);
      (py "fuel_mix_pct",
       VDict [ (py "gas_natural", VNone); (py "carbon", VNone);
               (py "bunker_diesel", VFloat (decimal 185 1));
               (py "renovables", VNone); (py "otros", VNone) ]);
      (py "source_pages",
       VList [ VStr (py "https://genera-pr.com/data-tr");
               VStr (py "https://genera-pr.com/data-generacion") ]) ].

(** [process_once] with the library calls of this file and fixed paths. *)
Definition ingest (verbose : bool) (w : world) : world * result unit :=
  process_once iso_seconds str_scalar (py "/data/snapshot.json")
    (py "/data/generation_log.csv") (py "/data/generation_log.sqlite")
    verbose w.

(** The row of a payload, as [parse_row] builds it. *)
Definition row_of (payload : value) : row :=
  match parse_row iso_seconds str_scalar payload with
  | Ok r => r
  | Raise _ => Row [] VNone [] []
  end.

(** The files after one ingestion of the scenario into nothing. *)
Definition ingested_once : world :=
  fst (ingest false (fresh_world (Payload scenario_payload))).

(** A snapshot with the time stamp of the scenario whose label is a JSON
    list. *)
Definition listed_label_payload : value :=
  VDict
    [ (py "scraped_at", VStr (py "2025-10-20T23:31:15-04:00"));
      (py "updated_label_raw", VList [ VStr (py "10/20/2025 11:30:02 PM") ]) ].

End Logger.

(* ===================================================================== *)
(** * Vocabulary for the matcher *)
(* ===================================================================== *)

Module ReSpec.
Import Py Re.

(** Every character [r] can consume satisfies [P]. *)
Fixpoint consumes (P : N -> Prop) (r : regex) : Prop :=
  match r with
  | Chr p => forall c, p c = true -> P c
  | Seq a b | Alt a b => consumes P a /\ consumes P b
  | Star _ a | Group _ a => consumes P a
  | Eps | WordB => True
  end.

(** Every group numbered [n] in [r] consumes characters of [P] only. *)
Fixpoint captures (n : nat) (P : N -> Prop) (r : regex) : Prop :=
  match r with
  | Group m a => (m = n -> consumes P a) /\ captures n P a
  | Seq a b | Alt a b => captures n P a /\ captures n P b
  | Star _ a => captures n P a
  | Eps | Chr _ | WordB => True
  end.

(** The texts recorded for group [n] are made of characters of [P]. *)
Definition caps_ok (n : nat) (P : N -> Prop) (cs : list (nat * str)) : Prop :=
  forall txt, In (n, txt) cs -> Forall P txt.

(** What a run of [r] from [st] to [st'] guarantees: the text consumed
    lies between the two positions, and the groups are as [captures] says. *)
Definition run_inv (r : regex) (st st' : mstate) : Prop :=
  (exists w, rest st = w ++ rest st'
             /\ pos st' = (pos st + length w)%nat
             /\ forall P, consumes P r -> Forall P w)
  /\ (forall n P, captures n P r ->
        caps_ok n P (caps st) -> caps_ok n P (caps st')).

End ReSpec.

(* ===================================================================== *)
(** * Vocabulary for the extracted numbers *)
(* ===================================================================== *)

Module NumSpec.
Import Py.

(** A text of the class [[\d\.,]]: digits, dots and commas. *)
Definition num_text (s : str) : Prop :=
  Forall (fun c => Scraper.num_char c = true) s.

(** A text of ASCII digits. *)
Definition digit_text (s : str) : Prop :=
  Forall (fun c => is_digit c = true) s.

(** How many times a character occurs in a text. *)
Definition count_char (x : N) (s : str) : nat :=
  length (List.filter (N.eqb x) s).

(** The number written [whole "." frac], both parts being digits. *)
Definition decimal_of (whole frac : str) : float :=
  round64 (digits_value (whole ++ frac)) (- Z.of_nat (length frac)).

(** A number that is neither negative nor NaN. *)
Definition nonneg (v : float) : Prop :=
  match v with
  | Fin d => (0 <= mant d)%Z
  | Inf negative => negative = false
  | NaN => False
  end.

(** An optional number that, when present, is neither negative nor NaN. *)
Definition reading_ok (x : option float) : Prop :=
  forall v, x = Some v -> nonneg v.

(** No number held by the dictionary is negative or NaN. *)
Definition values_ok (d : dict (option float)) : Prop :=
  Forall (fun kv => reading_ok (snd kv)) d.

(** The DOM helper hands back texts of the class [[\d\.,]] only, as its
    pattern [([\d.,]+)] makes it. *)
Definition helper_ok (helper : option (str -> str -> result (option str)))
  : Prop :=
  forall h, helper = Some h ->
    forall label unit s, h label unit = Ok (Some s) -> num_text s.

End NumSpec.

(* ===================================================================== *)
(** * pr_grid_logger.py: the polling loop *)
(* ===================================================================== *)

Module Poller.
Import Py Logger.

(** [a == b] on two floats: equal numbers, [nan] being equal to
    nothing. *)
Definition float_eqb (a b : float) : bool :=
  match a, b with
  | Fin x, Fin y =>
    let e := Z.min (expo x) (expo y) in
    (mant x * 10 ^ (expo x - e) =? mant y * 10 ^ (expo y - e))%Z
  | Inf x, Inf y => Bool.eqb x y
  | _, _ => false
  end.

Section Loop.
Variable iso_roundtrip : str -> option str.
Variable str_of : value -> str.

(** One turn of the [while True] loop of [main] (lines 158-172), the sleep
    apart.  [mtime] is what [json_path.stat().st_mtime] gave, [None] for
    [FileNotFoundError]; the result is the new [last_seen_mtime]. *)
Definition poll (json_path csv_path db_path : str) (verbose : bool)
  (last_seen_mtime mtime : option float) (w : world)
  : world * result (option float) :=
  match mtime with
  | None =>
    (if verbose then print w (py "[WAIT] snapshot.json not found, retrying…")
     else w, Ok last_seen_mtime)
  | Some m =>
    if match last_seen_mtime with
       | None => true
       | Some seen => negb (float_eqb m seen)
       end
    then
      match process_once iso_roundtrip str_of json_path csv_path db_path
              verbose w with
      | (w, Raise e) => (w, Raise e)
      | (w, Ok _) => (w, Ok (Some m))
      end
    else
      (if verbose then print w (py "[SKIP] No change detected") else w,
       Ok last_seen_mtime)
  end.
End Loop.

End Poller.

(* ===================================================================== *)
(** * From the scraper's snapshot to the logger's payload *)
(* ===================================================================== *)

Module Interchange.
Import Py.

Definition json_number (x : option float) : Logger.value :=
  match x with
  | Some f => Logger.VFloat f
  | None => Logger.VNone
  end.

Definition json_text (x : option str) : Logger.value :=
  match x with
  | Some s => Logger.VStr s
  | None => Logger.VNone
  end.

Definition json_group (d : dict (option float)) : Logger.value :=
  Logger.VDict (map (fun kv => (fst kv, json_number (snd kv))) d).

(** What [json.loads] reads back from [json.dumps(snapshot)] (line 262 of
    genera_scraper.py, line 117 of pr_grid_logger.py): the same
    dictionary, key by key. *)
Definition snapshot_entries (out : Scraper.snapshot) : dict Logger.value :=
  [ (py "scraped_at", Logger.VStr (Scraper.scraped_at out));
    (py "updated_label_raw", json_text (Scraper.updated_label_raw out));
    (py "detalles_generacion", json_group (Scraper.detalles_generacion out));
    (py "pronostico_demanda", json_group (Scraper.pronostico_demanda out));
    (py "fuel_mix_pct", json_group (Scraper.fuel_mix_pct out));
    (py "source_pages",
     Logger.VList (map Logger.VStr (Scraper.source_pages out))) ].

Definition to_json (out : Scraper.snapshot) : Logger.value :=
  Logger.VDict (snapshot_entries out).

(** The snapshot field behind each numeric column, in column order. *)
Definition column_sources : list (Scraper.bucket_id * str) :=
  [ (Scraper.InDetalles, py "generacion_total_MW");
    (Scraper.InDetalles, py "capacidad_disponible_MW");
    (Scraper.InDetalles, py "reserva_en_rotacion_MW");
    (Scraper.InDetalles, py "reserva_operacional_MW");
    (Scraper.InPronostico, py "proxima_hora_MW");
    (Scraper.InPronostico, py "maxima_hoy_MW");
    (Scraper.InFuelMix, py "gas_natural");
    (Scraper.InFuelMix, py "carbon");
    (Scraper.InFuelMix, py "bunker_diesel");
    (Scraper.InFuelMix, py "renovables");
    (Scraper.InFuelMix, py "otros") ].

End Interchange.

(* ===================================================================== *)
(** * genera_fuel_mix_scraper.py *)
(* ===================================================================== *)

Module FuelTable.
Import Py.

(** The second element of a row: the percentage as a number, or the cell
    text when [float] refuses it. *)
Inductive percent :=
| Number (pct : float)
| Text (pct_raw : str).

(** The body of the inner loop of [extract_rows_from_tables] (lines 22-32),
    on the texts of the cells of one row. *)
Definition row_of_cells (tds : list str) : list (str * percent) :=
  if (length tds <? 2)%nat then []
  else
    let fuel := strip (nth 0 tds []) in
    let pct_raw := strip (nth 1 tds []) in
    let pct :=
      match float_of_str (strip (replace (py "%") (py "") pct_raw)) with
      | Ok pct => Number pct
      | Raise _ => Text pct_raw
      end in
    match fuel with
    | [] => []
    | _ :: _ => [(fuel, pct)]
    end.

(** [extract_rows_from_tables(page)], on the tables the locator matches:
    each one given by its body rows, each row by the texts of its cells. *)
Definition extract_rows_from_tables (tables : list (list (list str)))
  : list (str * percent) :=
  fold_left
    (fun rows tbody_rows =>
       fold_left (fun rows tds => rows ++ row_of_cells tds) tbody_rows rows)
    tables [].

(** A cell of the CSV file of [main]. *)
Inductive cell :=
| CText (s : str)
| CPercent (p : percent).


(** ** Vocabulary of the statements below *)



(** The rows [extract_rows_from_tables] looks at: those with two cells at
    least, in document order. *)
Definition wide_rows (tables : list (list (list str))) : list (list str) :=
  List.filter (fun tds => (2 <=? length tds)%nat) (concat tables).

Definition nonempty (s : str) : bool :=
  match s with
  | [] => false
  | _ :: _ => true
  end.

End FuelTable.

(* ===================================================================== *)
(** * genera_plants_scraper.py: navigation and assembly *)
(* ===================================================================== *)

Module PlantsSession.
Import Py Re.

(** How one attempt of [robust_goto] ends: the selector showed up, or one
    of its steps raised. *)
Inductive attempt :=
| Ready
| Raised (e : exn).

Definition PWTimeout : exn := OtherError (py "TimeoutError").

(** [except PWTimeout]: whether the exception is a Playwright timeout. *)
Definition is_timeout (e : exn) : bool :=
  match e with
  | OtherError what => str_eqb what (py "TimeoutError")
  | _ => false
  end.

(** [robust_goto]: the result, and the number of attempts made.  A timeout
    of the first attempt is followed by one retry; anything else raised,
    and whatever the second attempt raises, goes to the caller. *)
Definition robust_goto (try : nat -> attempt) : result bool * nat :=
  match try 1%nat with
  | Ready => (Ok true, 1%nat)
  | Raised e =>
    if is_timeout e then
      match try 2%nat with
      | Ready => (Ok true, 2%nat)
      | Raised e' => (Raise e', 2%nat)
      end
    else (Raise e, 1%nat)
  end.

Definition selectors : list str :=
  [ py "text=Data Generación"; py "text=Generación"; py "text=Ver Data";
    py "h2:has-text('San Juan')"; py "h2:has-text('Palo Seco')";
    py "h2:has-text('Aguirre')"; py "h2:has-text('Costa Sur')" ].

(** What [harvest_for] meets for a title: no card, a panel with its text,
    or a browser call that raises. *)
Inductive card :=
| NoCard
| Panel (detail_text : str)
| Crashed (e : exn).

Record session := Session {
  (** the clock *)
  now : str;
  (** the attempts of [robust_goto], by selector and attempt number *)
  navigation : str -> nat -> attempt;
  (** the last-resort [page.goto(..., wait_until="load")] *)
  last_resort : result unit;
  (** the wait for a dialog of line 212 *)
  dialog_wait : attempt;
  (** [page.inner_text("body")], [None] when it raises *)
  body_text : option str;
  (** what each title finds *)
  card_of : str -> card
}.

(** The selector loop (lines 191-203): [None] when one selector loaded the
    page or the last resort went through, else the exception. *)
Fixpoint load_page (s : session) (sels : list str) : option exn :=
  match sels with
  | [] => match last_resort s with
          | Ok _ => None
          | Raise e => Some e
          end
  | sel :: sels' =>
    match fst (robust_goto (navigation s sel)) with
    | Ok _ => None
    | Raise e => if is_timeout e then load_page s sels' else Some e
    end
  end.

(** [r"Actualizado\s+([^\n\r]+)"] with [re.IGNORECASE]. *)
Definition updated_re : regex :=
  seqs [ lit_ci (py "Actualizado");
         plus true (Chr is_space);
         Group 1 (plus true
                    (Chr (fun c => negb ((c =? 10)%N || (c =? 13)%N)))) ].

Definition updated_label (s : session) : option str :=
  match body_text s with
  | None => None
  | Some body =>
    match search updated_re body with
    | Some m => Some (strip (group m 1))
    | None => None
    end
  end.

(** [harvest_for(title)] in this session. *)
Definition harvest (s : session) (title : str)
  : result (option Plants.plant_reading) :=
  match card_of s title with
  | NoCard => Plants.harvest_for (Plants.Page (fun _ => false) (fun _ => [])) title
  | Panel text => Plants.harvest_for (Plants.one_card text) title
  | Crashed e => Raise e
  end.

(** The two harvesting loops (lines 273-288): an item is kept when
    [harvest_for] returns one, a title that raises is skipped. *)
Definition collect (s : session) (labels : list str)
  : list Plants.plant_reading :=
  fold_left
    (fun items name =>
       match harvest s name with
       | Ok (Some item) => items ++ [item]
       | Ok None | Raise _ => items
       end)
    labels [].

(** Whether a title finds a card whose panel can be read. *)
Definition shows_panel (s : session) (title : str) : bool :=
  match card_of s title with
  | Panel _ => true
  | NoCard | Crashed _ => false
  end.

Record plants_snapshot := PlantsSnapshot {
  scraped_at : str;
  updated_label_raw : option str;
  plants : list Plants.plant_reading;
  private_producers : list Plants.plant_reading;
  source_page : str
}.

Definition TARGET_URL : str := py "https://genera-pr.com/data-generacion".

(** Lines 211-214: only a timeout of the wait is passed over. *)
Definition await_dialog (s : session) : option exn :=
  match dialog_wait s with
  | Ready => None
  | Raised e => if is_timeout e then None else Some e
  end.

(** [scrape_plants], in a session whose browser starts and closes. *)
Definition scrape_plants (s : session) : result plants_snapshot :=
  match load_page s selectors with
  | Some e => Raise e
  | None =>
    match await_dialog s with
    | Some e => Raise e
    | None =>
      Ok (PlantsSnapshot (now s) (updated_label s)
            (collect s Plants.PLANT_LABELS)
            (collect s Plants.PRIVATE_LABELS) TARGET_URL)
    end
  end.

(** A session in which every navigation times out. *)
Definition stalled : session :=
  Session (py "2025-10-20T23:31:15-04:00")
    (fun _ _ => Raised PWTimeout) (Raise PWTimeout) Ready None
    (fun _ => NoCard).

(** A session that loads at once, with no dialog; the card of Aguirre
    breaks, AES has none, the others show one unit. *)
Definition patchy : session :=
  Session (py "2025-10-20T23:31:15-04:00")
    (fun _ _ => Ready) (Ok tt) (Raised PWTimeout) None
    (fun title =>
       if str_eqb title (py "Aguirre") then Crashed ValueError
       else if str_eqb title (py "AES") then NoCard
       else Panel (py "Unidad 1: 250 MW")).

End PlantsSession.

(* ===================================================================== *)
(** * Vocabulary for the sink *)
(* ===================================================================== *)

Module LoggerSpec.
Import Py Logger.

(** Every line of the flat log is the header or starts with a key that the
    table [readings] holds. *)
Definition log_in_store (w : world) : Prop :=
  forall line, In line (csv_lines w) ->
    line = map VStr COLUMNS
    \/ exists k, hd VNone line = VStr k /\ is_Some (db_rows w !! k).

(** The value under a key is missing or counts as false. *)
Definition absent_or_falsy (entries : dict value) (key : str) : Prop :=
  match get entries key with
  | Some v => truthy v = false
  | None => True
  end.

End LoggerSpec.

(* ===================================================================== *)
(** * Properties of the Python model *)
(* ===================================================================== *)

Import Py.

Lemma str_eqb_refl (a : str) : str_eqb a a = true.
Proof.
  induction a as [|x a IH]; simpl; [reflexivity|].
  now rewrite N.eqb_refl, IH.
Qed.

Lemma str_eqb_eq (a b : str) : str_eqb a b = true <-> a = b.
Proof.
  split; [|intros ->; apply str_eqb_refl].
  revert b; induction a as [|x a IH]; intros [|y b]; simpl; try discriminate.
  - reflexivity.
  - intros H. apply andb_true_iff in H as [Hx Hab].
    apply N.eqb_eq in Hx. apply IH in Hab. now subst.
Qed.

Lemma str_eqb_neq (a b : str) : str_eqb a b = false <-> a <> b.
Proof.
  rewrite <- str_eqb_eq. destruct (str_eqb a b); split; congruence.
Qed.

Lemma mem_In (k : str) (ks : list str) : mem k ks = true <-> In k ks.
Proof.
  unfold mem. rewrite existsb_exists. split.
  - intros (x & Hx & E). apply str_eqb_eq in E. now subst.
  - intros H. exists k. split; [assumption | apply str_eqb_refl].
Qed.

Section DictFacts.
Context {V : Type}.
Implicit Types (d : dict V) (k : str) (v : V).

Lemma get_set_same d k v : get (set d k v) k = Some v.
Proof.
  induction d as [|[k' v'] d IH]; simpl.
  - now rewrite str_eqb_refl.
  - destruct (str_eqb k' k) eqn:E; simpl; rewrite E; [reflexivity | exact IH].
Qed.

Lemma get_set_other d k k' v : k <> k' -> get (set d k v) k' = get d k'.
Proof.
  intros Hne. induction d as [|[k0 v0] d IH]; simpl.
  - apply str_eqb_neq in Hne. now rewrite Hne.
  - destruct (str_eqb k0 k) eqn:E; simpl.
    + apply str_eqb_eq in E. subst k0.
      apply str_eqb_neq in Hne. now rewrite Hne.
    + destruct (str_eqb k0 k'); [reflexivity | exact IH].
Qed.


Lemma In_get_Some d k : In k (keys d) -> exists v, get d k = Some v.
Proof.
  induction d as [|[k' v'] d IH]; simpl; [tauto|].
  intros H. destruct (str_eqb k' k) eqn:E; [now eexists|].
  destruct H as [H|H]; [|now apply IH].
  apply str_eqb_neq in E. congruence.
Qed.

(** Assigning to a key that is there keeps the keys and their order. *)
Lemma keys_set_present d k v : In k (keys d) -> keys (set d k v) = keys d.
Proof.
  induction d as [|[k' v'] d IH]; simpl; [tauto|].
  intros H. destruct (str_eqb k' k) eqn:E; simpl; [reflexivity|].
  f_equal. apply IH. destruct H as [H|H]; [|assumption].
  apply str_eqb_neq in E. congruence.
Qed.

(** Assigning to a new key puts it last. *)
Lemma keys_set_absent d k v : ~ In k (keys d) -> keys (set d k v) = keys d ++ [k].
Proof.
  induction d as [|[k' v'] d IH]; simpl; [reflexivity|].
  intros H. destruct (str_eqb k' k) eqn:E; simpl.
  - apply str_eqb_eq in E. tauto.
  - f_equal. apply IH. tauto.
Qed.

Lemma get_In_value d k v : get d k = Some v -> In v (map snd d).
Proof.
  induction d as [|[k' v'] d IH]; simpl; [discriminate|].
  destruct (str_eqb k' k); [intros [= ->]; now left | intros H; right; auto].
Qed.
End DictFacts.

(** A loop whose body never raises is a fold. *)
Lemma for_each_fold {A X : Type} (body : A -> X -> result A)
  (step : A -> X -> A) (xs : list X) :
  (forall acc x, body acc x = Ok (step acc x)) ->
  forall acc, for_each body xs acc = Ok (fold_left step xs acc).
Proof.
  intros Hbody. induction xs as [|x xs IH]; intros acc; simpl; [reflexivity|].
  rewrite Hbody. simpl. apply IH.
Qed.

Lemma last_cons_default {A : Type} (a d : A) (l : list A) :
  List.last (a :: l) d = List.last l a.
Proof.
  revert a d. induction l as [|b l IH]; intros a d; [reflexivity|].
  change (List.last (a :: b :: l) d) with (List.last (b :: l) d).
  now rewrite !IH.
Qed.

(** [float] raises nothing but [ValueError]. *)
Lemma float_of_str_cases (s : str) :
  float_of_str s = match parse_float s with
                   | Some v => Ok v
                   | None => Raise ValueError
                   end.
Proof. reflexivity. Qed.

(* ===================================================================== *)
(** * The numeric normaliser *)
(* ===================================================================== *)

Lemma scraper_to_float_eq (s : str) :
  Scraper._to_float (Some s)
  = Ok (match s with [] => None | _ :: _ => parse_float (Scraper.dot_decimal s) end).
Proof.
  destruct s as [|c s]; [reflexivity|].
  unfold Scraper._to_float. rewrite float_of_str_cases.
  destruct (parse_float _); reflexivity.
Qed.

Lemma plants_to_float_eq (s : str) :
  Plants._to_float (Some s)
  = Ok (match s with [] => None | _ :: _ => parse_float (Plants.dot_decimal s) end).
Proof.
  destruct s as [|c s]; [reflexivity|].
  unfold Plants._to_float. rewrite float_of_str_cases.
  destruct (parse_float _); reflexivity.
Qed.

Lemma scraper_to_float_ok (x : option str) :
  Scraper._to_float x = Ok (value_of (Scraper._to_float x)).
Proof.
  destruct x as [s|]; [|reflexivity]. now rewrite scraper_to_float_eq.
Qed.

Lemma plants_to_float_ok (x : option str) :
  Plants._to_float x = Ok (value_of (Plants._to_float x)).
Proof.
  destruct x as [s|]; [|reflexivity]. now rewrite plants_to_float_eq.
Qed.

(** C9.  [_to_float] is total, in both scrapers: it returns a value for
    every argument, [None] for [None] and for the empty string, and for any
    other string what [float] makes of its dot-decimal form, [None] when
    that form does not parse. *)
Theorem to_float_never_raises (x : option str) :
  (exists v, Scraper._to_float x = Ok v)
  /\ (exists v, Plants._to_float x = Ok v)
  /\ Scraper._to_float None = Ok None
  /\ Scraper._to_float (Some []) = Ok None
  /\ Plants._to_float None = Ok None
  /\ Plants._to_float (Some []) = Ok None
  /\ (forall s : str,
        Scraper._to_float (Some s)
        = Ok (match s with
              | [] => None
              | _ :: _ => parse_float (Scraper.dot_decimal s)
              end))
  /\ (forall s : str,
        Plants._to_float (Some s)
        = Ok (match s with
              | [] => None
              | _ :: _ => parse_float (Plants.dot_decimal s)
              end)).
Proof.
  repeat split; try reflexivity.
  - eexists. apply scraper_to_float_ok.
  - eexists. apply plants_to_float_ok.
  - apply scraper_to_float_eq.
  - apply plants_to_float_eq.
Qed.

(** C2.  [_to_float] on the three examples: "1,234.56" and "2129" give
    1234.56 and 2129.0, but "1.234,56" gives 1.23456, not 1234.56, because
    the comma is deleted whenever a dot is present too. *)
Theorem to_float_dot_grouped_comma_decimal :
  Scraper._to_float (Some (py "1,234.56")) = Ok (Some (decimal 123456 2))
  /\ Scraper._to_float (Some (py "2129")) = Ok (Some (decimal 2129 0))
  /\ Scraper._to_float (Some (py "1.234,56")) = Ok (Some (decimal 123456 5))
  /\ decimal 123456 5 <> decimal 123456 2.
Proof. repeat split; try (vm_compute; reflexivity). vm_compute; discriminate. Qed.

(** C10.  The text read after the click on "Porcentajes" has no part in
    the result of [scrape_once]: whatever that step returns, or if it
    raises, the snapshot is the same. *)
Theorem porcentajes_text_never_used (page : Scraper.browser) (text : option str) :
  Scraper.scrape_once (Scraper.with_porcentajes page text) = Scraper.scrape_once page.
Proof. reflexivity. Qed.

(* ===================================================================== *)
(** * The snapshot builder *)
(* ===================================================================== *)

Section ScraperFacts.
Import Re Scraper.

Lemma search_number_ok (t label unit : str) :
  _search_number_after_label t label unit
  = Ok (value_of (_search_number_after_label t label unit)).
Proof.
  unfold _search_number_after_label.
  destruct (search _ t); [apply scraper_to_float_ok | reflexivity].
Qed.

Lemma first_pass_fold (t : str) (catalog : list field_spec) :
  first_pass t catalog = Ok (fold_left (label_step t) catalog []).
Proof.
  unfold first_pass. apply for_each_fold.
  intros acc [[label unit] key]. simpl.
  now rewrite search_number_ok.
Qed.

Lemma parse_fuel_mix_fold (t : str) :
  parse_fuel_mix t = Ok (fold_left fuel_step (finditer FUEL_REGEX t) empty_mix).
Proof.
  unfold parse_fuel_mix. apply for_each_fold.
  intros acc m. unfold fuel_step.
  destruct (truthy_key _); [|reflexivity].
  now rewrite scraper_to_float_ok.
Qed.

Lemma scrape_once_stages (page : browser) :
  scrape_once page = Ok (second_stage page (first_stage page)).
Proof.
  unfold scrape_once.
  rewrite !first_pass_fold. cbn [bind].
  rewrite parse_fuel_mix_fold. cbn [bind].
  change (fold_left _ (fold_left fuel_step _ empty_mix) _)
    with (fuel_mix_pct (first_stage page)).
  unfold second_stage.
  fold (merged_pages page). 
  change (Snapshot _ _ _ _ _ _) with (first_stage page).
  destruct (missing_fields (first_stage page)); [reflexivity|].
  destruct (dom_helper page); reflexivity.
Qed.
End ScraperFacts.


Section KeyFacts.
Import Re Scraper.

Lemma keys_set {V : Type} (d : dict V) (k : str) (v : V) :
  keys (set d k v) = if mem k (keys d) then keys d else keys d ++ [k].
Proof.
  destruct (mem k (keys d)) eqn:E.
  - apply keys_set_present. now apply mem_In.
  - apply keys_set_absent. rewrite <- mem_In. congruence.
Qed.

Lemma keys_label_fold (t : str) (catalog : list field_spec)
  (d : dict (option float)) :
  keys (fold_left (label_step t) catalog d)
  = fold_left (fun ks f => if mem (key_of f) ks then ks else ks ++ [key_of f])
      catalog (keys d).
Proof.
  revert d. induction catalog as [|[[label unit] key] catalog IH]; intros d.
  - reflexivity.
  - simpl. rewrite IH. unfold label_step. now rewrite keys_set.
Qed.

Lemma fuel_key_known (raw k : str) : fuel_key raw = Some k -> In k FUEL_KEYS.
Proof.
  unfold fuel_key. intros H. apply get_In_value in H.
  revert H. generalize k. change (incl (map snd LABEL_NORMALIZE) FUEL_KEYS).
  vm_compute. intuition.
Qed.

Lemma truthy_key_known (x : option str) (k : str) :
  truthy_key x = Some k -> x = Some k.
Proof. destruct x as [[|c s]|]; simpl; congruence. Qed.

Lemma truthy_fuel_key (raw : str) : truthy_key (fuel_key raw) = fuel_key raw.
Proof.
  destruct (fuel_key raw) as [k|] eqn:E; [|reflexivity].
  apply fuel_key_known in E. destruct k; [|reflexivity].
  exfalso. revert E. vm_compute. intuition discriminate.
Qed.

Lemma keys_fuel_step (d : dict (option float)) (m : match_) :
  keys d = FUEL_KEYS -> keys (fuel_step d m) = FUEL_KEYS.
Proof.
  intros Hd. unfold fuel_step.
  destruct (truthy_key _) as [k|] eqn:E; [|assumption].
  apply truthy_key_known, fuel_key_known in E.
  rewrite keys_set_present; [assumption | now rewrite Hd].
Qed.

Lemma keys_fuel_fold (ms : list match_) (d : dict (option float)) :
  keys d = FUEL_KEYS -> keys (fold_left fuel_step ms d) = FUEL_KEYS.
Proof.
  revert d. induction ms as [|m ms IH]; intros d Hd; [assumption|].
  simpl. apply IH. now apply keys_fuel_step.
Qed.

Lemma keys_merge_fold (parsed d : dict (option float)) :
  incl (keys parsed) (keys d) -> keys (fold_left merge_step parsed d) = keys d.
Proof.
  revert d. induction parsed as [|[k v] parsed IH]; intros d Hin; [reflexivity|].
  cbn [fold_left]. assert (Hk : In k (keys d)) by (apply Hin; now left).
  assert (Hd : keys (merge_step d (k, v)) = keys d).
  { simpl. destruct v; [now apply keys_set_present | reflexivity]. }
  rewrite IH; [assumption|]. rewrite Hd.
  intros x Hx. apply Hin. now right.
Qed.

Lemma first_stage_keyed (page : browser) : catalog_keyed (first_stage page).
Proof.
  intros [| |]; unfold first_stage; cbn [bucket detalles_generacion pronostico_demanda fuel_mix_pct].
  - rewrite keys_label_fold. vm_compute. reflexivity.
  - rewrite keys_label_fold. vm_compute. reflexivity.
  - rewrite keys_merge_fold.
    + vm_compute. reflexivity.
    + rewrite keys_fuel_fold by reflexivity.
      vm_compute. intuition.
Qed.

Lemma bucket_bucket_set (out : snapshot) (b b' : bucket_id) (k : str)
  (v : option float) :
  bucket (bucket_set out b k v) b'
  = match b, b' with
    | InDetalles, InDetalles | InPronostico, InPronostico
    | InFuelMix, InFuelMix => set (bucket out b) k v
    | _, _ => bucket out b'
    end.
Proof. destruct b, b'; reflexivity. Qed.

Lemma catalog_bucket (f : field_spec) :
  In f (DETALLE_LABELS ++ PRONOSTICO_LABELS ++ FUEL_LABELS) ->
  In (key_of f) (bucket_keys (bucket_of (key_of f))).
Proof.
  intros H. vm_compute in H.
  repeat (destruct H as [H|H]; [subst f; vm_compute; tauto|]).
  contradiction.
Qed.

Lemma missing_fields_catalog (out : snapshot) (f : field_spec) :
  In f (missing_fields out) ->
  In f (DETALLE_LABELS ++ PRONOSTICO_LABELS ++ FUEL_LABELS).
Proof. unfold missing_fields. intros H. now apply filter_In in H. Qed.

Lemma fallback_step_keyed (helper : str -> str -> result (option str))
  (out : snapshot) (f : field_spec) :
  In f (DETALLE_LABELS ++ PRONOSTICO_LABELS ++ FUEL_LABELS) ->
  catalog_keyed out -> catalog_keyed (fallback_step helper out f).
Proof.
  intros Hf Hout. apply catalog_bucket in Hf.
  destruct f as [[label unit] key]. unfold fallback_step.
  change (key_of (label, unit, key)) with key in Hf.
  destruct (get_value _ key); [assumption|].
  destruct (match bind _ _ with Ok val => val | Raise _ => None end);
    [|assumption].
  intros b'. rewrite bucket_bucket_set.
  rewrite <- (Hout (bucket_of key)) in Hf.
  destruct (bucket_of key), b'; try apply Hout;
    (rewrite keys_set_present; [apply Hout | exact Hf]).
Qed.

Lemma fallback_fold_keyed (helper : str -> str -> result (option str))
  (fs : list field_spec) (out : snapshot) :
  incl fs (DETALLE_LABELS ++ PRONOSTICO_LABELS ++ FUEL_LABELS) ->
  catalog_keyed out -> catalog_keyed (fold_left (fallback_step helper) fs out).
Proof.
  revert out. induction fs as [|f fs IH]; intros out Hfs Hout; [assumption|].
  simpl. apply IH.
  - intros x Hx. apply Hfs. now right.
  - apply fallback_step_keyed; [apply Hfs; now left | assumption].
Qed.

Lemma second_stage_keyed (page : browser) (out : snapshot) :
  catalog_keyed out -> catalog_keyed (second_stage page out).
Proof.
  intros Hout. unfold second_stage.
  destruct (missing_fields out) as [|f fs] eqn:E; [assumption|].
  destruct (dom_helper page) as [helper|]; [|assumption].
  rewrite <- E. apply fallback_fold_keyed; [|assumption].
  intros x. apply missing_fields_catalog.
Qed.

Lemma scrape_once_keyed (page : browser) :
  exists out, scrape_once page = Ok out /\ catalog_keyed out.
Proof.
  eexists. split; [apply scrape_once_stages|].
  apply second_stage_keyed, first_stage_keyed.
Qed.

(** C5.  Whatever the pages hold, [scrape_once] returns a snapshot whose
    three groups have exactly the keys of their catalogs, in catalog order:
    the four of [DETALLE_LABELS], the two of [PRONOSTICO_LABELS] and the
    five distinct keys of [FUEL_LABELS]; every such key is bound, to a
    number or to [None]. *)
Theorem scrape_once_key_sets (page : browser) :
  exists out,
    scrape_once page = Ok out
    /\ keys (detalles_generacion out) = map key_of DETALLE_LABELS
    /\ keys (pronostico_demanda out) = map key_of PRONOSTICO_LABELS
    /\ keys (fuel_mix_pct out) = FUEL_KEYS
    /\ List.NoDup FUEL_KEYS
    /\ (forall k, In k FUEL_KEYS <-> In k (map key_of FUEL_LABELS))
    /\ (forall b k, In k (bucket_keys b) ->
          exists v : option float, get (bucket out b) k = Some v).
Proof.
  destruct (scrape_once_keyed page) as (out & Hout & K).
  exists out.
  pose proof (K InDetalles) as K1. pose proof (K InPronostico) as K2.
  pose proof (K InFuelMix) as K3. cbn [bucket bucket_keys] in K1, K2, K3.
  split; [exact Hout|].
  split; [exact K1|]. split; [exact K2|]. split; [exact K3|].
  split; [|split].
  - vm_compute.
    repeat (apply List.NoDup_cons; [simpl; intuition discriminate|]).
    apply List.NoDup_nil.
  - intros k. vm_compute. intuition.
  - intros b k Hk. apply In_get_Some. now rewrite K.
Qed.
End KeyFacts.

Section ValueFacts.
Import Re Scraper.

Lemma get_value_set_same (d : dict (option float)) (k : str) (v : option float) :
  get_value (set d k v) k = v.
Proof. unfold get_value. now rewrite get_set_same. Qed.

Lemma get_value_set_other (d : dict (option float)) (k k' : str)
  (v : option float) :
  k <> k' -> get_value (set d k v) k' = get_value d k'.
Proof. intros H. unfold get_value. now rewrite get_set_other. Qed.

(** The fuel-mix loop leaves, under each key, its last occurrence. *)
Lemma fuel_fold_last (ms : list match_) (d : dict (option float)) (key : str) :
  get_value (fold_left fuel_step ms d) key
  = List.last (map match_value (List.filter (labels_key key) ms))
      (get_value d key).
Proof.
  revert d. induction ms as [|m ms IH]; intros d; [reflexivity|].
  cbn [fold_left List.filter]. rewrite IH. unfold fuel_step, labels_key.
  rewrite truthy_fuel_key.
  destruct (fuel_key (group m 1)) as [k|]; [|reflexivity].
  destruct (str_eqb k key) eqn:E.
  - apply str_eqb_eq in E. subst k. rewrite get_value_set_same.
    cbn [map]. now rewrite last_cons_default.
  - apply str_eqb_neq in E. now rewrite get_value_set_other.
Qed.

Lemma empty_mix_values (key : str) : get_value empty_mix key = None.
Proof.
  unfold get_value. destruct (get empty_mix key) as [v|] eqn:E; [|reflexivity].
  apply get_In_value in E. vm_compute in E. intuition congruence.
Qed.

Lemma parse_fuel_mix_last (text : str) :
  exists d, parse_fuel_mix text = Ok d
            /\ forall key, get_value d key = last_occurrence text key.
Proof.
  eexists. split; [apply parse_fuel_mix_fold|].
  intros key. rewrite fuel_fold_last, empty_mix_values. reflexivity.
Qed.

(** [search] returns the leftmost match. *)
Lemma search_from_leftmost (r : regex) (s : str) :
  forall p pv m fin,
    search_from r p pv s = Some (m, fin) ->
    (p <= m_start m)%nat
    /\ forall k, (k < m_start m - p)%nat ->
         run r (state_at p pv s k) Some = None.
Proof.
  induction s as [|c t IH]; intros p pv m fin; simpl;
    destruct (run r (MState p pv _ []) Some) as [fin0|] eqn:E.
  - intros [= <- <-]. simpl. split; [lia | intros k Hk; lia].
  - discriminate.
  - intros [= <- <-]. simpl. split; [lia | intros k Hk; lia].
  - intros H. apply IH in H as [Hle Hnone]. split; [lia|].
    intros [|k] Hk; [exact E|].
    simpl. apply Hnone. lia.
Qed.

Lemma search_leftmost (r : regex) (s : str) (m : match_) :
  search r s = Some m ->
  forall k, (k < m_start m)%nat -> run r (state_at 0 None s k) Some = None.
Proof.
  unfold search. destruct (search_from r 0 None s) as [[m' fin]|] eqn:E;
    [|discriminate].
  intros [= <-] k Hk. apply search_from_leftmost in E as [_ H].
  apply H. lia.
Qed.

Lemma fallback_step_keeps (helper : str -> str -> result (option str))
  (out : snapshot) (f : field_spec) (b : bucket_id) (k : str) (v : float) :
  get_value (bucket out b) k = Some v ->
  get_value (bucket (fallback_step helper out f) b) k = Some v.
Proof.
  intros H. destruct f as [[label unit] key]. unfold fallback_step.
  destruct (get_value (bucket out (bucket_of key)) key) eqn:E; [assumption|].
  destruct (match bind _ _ with Ok val => val | Raise _ => None end);
    [|assumption].
  rewrite bucket_bucket_set.
  destruct (bucket_of key), b; try assumption;
    (rewrite get_value_set_other; [assumption | congruence]).
Qed.

Lemma fallback_fold_keeps (helper : str -> str -> result (option str))
  (fs : list field_spec) (out : snapshot) (b : bucket_id) (k : str) (v : float) :
  get_value (bucket out b) k = Some v ->
  get_value (bucket (fold_left (fallback_step helper) fs out) b) k = Some v.
Proof.
  revert out. induction fs as [|f fs IH]; intros out H; [assumption|].
  simpl. apply IH. now apply fallback_step_keeps.
Qed.

Lemma second_stage_keeps (page : browser) (out : snapshot) (b : bucket_id)
  (k : str) (v : float) :
  get_value (bucket out b) k = Some v ->
  get_value (bucket (second_stage page out) b) k = Some v.
Proof.
  intros H. unfold second_stage.
  destruct (missing_fields out) as [|f fs] eqn:E; [assumption|].
  destruct (dom_helper page); [|assumption].
  now apply fallback_fold_keeps.
Qed.

Lemma scrape_once_without_helper (page : browser) :
  scrape_once (without_helper page) = Ok (first_stage page).
Proof.
  rewrite scrape_once_stages. unfold second_stage.
  change (first_stage (without_helper page)) with (first_stage page).
  destruct (missing_fields (first_stage page)); reflexivity.
Qed.

(** C3, counterexample.  With the label "Otros" twice in the text,
    [parse_fuel_mix] returns the value of the second occurrence, 2.0, and
    not that of the first, 1.0. *)
Lemma fuel_mix_last_not_first :
  exists d,
    parse_fuel_mix (py "Otros: 1 %" ++ newline ++ py "Otros: 2 %") = Ok d
    /\ first_occurrence (py "Otros: 1 %" ++ newline ++ py "Otros: 2 %")
         (py "otros") = Some (decimal 1 0)
    /\ get_value d (py "otros") = Some (decimal 2 0)
    /\ get_value d (py "otros")
       <> first_occurrence (py "Otros: 1 %" ++ newline ++ py "Otros: 2 %")
            (py "otros").
Proof.
  eexists. split; [vm_compute; reflexivity|].
  repeat split; try (vm_compute; reflexivity).
  vm_compute. discriminate.
Qed.

(** C3, amended.  [_search_number_after_label] takes the first match in
    text order (no match of its pattern starts earlier); [parse_fuel_mix]
    leaves under each key the value of the last occurrence of its labels;
    and the fallback stage changes no key the earlier stages resolved:
    without the DOM helper the result is the first stage, with it every
    number of the first stage is still in place. *)
Theorem tie_policy_by_stage (page : browser) (text label unit : str) :
  (forall m,
      search (number_after_label label unit) text = Some m ->
      _search_number_after_label text label unit = _to_float (Some (group m 1))
      /\ forall k, (k < m_start m)%nat ->
           run (number_after_label label unit) (state_at 0 None text k) Some
           = None)
  /\ (exists d,
        parse_fuel_mix text = Ok d
        /\ forall key, get_value d key = last_occurrence text key)
  /\ scrape_once (without_helper page) = Ok (first_stage page)
  /\ (exists out,
        scrape_once page = Ok out
        /\ forall b key v,
             get_value (bucket (first_stage page) b) key = Some v ->
             get_value (bucket out b) key = Some v).
Proof.
  split; [|split; [|split]].
  - intros m Hm. split.
    + unfold _search_number_after_label. now rewrite Hm.
    + now apply search_leftmost.
  - apply parse_fuel_mix_last.
  - apply scrape_once_without_helper.
  - eexists. split; [apply scrape_once_stages|].
    intros b key v. apply second_stage_keeps.
Qed.
End ValueFacts.

Section LabelFacts.
Import Re Scraper.







(** C6, counterexample.  A text that contains "Bunker / Diésel: 18,5 %"
    and, on the next line, "Bunker/Diesel: 7 %": the later reading
    overwrites the earlier one and [fuel_mix_pct.bunker_diesel] is 7.0,
    not 18.5. *)
Lemma bunker_diesel_later_reading_wins :
  exists out,
    scrape_once
      (showing (py "Bunker / Diésel: 18,5 %" ++ newline
                  ++ py "Bunker/Diesel: 7 %")) = Ok out
    /\ get_value (fuel_mix_pct out) (py "bunker_diesel") = Some (decimal 7 0)
    /\ get_value (fuel_mix_pct out) (py "bunker_diesel")
       <> Some (decimal 185 1).
Proof.
  eexists. split; [vm_compute; reflexivity|].
  split; [vm_compute; reflexivity|].
  vm_compute. discriminate.
Qed.

End LabelFacts.

Section PlantFacts.
Import Re Plants.

Lemma fold_append_flat_map {X A : Type} (g : X -> list A) (xs : list X)
  (acc : list A) :
  fold_left (fun vals x => vals ++ g x) xs acc = acc ++ flat_map g xs.
Proof.
  revert acc. induction xs as [|x xs IH]; intros acc; simpl.
  - now rewrite app_nil_r.
  - rewrite IH. now rewrite app_assoc.
Qed.

Lemma extract_mw_values_eq (text : str) :
  _extract_mw_values (Some text) = Ok (flat_map normalized (finditer MW_RE text)).
Proof.
  unfold _extract_mw_values.
  replace (match Some text with Some ((_ :: _) as t) => t | _ => [] end)
    with text by (destruct text; reflexivity).
  rewrite (for_each_fold _ (fun vals m => vals ++ normalized m)).
  - now rewrite fold_append_flat_map.
  - intros acc m. rewrite plants_to_float_ok. unfold normalized. simpl.
    destruct (value_of _); [reflexivity | now rewrite app_nil_r].
Qed.

Lemma harvest_lines_fold (title : str) (lines : list str) :
  for_each
    (fun per_unit ln =>
       match search MW_RE ln with
       | None => Ok per_unit
       | Some m =>
         bind (_to_float (Some (group m 1)))
           (fun val => Ok (per_unit ++ [Unit (name_guess title ln m) val]))
       end) lines []
  = Ok (fold_left (line_step title) lines []).
Proof.
  apply for_each_fold. intros acc ln. unfold line_step.
  destruct (search MW_RE ln); [|reflexivity].
  now rewrite plants_to_float_ok.
Qed.




(** C7, counterexample.  On the panel "TG-1 - 10 MW 20 MW" the only unit
    is TG-1 with 10.0, and the total is 30.0; on "A 1,2,3 MW 5 MW" the only
    unit, A, has no value, and the total is 5.0, not [None]: the total is
    summed over every MW match of the text, the units take the first match
    of each line. *)
Lemma harvest_total_not_of_units :
  harvest_for (one_card (py "TG-1 - 10 MW 20 MW")) (py "San Juan")
  = Ok (Some (Plant (py "San Juan") (Some (decimal 30 0))
                [ Unit (py "TG-1") (Some (decimal 10 0)) ]))
  /\ units_total [ Unit (py "TG-1") (Some (decimal 10 0)) ]
     = Some (decimal 10 0)
  /\ Some (decimal 30 0) <> Some (decimal 10 0)
  /\ harvest_for (one_card (py "A 1,2,3 MW 5 MW")) (py "San Juan")
     = Ok (Some (Plant (py "San Juan") (Some (decimal 5 0))
                   [ Unit (py "A") None ]))
  /\ units_total [ Unit (py "A") None ] = None.
Proof.
  split; [vm_compute; reflexivity|].
  split; [vm_compute; reflexivity|].
  split; [vm_compute; discriminate|].
  split; vm_compute; reflexivity.
Qed.


End PlantFacts.

(* ===================================================================== *)
(** * The ingestion sink *)
(* ===================================================================== *)

Section SinkFacts.
Import Logger.

Lemma write_sqlite_cases (r : row) (w : world) :
  write_sqlite r w
  = match for_each (fun _ v => bind_cell v) (cells r) tt with
    | Raise e => (ensure_sqlite w, Raise e)
    | Ok _ =>
      (with_db (ensure_sqlite w) (insert_or_ignore (db_rows w) r), Ok tt)
    end.
Proof.
  unfold write_sqlite, ensure_sqlite, db_rows.
  destruct (for_each _ _ _); [|reflexivity].
  destruct (db_file w) eqn:E; simpl; [now rewrite E | reflexivity].
Qed.



Lemma insert_or_ignore_taken (db : gmap str row) (r old : row) :
  db !! scraped_at_iso r = Some old -> insert_or_ignore db r = db.
Proof. unfold insert_or_ignore. now intros ->. Qed.

Lemma insert_or_ignore_lookup (db : gmap str row) (r : row) :
  exists kept, insert_or_ignore db r !! scraped_at_iso r = Some kept.
Proof.
  unfold insert_or_ignore. destruct (db !! scraped_at_iso r) eqn:E.
  - now exists r0.
  - exists r. apply lookup_insert_eq.
Qed.

(** C4, counterexample.  The table holds the scenario row; the row of a
    snapshot with the same time stamp whose label is a JSON list has that
    key, and [write_sqlite] raises on it: sqlite3 binds the cells before the
    conflict is looked at, and refuses a list. *)
Lemma write_sqlite_existing_key_raises :
  scraped_at_iso (row_of listed_label_payload)
  = scraped_at_iso (row_of scenario_payload)
  /\ db_rows ingested_once !! scraped_at_iso (row_of listed_label_payload)
     = Some (row_of scenario_payload)
  /\ snd (write_sqlite (row_of listed_label_payload) ingested_once)
     = Raise SqliteError
  /\ snd (write_sqlite (row_of listed_label_payload) ingested_once) <> Ok tt.
Proof.
  split; [vm_compute; reflexivity|].
  split; [vm_compute; reflexivity|].
  split; [vm_compute; reflexivity|].
  vm_compute. discriminate.
Qed.



(** C8.  When the snapshot file does not read or parse, [process_once]
    writes one line to the error stream and returns, with the flat log and
    the database untouched; when the file is missing it returns as well,
    with nothing written to either (a warning on standard output under
    [--verbose]). *)
Theorem process_once_rejects_unreadable (iso_roundtrip : str -> option str)
  (str_of : value -> str) (json_path csv_path db_path : str) (verbose : bool)
  (w : world) :
  (forall e,
      json_file w = Some (Malformed e) ->
      process_once iso_roundtrip str_of json_path csv_path db_path verbose w
      = (print_err w (py "[ERROR] Failed to read/parse JSON: " ++ e), Ok tt)
      /\ csv_file (print_err w (py "[ERROR] Failed to read/parse JSON: " ++ e))
         = csv_file w
      /\ db_file (print_err w (py "[ERROR] Failed to read/parse JSON: " ++ e))
         = db_file w
      /\ stderr (print_err w (py "[ERROR] Failed to read/parse JSON: " ++ e))
         = stderr w ++ [py "[ERROR] Failed to read/parse JSON: " ++ e])
  /\ (json_file w = None ->
      process_once iso_roundtrip str_of json_path csv_path db_path verbose w
      = (if verbose then print w (py "[WARN] JSON not found: " ++ json_path)
         else w, Ok tt)
      /\ csv_file (print w (py "[WARN] JSON not found: " ++ json_path))
         = csv_file w
      /\ db_file (print w (py "[WARN] JSON not found: " ++ json_path))
         = db_file w
      /\ stderr (print w (py "[WARN] JSON not found: " ++ json_path))
         = stderr w).
Proof.
  split.
  - intros e H. unfold process_once. rewrite H. repeat split.
  - intros H. unfold process_once. rewrite H. repeat split.
Qed.
Lemma process_once_rejects_unreadable_witness :
  json_file (fresh_world (Malformed (py "Expecting value: line 1 column 1 (char 0)")))
  = Some (Malformed (py "Expecting value: line 1 column 1 (char 0)"))
  /\ ingest true (fresh_world (Malformed (py "Expecting value: line 1 column 1 (char 0)")))
     = (print_err
          (fresh_world (Malformed (py "Expecting value: line 1 column 1 (char 0)")))
          (py "[ERROR] Failed to read/parse JSON: "
             ++ py "Expecting value: line 1 column 1 (char 0)"),
        Ok tt)
  /\ json_file (World None None None [] []) = None
  /\ ingest false (World None None None [] [])
     = (World None None None [] [], Ok tt).
Proof.
  destruct (process_once_rejects_unreadable iso_seconds str_scalar
              (py "/data/snapshot.json") (py "/data/generation_log.csv")
              (py "/data/generation_log.sqlite") true
              (fresh_world (Malformed (py "Expecting value: line 1 column 1 (char 0)"))))
    as [Hbad _].
  destruct (process_once_rejects_unreadable iso_seconds str_scalar
              (py "/data/snapshot.json") (py "/data/generation_log.csv")
              (py "/data/generation_log.sqlite") false
              (World None None None [] [])) as [_ Hmissing].
  split; [reflexivity|].
  split; [exact (proj1 (Hbad _ eq_refl))|].
  split; [reflexivity|].
  exact (proj1 (Hmissing eq_refl)).
Defined.
End SinkFacts.

Section DuplicateFacts.
Import Logger.

Ltac world_simpl :=
  cbn [json_file csv_file db_file stdout stderr with_csv with_db print
       print_err ensure_csv ensure_sqlite write_csv db_rows csv_lines
       csv_rows fst snd tl] in *.

(** The files after a successful ingestion of a row. *)
Lemma process_once_payload (iso_roundtrip : str -> option str)
  (str_of : value -> str) (json_path csv_path db_path : str) (verbose : bool)
  (w : world) (payload : value) :
  json_file w = Some (Payload payload) ->
  process_once iso_roundtrip str_of json_path csv_path db_path verbose w
  = match parse_row iso_roundtrip str_of payload with
    | Raise e => (w, Raise e)
    | Ok r =>
      match for_each (fun _ v => bind_cell v) (cells r) tt with
      | Raise e => (ensure_sqlite w, Raise e)
      | Ok _ =>
        let w' :=
          write_csv r
            (with_db (ensure_sqlite w) (insert_or_ignore (db_rows w) r)) in
        (if verbose
         then print w' (py "[OK] Ingested scraped_at=" ++ scraped_at_iso r
                          ++ py " → CSV:" ++ path_name csv_path
                          ++ py ", DB:" ++ path_name db_path)
         else w', Ok tt)
      end
    end.
Proof.
  intros H. unfold process_once. rewrite H.
  destruct (parse_row _ _ payload) as [r|e]; [|reflexivity].
  rewrite write_sqlite_cases.
  destruct (for_each _ (cells r) tt); reflexivity.
Qed.

Lemma ingested_files (r : row) (w : world) (verbose : bool) (line : str) :
  let w' :=
    write_csv r (with_db (ensure_sqlite w) (insert_or_ignore (db_rows w) r)) in
  let w1 := if verbose then print w' line else w' in
  json_file w1 = json_file w
  /\ db_rows w1 = insert_or_ignore (db_rows w) r
  /\ csv_lines w1 = csv_lines (ensure_csv w) ++ [cells r]
  /\ csv_file w1 <> None.
Proof.
  destruct w as [jf cf df out err].
  destruct verbose, cf, df; world_simpl; repeat split; discriminate.
Qed.

Lemma insert_or_ignore_twice (db : gmap str row) (r : row) :
  insert_or_ignore (insert_or_ignore db r) r = insert_or_ignore db r.
Proof.
  destruct (insert_or_ignore_lookup db r) as [kept H].
  now apply insert_or_ignore_taken with kept.
Qed.

Lemma insert_or_ignore_fresh (r : row) :
  size (insert_or_ignore ∅ r) = 1.
Proof.
  unfold insert_or_ignore. rewrite lookup_empty.
  rewrite map_size_insert_None by apply lookup_empty.
  now rewrite map_size_empty.
Qed.

(** C1, counterexample.  The scenario snapshot, ingested once and then a
    second time: the second ingestion returns normally, the table holds
    one row, and the flat log holds two rows under its header, not one. *)
Lemma duplicate_ingestion_logged_twice :
  snd (ingest false ingested_once) = Ok tt
  /\ size (db_rows (fst (ingest false ingested_once))) = 1
  /\ length (csv_rows (fst (ingest false ingested_once))) = 2
  /\ length (csv_rows (fst (ingest false ingested_once))) <> 1.
Proof.
  split; [vm_compute; reflexivity|].
  split; [vm_compute; reflexivity|].
  split; [vm_compute; reflexivity|].
  vm_compute. discriminate.
Qed.

(** C1, amended.  After a snapshot has been ingested, ingesting it again
    succeeds, leaves the table as the first ingestion left it, with one row
    under the snapshot's key (one row in all when the table started empty),
    and appends the row to the flat log a second time: [write_csv] runs
    after every [write_sqlite] that returns, so a log created by the first
    ingestion ends with two rows. *)
Theorem duplicate_ingestion_one_row_two_lines
  (iso_roundtrip : str -> option str) (str_of : value -> str)
  (json_path csv_path db_path : str) (verbose : bool) (w w1 : world)
  (payload : value) :
  json_file w = Some (Payload payload) ->
  process_once iso_roundtrip str_of json_path csv_path db_path verbose w
  = (w1, Ok tt) ->
  exists r w2,
    parse_row iso_roundtrip str_of payload = Ok r
    /\ process_once iso_roundtrip str_of json_path csv_path db_path verbose w1
       = (w2, Ok tt)
    /\ db_rows w1 = insert_or_ignore (db_rows w) r
    /\ (exists kept, db_rows w1 !! scraped_at_iso r = Some kept)
    /\ db_rows w2 = db_rows w1
    /\ csv_lines w1 = csv_lines (ensure_csv w) ++ [cells r]
    /\ csv_lines w2 = csv_lines (ensure_csv w) ++ [cells r; cells r]
    /\ (db_rows w = ∅ -> size (db_rows w2) = 1)
    /\ (csv_file w = None -> length (csv_rows w2) = 2).
Proof.
  intros Hjson Hfirst.
  rewrite (process_once_payload _ _ _ _ _ _ _ _ Hjson) in Hfirst.
  destruct (parse_row _ _ payload) as [r|e] eqn:Hrow; [|discriminate].
  destruct (for_each _ (cells r) tt) as [[]|e] eqn:Hbind; [|discriminate].
  match type of Hfirst with context [print _ ?l] => set (line := l) in * end.
  apply (f_equal fst) in Hfirst. cbv zeta in Hfirst. cbn [fst] in Hfirst.
  destruct (ingested_files r w verbose line) as (J1 & D1 & C1 & N1).
  rewrite Hfirst in J1, D1, C1, N1.
  destruct (ingested_files r w1 verbose line) as (J2 & D2 & C2 & N2).
  assert (Hsecond :
    process_once iso_roundtrip str_of json_path csv_path db_path verbose w1
    = (if verbose
       then print (write_csv r (with_db (ensure_sqlite w1)
                                  (insert_or_ignore (db_rows w1) r))) line
       else write_csv r (with_db (ensure_sqlite w1)
                           (insert_or_ignore (db_rows w1) r)), Ok tt)).
  { rewrite (process_once_payload _ _ _ _ _ _ _ payload)
      by (rewrite J1; exact Hjson).
    rewrite Hrow, Hbind. reflexivity. }
  assert (E : csv_lines (ensure_csv w1) = csv_lines w1).
  { unfold ensure_csv. destruct (csv_file w1); [reflexivity | contradiction]. }
  match type of Hsecond with _ = (?x, _) => set (w2 := x) in * end.
  clearbody w2.
  rewrite E, C1 in C2. rewrite D1, insert_or_ignore_twice in D2.
  exists r, w2. split; [reflexivity|]. split; [exact Hsecond|].
  split; [exact D1|]. split; [rewrite D1; apply insert_or_ignore_lookup|].
  split; [now rewrite D2, D1|]. split; [exact C1|].
  split; [now rewrite C2, <- app_assoc|]. split.
  - intros Hdb. rewrite D2, Hdb. apply insert_or_ignore_fresh.
  - intros Hcsv. unfold csv_rows, csv_lines in *.
    destruct (csv_file w2) as [lines|]; [|contradiction].
    rewrite C2. unfold ensure_csv. rewrite Hcsv. reflexivity.
Qed.
Lemma duplicate_ingestion_witness :
  json_file (fresh_world (Payload scenario_payload))
  = Some (Payload scenario_payload)
  /\ ingest false (fresh_world (Payload scenario_payload))
     = (ingested_once, Ok tt)
  /\ exists r w2,
       parse_row iso_seconds str_scalar scenario_payload = Ok r
       /\ ingest false ingested_once = (w2, Ok tt)
       /\ size (db_rows w2) = 1
       /\ length (csv_rows w2) = 2.
Proof.
  assert (H1 : json_file (fresh_world (Payload scenario_payload))
               = Some (Payload scenario_payload)) by reflexivity.
  assert (H2 : ingest false (fresh_world (Payload scenario_payload))
               = (ingested_once, Ok tt)) by (vm_compute; reflexivity).
  split; [exact H1|]. split; [exact H2|].
  destruct (duplicate_ingestion_one_row_two_lines iso_seconds str_scalar
              (py "/data/snapshot.json") (py "/data/generation_log.csv")
              (py "/data/generation_log.sqlite") false _ _ _ H1 H2)
    as (r & w2 & Hr & Hw2 & _ & _ & _ & _ & _ & Hsize & Hlen).
  exists r, w2. split; [exact Hr|]. split; [exact Hw2|].
  split; [apply Hsize; reflexivity | apply Hlen; reflexivity].
Defined.
End DuplicateFacts.

(* ===================================================================== *)
(** * The matcher *)
(* ===================================================================== *)

Section EngineFacts.
Import Re ReSpec.

Lemma run_inv_refl (r : regex) (st : mstate) :
  (forall P, consumes P r -> Forall P []) -> run_inv r st st.
Proof.
  intros _. split.
  - exists []. repeat split; [now rewrite Nat.add_0_r | constructor].
  - intros n P _ H. exact H.
Qed.

Lemma run_inv_here (r : regex) (st : mstate) : run_inv r st st.
Proof. apply run_inv_refl. intros; constructor. Qed.

(** Two runs in a row, under a regex that contains both. *)
Lemma run_inv_trans (a b r : regex) (st st1 st2 : mstate) :
  (forall P, consumes P r -> consumes P a /\ consumes P b) ->
  (forall n P, captures n P r -> captures n P a /\ captures n P b) ->
  run_inv a st st1 -> run_inv b st1 st2 -> run_inv r st st2.
Proof.
  intros Hc Hg [(w1 & E1 & P1 & F1) G1] [(w2 & E2 & P2 & F2) G2]. split.
  - exists (w1 ++ w2). repeat split.
    + now rewrite E1, E2, app_assoc.
    + rewrite P2, P1, length_app. lia.
    + intros P HP. apply Hc in HP as [Ha Hb].
      apply Forall_app. split; [now apply F1 | now apply F2].
  - intros n P HP Hcaps. apply Hg in HP as [Ha Hb].
    apply (G2 n P Hb). now apply (G1 n P Ha).
Qed.

Lemma run_sound (r : regex) :
  forall (A : Type) (st : mstate) (k : mstate -> option A) (x : A),
    run r st k = Some x ->
    exists st', k st' = Some x /\ run_inv r st st'.
Proof.
  induction r as [|p|a IHa b IHb|a IHa b IHb|g a IHa|n a IHa|];
    intros A st k x H.
  - exists st. split; [exact H | apply run_inv_here].
  - simpl in H. destruct (rest st) as [|c t] eqn:E; [discriminate|].
    destruct (p c) eqn:Hp; [|discriminate].
    eexists. split; [exact H|]. split.
    + exists [c]. cbn [rest pos]. split; [exact E|]. split; [simpl; lia|].
      intros P HP. constructor; [now apply HP | constructor].
    + intros m P _ Hc. exact Hc.
  - simpl in H. apply IHa in H as (st1 & H & I1).
    apply IHb in H as (st2 & H & I2).
    exists st2. split; [exact H|].
    apply (run_inv_trans a b (Seq a b) st st1 st2); auto.
  - simpl in H. unfold orelse in H.
    destruct (run a st k) as [y|] eqn:Ea.
    + rewrite H in Ea. apply IHa in Ea as (st1 & Hk & [(w & E & Pw & F) G]).
      exists st1. split; [exact Hk|]. split.
      * exists w. repeat split; try assumption. intros P [HP _]. now apply F.
      * intros m P [HP _]. now apply G.
    + apply IHb in H as (st1 & Hk & [(w & E & Pw & F) G]).
      exists st1. split; [exact Hk|]. split.
      * exists w. repeat split; try assumption. intros P [_ HP]. now apply F.
      * intros m P [_ HP]. now apply G.
  - pose (loop :=
      fix loop (fuel : nat) (st : mstate) {struct fuel} : option A :=
        match fuel with
        | O => k st
        | S f =>
          let again :=
            run a st (fun st' =>
              if (pos st <? pos st')%nat then loop f st' else None) in
          if g then orelse again (k st) else orelse (k st) again
        end).
    assert (Hloop : forall fuel st0 y,
               loop fuel st0 = Some y ->
               exists st', k st' = Some y /\ run_inv (Star g a) st0 st').
    { induction fuel as [|fuel IHf]; intros st0 y H0.
      - exists st0. split; [exact H0 | apply run_inv_here].
      - change (loop (S fuel) st0)
          with (let again :=
                  run a st0 (fun st' =>
                    if (pos st0 <? pos st')%nat then loop fuel st' else None) in
                if g then orelse again (k st0) else orelse (k st0) again)
          in H0.
        cbv zeta in H0.
        assert (Hagain :
          forall z,
            run a st0 (fun st' =>
              if (pos st0 <? pos st')%nat then loop fuel st' else None) = Some z ->
            exists st', k st' = Some z /\ run_inv (Star g a) st0 st').
        { intros z Hz. apply IHa in Hz as (st1 & Hz & I1).
          destruct (pos st0 <? pos st1)%nat; [|discriminate].
          apply IHf in Hz as (st2 & Hz & I2).
          exists st2. split; [exact Hz|].
          apply (run_inv_trans a (Star g a) (Star g a) st0 st1 st2); auto. }
        unfold orelse in H0. destruct g.
        + destruct (run a st0 _) as [z|] eqn:Et.
          * rewrite H0 in Et. now apply Hagain.
          * exists st0. split; [exact H0 | apply run_inv_here].
        + destruct (k st0) as [z|] eqn:Ek.
          * exists st0. split; [congruence | apply run_inv_here].
          * now apply Hagain. }
    apply (Hloop (S (length (rest st))) st). exact H.
  - simpl in H. apply IHa in H as (st1 & H & [(w & E & Pw & F) G]).
    eexists. split; [exact H|]. split.
    + exists w. cbn [rest pos]. repeat split; assumption.
    + intros m P [Hm HP] Hc. cbn [caps]. intros txt [Heq|Hin].
      * injection Heq as <- <-.
        replace (pos st1 - pos st)%nat with (length w) by lia.
        rewrite E, firstn_app, Nat.sub_diag, firstn_all. simpl.
        rewrite app_nil_r. apply F. now apply Hm.
      * now apply (G m P HP Hc).
  - simpl in H. destruct (xorb _ _); [|discriminate].
    exists st. split; [exact H | apply run_inv_here].
Qed.
End EngineFacts.

(* ===================================================================== *)
(** * Numbers read from the page text *)
(* ===================================================================== *)

Section NumberFacts.
Import Re ReSpec NumSpec.

Lemma search_from_groups (r : regex) (s : str) :
  forall p pv m fin,
    search_from r p pv s = Some (m, fin) ->
    forall n P, captures n P r -> Forall P (group m n).
Proof.
  assert (Hgroup : forall (st fin : mstate) p,
             run r st Some = Some fin -> caps st = [] ->
             forall n P, captures n P r ->
               Forall P (group (Match p (pos fin) (caps fin)) n)).
  { intros st fin p H Hcaps n P HP.
    apply run_sound in H as (st' & [= ->] & [_ G]).
    assert (Hok : caps_ok n P (caps fin)).
    { apply (G n P HP). rewrite Hcaps. intros txt []. }
    unfold group. cbn [m_groups].
    destruct (find _ (caps fin)) as [[n' txt]|] eqn:F; [|constructor].
    apply find_some in F as [Hin Hn]. cbn [fst] in Hn.
    apply Nat.eqb_eq in Hn. subst n'. now apply Hok. }
  induction s as [|c t IH]; intros p pv m fin; simpl;
    destruct (run r (MState p pv _ []) Some) as [fin0|] eqn:E;
    try discriminate.
  - intros [= <- <-]. now apply (Hgroup _ _ p E).
  - intros [= <- <-]. now apply (Hgroup _ _ p E).
  - apply IH.
Qed.

Lemma search_groups (r : regex) (s : str) (m : match_) (n : nat)
  (P : N -> Prop) :
  search r s = Some m -> captures n P r -> Forall P (group m n).
Proof.
  unfold search. destruct (search_from r 0 None s) as [[m' fin]|] eqn:E;
    [|discriminate].
  intros [= <-]. now apply (search_from_groups _ _ _ _ _ _ E).
Qed.

Lemma finditer_groups (r : regex) (s : str) (m : match_) (n : nat)
  (P : N -> Prop) :
  In m (finditer r s) -> captures n P r -> Forall P (group m n).
Proof.
  unfold finditer. generalize (S (length s)) as fuel, 0%nat as p, (@None N) as pv.
  intros fuel. revert s.
  induction fuel as [|fuel IH]; intros s p pv Hin HP; [destruct Hin|].
  simpl in Hin. destruct (search_from r p pv s) as [[m' fin]|] eqn:E;
    [|destruct Hin].
  destruct Hin as [<-|Hin]; [now apply (search_from_groups _ _ _ _ _ _ E)|].
  destruct (resume m' fin) as [st|]; [|destruct Hin].
  now apply (IH _ _ _ Hin).
Qed.

(** *** The characters of the class *)

Lemma num_char_range (c : N) :
  Scraper.num_char c = true -> (44 <= c <= 57)%N.
Proof.
  unfold Scraper.num_char, is_digit, in_range. intros H.
  apply orb_true_iff in H as [H|H]; [apply orb_true_iff in H as [H|H]|].
  - apply andb_true_iff in H as [H1 H2].
    apply N.leb_le in H1, H2. lia.
  - apply N.eqb_eq in H. subst c. vm_compute. split; discriminate.
  - apply N.eqb_eq in H. subst c. vm_compute. split; discriminate.
Qed.

Lemma num_char_not_sign (c : N) :
  Scraper.num_char c = true -> c <> 43%N /\ c <> 45%N.
Proof. intros H. split; intros ->; vm_compute in H; discriminate. Qed.

Lemma lstrip_by_Forall (P : N -> Prop) (p : N -> bool) (s : str) :
  Forall P s -> Forall P (lstrip_by p s).
Proof.
  induction 1 as [|c s Hc Hs IH]; simpl; [constructor|].
  destruct (p c); [exact IH | now constructor].
Qed.

Lemma strip_by_Forall (P : N -> Prop) (p : N -> bool) (s : str) :
  Forall P s -> Forall P (strip_by p s).
Proof.
  intros H. unfold strip_by.
  apply Forall_rev, lstrip_by_Forall, Forall_rev, lstrip_by_Forall, H.
Qed.

Lemma starts_with_Forall (P : N -> Prop) (p s r : str) :
  starts_with p s = Some r -> Forall P s -> Forall P r.
Proof.
  revert s. induction p as [|x p IH]; intros [|y s]; simpl;
    try discriminate; try (intros [= <-]; auto; fail).
  destruct (x =? y)%N; [|discriminate].
  intros H Hs. inversion Hs. eauto.
Qed.

Lemma replace_Forall (P : N -> Prop) (old new s : str) :
  Forall P new -> Forall P s -> Forall P (replace old new s).
Proof.
  intros Hnew Hs. unfold replace. destruct old as [|o old].
  - apply Forall_app. split; [exact Hnew|].
    induction Hs as [|c s Hc Hs IH]; simpl; [constructor|].
    constructor; [exact Hc|]. apply Forall_app. now split.
  - generalize (S (length s)) as fuel. intros fuel. revert s Hs.
    induction fuel as [|fuel IH]; intros s Hs; cbn [replace_fuel]; [exact Hs|].
    destruct (starts_with (o :: old) s) as [r|] eqn:E.
    + apply Forall_app. split; [exact Hnew|].
      apply IH. now apply (starts_with_Forall P _ _ _ E).
    + destruct Hs as [|c s Hc Hs]; [constructor|].
      constructor; [exact Hc | now apply IH].
Qed.

Lemma digits_value_nonneg (ds : list N) : (0 <= digits_value ds)%Z.
Proof.
  unfold digits_value.
  assert (H : forall acc, (0 <= acc)%Z ->
            (0 <= fold_left (fun a c => a * 10 + Z.of_N (c - 48)) ds acc)%Z).
  { induction ds as [|c ds IH]; intros acc Ha; simpl; [exact Ha|].
    apply IH. lia. }
  apply H. lia.
Qed.

Lemma number_nonneg (s r : str) (m sc : Z) :
  number s = Some (m, sc, r) -> (0 <= m)%Z.
Proof.
  unfold number.
  destruct (digitpart s) as [[ip r0]|].
  - destruct r0 as [|c r1].
    + intros [= <- _ _]. apply digits_value_nonneg.
    + destruct c as [|c]; try (intros [= <- _ _]; apply digits_value_nonneg).
      repeat (destruct c as [c|c|];
              try (intros [= <- _ _]; apply digits_value_nonneg)).
      destruct (digitpart r1) as [[fp r2]|];
        intros [= <- _ _]; apply digits_value_nonneg.
  - destruct s as [|c r1]; [discriminate|].
    destruct c as [|c]; try discriminate.
    repeat (destruct c as [c|c|]; try discriminate).
    destruct (digitpart r1) as [[fp r2]|]; [|discriminate].
    intros [= <- _ _]. apply digits_value_nonneg.
Qed.

Lemma mkdec_nonneg (m e : Z) : (0 <= m)%Z -> (0 <= mant (mkdec m e))%Z.
Proof.
  intros Hm. unfold mkdec. destruct (m =? 0)%Z; [simpl; lia|].
  generalize (S (Z.to_nat (Z.log2 (Z.abs m)))) as fuel. intros fuel.
  revert m e Hm. induction fuel as [|fuel IH]; intros m e Hm; simpl; [exact Hm|].
  destruct (m mod 10 =? 0)%Z; [|exact Hm].
  apply IH. apply Z.div_pos; lia.
Qed.

Lemma nearest64_nonneg (n d : Z) :
  (0 < n)%Z -> (0 < d)%Z -> nonneg (nearest64 false n d).
Proof.
  intros Hn Hd. unfold nearest64.
  destruct (scale2 n d (Z.log2 n - Z.log2 d - 52)) as [a0 b0].
  set (k := Z.max _ _).
  destruct (scale2 n d k) as [a b] eqn:Es.
  assert (Hab : (0 <= a /\ 0 < b)%Z).
  { unfold scale2 in Es. destruct (Z.leb_spec 0 k) as [Hk|Hk];
      injection Es as <- <-.
    - split; [lia|]. apply Z.mul_pos_pos; [lia|]. apply Z.pow_pos_nonneg; lia.
    - split; [|lia]. apply Z.mul_nonneg_nonneg; [lia|]. apply Z.pow_nonneg; lia. }
  destruct Hab as [Ha Hb].
  assert (Hq : (0 <= a / b)%Z) by (apply Z.div_pos; lia).
  set (q' := if (2 * (a mod b) <? b)%Z then (a / b)%Z
             else if (b <? 2 * (a mod b))%Z then (a / b + 1)%Z
                  else if Z.even (a / b) then (a / b)%Z else (a / b + 1)%Z).
  assert (Hq' : (0 <= q')%Z).
  { subst q'. clearbody k.
    destruct (2 * (a mod b) <? b)%Z; [exact Hq|].
    destruct (b <? 2 * (a mod b))%Z; [lia|].
    destruct (Z.even (a / b)); lia. }
  destruct (0 <=? k)%Z; [destruct (_ <=? _)%Z|]; cbn [nonneg];
    try reflexivity; apply mkdec_nonneg.
  - assert (0 <= 2 ^ k)%Z by (apply Z.pow_nonneg; lia). nia.
  - assert (0 <= 5 ^ (- k))%Z by (apply Z.pow_nonneg; lia). nia.
Qed.

(** Rounding keeps a number that is not negative so. *)
Lemma round64_nonneg (m e : Z) : (0 <= m)%Z -> nonneg (round64 m e).
Proof.
  intros Hm. unfold round64.
  destruct (Z.eqb_spec m 0) as [->|Hne]; [cbn; lia|].
  assert (E : (m <? 0)%Z = false) by (apply Z.ltb_ge; exact Hm).
  rewrite E. destruct (Z.leb_spec 0 e).
  - apply nearest64_nonneg; [|lia].
    apply Z.mul_pos_pos; [lia | apply Z.pow_pos_nonneg; lia].
  - apply nearest64_nonneg; [lia|]. apply Z.pow_pos_nonneg; lia.
Qed.

(** [float] of digits, dots and commas is not negative and not NaN. *)
Lemma parse_float_num_text (s : str) (v : float) :
  num_text s -> parse_float s = Some v -> nonneg v.
Proof.
  intros Hs. unfold parse_float.
  set (t := strip_by float_space s).
  assert (Hstrip : num_text t) by now apply strip_by_Forall.
  clearbody t. clear s Hs. rename t into s.
  assert (Hsign : sign s = (false, s)).
  { destruct s as [|c t]; [reflexivity|].
    inversion Hstrip as [|? ? Hc _].
    apply num_char_not_sign in Hc as [H43 H45].
    unfold sign. destruct c as [|c]; [reflexivity|].
    repeat (destruct c as [c|c|]; try reflexivity);
      exfalso; (now apply H43) || (now apply H45). }
  rewrite Hsign.
  assert (Hword : forall w, w <> [] -> hd 0%N w = 105%N \/ hd 0%N w = 110%N ->
                    str_eqb (lower s) w = false).
  { intros w Hw Hhd. destruct s as [|c t]; destruct w as [|x w];
      try reflexivity; try congruence.
    inversion Hstrip as [|? ? Hc _]. apply num_char_range in Hc.
    simpl. assert (El : lower_char c = c).
    { unfold lower_char, in_range.
      destruct (65 <=? c)%N eqn:E1; [apply N.leb_le in E1; lia|].
      destruct (192 <=? c)%N eqn:E2; [apply N.leb_le in E2; lia|].
      reflexivity. }
    rewrite El. simpl in Hhd.
    destruct (c =? x)%N eqn:E; [|reflexivity].
    apply N.eqb_eq in E. lia. }
  rewrite !Hword by (try discriminate; vm_compute; auto).
  cbn [orb].
  destruct (number s) as [[[m sc] r]|] eqn:En; [|discriminate].
  destruct (exponent r) as [e|]; [|discriminate].
  intros [= <-].
  apply round64_nonneg. now apply number_nonneg in En.
Qed.

Lemma scraper_dot_decimal_num_text (s : str) :
  num_text s -> num_text (Scraper.dot_decimal s).
Proof.
  intros Hs. unfold Scraper.dot_decimal.
  assert (Hstrip : num_text (strip s)) by now apply strip_by_Forall.
  assert (Hdot : num_text (py ".")) by (repeat constructor).
  destruct (_ && _); [apply replace_Forall; [constructor | exact Hstrip]|].
  destruct (contains _ _); [|exact Hstrip].
  apply replace_Forall; [exact Hdot|].
  apply replace_Forall; [constructor | exact Hstrip].
Qed.

Lemma scraper_to_float_num_text (s : str) (v : float) :
  num_text s -> value_of (Scraper._to_float (Some s)) = Some v ->
  nonneg v.
Proof.
  intros Hs. rewrite scraper_to_float_eq. destruct s as [|c s]; [discriminate|].
  cbn [value_of]. apply parse_float_num_text.
  now apply scraper_dot_decimal_num_text.
Qed.

Lemma plants_dot_decimal_eq (s : str) :
  Plants.dot_decimal s = Scraper.dot_decimal s.
Proof. reflexivity. Qed.

Lemma plants_to_float_num_text (s : str) (v : float) :
  num_text s -> value_of (Plants._to_float (Some s)) = Some v ->
  nonneg v.
Proof.
  intros Hs. rewrite plants_to_float_eq. destruct s as [|c s]; [discriminate|].
  cbn [value_of]. rewrite plants_dot_decimal_eq.
  apply parse_float_num_text. now apply scraper_dot_decimal_num_text.
Qed.
End NumberFacts.

Section SaneReadings.
Import Re ReSpec NumSpec.

Lemma captures_lit_ci (n : nat) (P : N -> Prop) (s : str) :
  captures n P (lit_ci s).
Proof. induction s as [|c s IH]; simpl; [exact I | split; [exact I | exact IH]]. Qed.

Lemma mw_re_group : captures 1 (fun c => Scraper.num_char c = true) Plants.MW_RE.
Proof.
  unfold Plants.MW_RE, seqs, plus. simpl.
  repeat split; auto using captures_lit_ci.
Qed.

Lemma fuel_regex_group :
  captures 2 (fun c => Scraper.num_char c = true) Scraper.FUEL_REGEX.
Proof.
  unfold Scraper.FUEL_REGEX, seqs, plus, opt, Scraper.ws. simpl.
  repeat split; auto using captures_lit_ci; discriminate.
Qed.

Lemma number_after_label_group (label unit : str) :
  captures 1 (fun c => Scraper.num_char c = true)
    (Scraper.number_after_label label unit).
Proof.
  unfold Scraper.number_after_label, seqs, plus, Scraper.ws. simpl.
  repeat split; auto using captures_lit_ci.
Qed.

Lemma dec_add_nonneg (a b : dec) :
  (0 <= mant a)%Z -> (0 <= mant b)%Z -> nonneg (dec_add a b).
Proof.
  intros Ha Hb. unfold dec_add. apply round64_nonneg.
  assert (H10 : forall e, (0 <= 10 ^ e)%Z) by (intros e; apply Z.pow_nonneg; lia).
  pose proof (H10 (expo a - Z.min (expo a) (expo b))%Z).
  pose proof (H10 (expo b - Z.min (expo a) (expo b))%Z).
  nia.
Qed.

Lemma fadd_nonneg (x y : float) : nonneg x -> nonneg y -> nonneg (fadd x y).
Proof.
  destruct x as [a|[|]|], y as [b|[|]|]; cbn [nonneg fadd Bool.eqb];
    try contradiction; try discriminate; try reflexivity.
  apply dec_add_nonneg.
Qed.

Lemma sum_nonneg (vals : list float) :
  Forall nonneg vals -> nonneg (sum vals).
Proof.
  unfold sum.
  assert (H : forall acc, nonneg acc -> Forall nonneg vals ->
                nonneg (fold_left fadd vals acc)).
  { induction vals as [|v vals IH]; intros acc Hacc Hv; [exact Hacc|].
    inversion Hv as [|? ? Hd Hrest]. subst.
    cbn [fold_left]. apply IH; [|exact Hrest].
    now apply fadd_nonneg. }
  apply H. cbn [nonneg mant]. lia.
Qed.

Lemma normalized_finite (text : str) (m : match_) :
  In m (finditer Plants.MW_RE text) ->
  Forall nonneg (Plants.normalized m).
Proof.
  intros Hin. unfold Plants.normalized.
  destruct (value_of _) as [v|] eqn:E; [|constructor].
  constructor; [|constructor].
  apply (plants_to_float_num_text (group m 1)); [|exact E].
  apply (finditer_groups _ _ _ _ _ Hin mw_re_group).
Qed.

Lemma unit_values_finite (text : str) :
  Forall nonneg (flat_map Plants.normalized (finditer Plants.MW_RE text)).
Proof.
  assert (H : forall ms, incl ms (finditer Plants.MW_RE text) ->
                Forall nonneg (flat_map Plants.normalized ms)).
  { induction ms as [|m ms IH]; intros Hincl; simpl; [constructor|].
    apply Forall_app. split.
    - apply (normalized_finite text). apply Hincl. now left.
    - apply IH. intros x Hx. apply Hincl. now right. }
  apply H. intros x Hx. exact Hx.
Qed.

Lemma name_guess_nonempty (title ln : str) (m : match_) :
  Plants.name_guess title ln m <> [].
Proof.
  unfold Plants.name_guess. destruct (strip _) as [|c t]; [|discriminate].
  intros H. apply app_eq_nil in H as [_ H]. vm_compute in H. discriminate.
Qed.

Lemma line_step_units (title : str) (lines : list str)
  (acc : list Plants.unit_reading) (P : Plants.unit_reading -> Prop) :
  (forall ln m, search Plants.MW_RE ln = Some m ->
     P (Plants.Unit (Plants.name_guess title ln m)
          (value_of (Plants._to_float (Some (group m 1)))))) ->
  Forall P acc ->
  Forall P (fold_left (Plants.line_step title) lines acc)
  /\ (length (fold_left (Plants.line_step title) lines acc)
      <= length acc + length lines)%nat.
Proof.
  intros Hunit. revert acc.
  induction lines as [|ln lines IH]; intros acc Hacc; simpl; [split; [exact Hacc | lia]|].
  assert (Hstep : Forall P (Plants.line_step title acc ln)
                  /\ (length (Plants.line_step title acc ln) <= S (length acc))%nat).
  { unfold Plants.line_step. destruct (search Plants.MW_RE ln) as [m|] eqn:E.
    - split.
      + apply Forall_app. split; [exact Hacc|]. constructor; [|constructor].
        now apply Hunit.
      + rewrite length_app. simpl. lia.
    - split; [exact Hacc | lia]. }
  destruct Hstep as [H1 H2]. destruct (IH _ H1) as [H3 H4].
  split; [exact H3 | lia].
Qed.

(** X1.  [harvest_for] never raises; it returns [None] exactly when no
    card carries the title, and otherwise a reading named after the title
    whose total and unit values are never negative and never NaN, whose
    unit names are never empty, and which has at most one unit per line of
    the panel text. *)
Theorem harvest_for_readings_sane (pg : Plants.page) (title : str) :
  exists r,
    Plants.harvest_for pg title = Ok r
    /\ (r = None <-> Plants.has_card pg title = false)
    /\ forall p, r = Some p ->
         Plants.nombre p = title
         /\ reading_ok (Plants.total_MW p)
         /\ Forall (fun u => Plants.unidad u <> [] /\ reading_ok (Plants.mw u))
              (Plants.unidades p)
         /\ (length (Plants.unidades p)
             <= length (splitlines (Plants.detail_of pg title)))%nat.
Proof.
  unfold Plants.harvest_for.
  destruct (Plants.has_card pg title) eqn:Hcard; cbn [negb].
  2:{ exists None. split; [reflexivity|]. split; [tauto | discriminate]. }
  rewrite extract_mw_values_eq. cbn [bind].
  rewrite harvest_lines_fold.
  eexists. split; [reflexivity|]. split; [split; discriminate|].
  intros p [= <-]. cbn [Plants.nombre Plants.total_MW Plants.unidades].
  split; [reflexivity|]. split.
  - pose proof (unit_values_finite (Plants.detail_of pg title)) as Hv.
    destruct (flat_map _ _) as [|v vals] eqn:E; [discriminate|].
    intros x [= <-]. now apply sum_nonneg.
  - pose proof (line_step_units title
        (List.filter (fun ln => match strip ln with [] => false | _ => true end)
           (splitlines (Plants.detail_of pg title))) []
        (fun u => Plants.unidad u <> [] /\ reading_ok (Plants.mw u))) as H.
    destruct H as [H1 H2]; [|constructor|].
    + intros ln m Hm. cbn [Plants.unidad Plants.mw]. split.
      * apply name_guess_nonempty.
      * intros v Hv. apply (plants_to_float_num_text (group m 1)); [|exact Hv].
        apply (search_groups _ _ _ _ _ Hm mw_re_group).
    + split; [exact H1|]. cbn [length Nat.add] in H2.
      etransitivity; [exact H2|]. apply filter_length_le.
Qed.
End SaneReadings.

Section SnapshotNumbers.
Import Re ReSpec NumSpec Scraper.

Lemma reading_ok_None : reading_ok None.
Proof. intros v H. discriminate. Qed.

Lemma values_ok_set (d : dict (option float)) (k : str) (v : option float) :
  values_ok d -> reading_ok v -> values_ok (set d k v).
Proof.
  intros Hd Hv. induction Hd as [|[k' v'] d Hkv Hd IH]; simpl.
  - constructor; [exact Hv | constructor].
  - destruct (str_eqb k' k); constructor; assumption.
Qed.

Lemma values_ok_get (d : dict (option float)) (k : str) :
  values_ok d -> reading_ok (get_value d k).
Proof.
  intros Hd. unfold get_value.
  induction Hd as [|[k' v'] d Hkv Hd IH]; simpl; [apply reading_ok_None|].
  destruct (str_eqb k' k); [exact Hkv | exact IH].
Qed.

Lemma values_ok_setdefault (d : dict (option float)) (k : str) :
  values_ok d -> values_ok (setdefault d k None).
Proof.
  intros Hd. unfold setdefault. destruct (get d k); [exact Hd|].
  apply values_ok_set; [exact Hd | apply reading_ok_None].
Qed.

Lemma search_number_sane (t label unit : str) :
  reading_ok (value_of (_search_number_after_label t label unit)).
Proof.
  unfold _search_number_after_label.
  destruct (search _ t) as [m|] eqn:E; [|apply reading_ok_None].
  intros v Hv. apply (scraper_to_float_num_text (group m 1)); [|exact Hv].
  apply (search_groups _ _ _ _ _ E (number_after_label_group label unit)).
Qed.

Lemma label_fold_sane (t : str) (catalog : list field_spec)
  (d : dict (option float)) :
  values_ok d -> values_ok (fold_left (label_step t) catalog d).
Proof.
  revert d. induction catalog as [|[[label unit] key] catalog IH];
    intros d Hd; [exact Hd|].
  cbn [fold_left]. apply IH. unfold label_step.
  apply values_ok_set; [exact Hd | apply search_number_sane].
Qed.

Lemma fuel_fold_sane (t : str) :
  values_ok (fold_left fuel_step (finditer FUEL_REGEX t) empty_mix).
Proof.
  assert (H : forall ms d, incl ms (finditer FUEL_REGEX t) -> values_ok d ->
                values_ok (fold_left fuel_step ms d)).
  { induction ms as [|m ms IH]; intros d Hincl Hd; [exact Hd|].
    cbn [fold_left]. apply IH; [intros x Hx; apply Hincl; now right|].
    unfold fuel_step. destruct (truthy_key _); [|exact Hd].
    apply values_ok_set; [exact Hd|].
    intros v Hv. apply (scraper_to_float_num_text (group m 2)); [|exact Hv].
    apply (finditer_groups FUEL_REGEX t); [apply Hincl; now left|].
    apply fuel_regex_group. }
  apply H; [intros x Hx; exact Hx|].
  unfold empty_mix. repeat constructor; apply reading_ok_None.
Qed.

Lemma merge_fold_sane (parsed d : dict (option float)) :
  values_ok parsed -> values_ok d -> values_ok (fold_left merge_step parsed d).
Proof.
  intros Hp. revert d. induction Hp as [|[k v] parsed Hkv Hp IH]; intros d Hd;
    [exact Hd|].
  cbn [fold_left]. apply IH. unfold merge_step.
  destruct v; [|exact Hd]. now apply values_ok_set.
Qed.

Lemma skeleton_sane (fs : list field_spec) (d : dict (option float)) :
  values_ok d ->
  values_ok (fold_left (fun d f => setdefault d (key_of f) None) fs d).
Proof.
  revert d. induction fs as [|f fs IH]; intros d Hd; [exact Hd|].
  cbn [fold_left]. apply IH. now apply values_ok_setdefault.
Qed.

Lemma first_stage_sane (page : browser) (b : bucket_id) :
  values_ok (bucket (first_stage page) b).
Proof.
  destruct b; unfold first_stage;
    cbn [bucket detalles_generacion pronostico_demanda fuel_mix_pct].
  - apply label_fold_sane. constructor.
  - apply label_fold_sane. constructor.
  - apply merge_fold_sane; [apply fuel_fold_sane|].
    apply skeleton_sane. constructor.
Qed.

Lemma bucket_set_sane (out : snapshot) (b : bucket_id) (k : str)
  (v : option float) :
  (forall b', values_ok (bucket out b')) -> reading_ok v ->
  forall b', values_ok (bucket (bucket_set out b k v) b').
Proof.
  intros Hout Hv b'. rewrite bucket_bucket_set.
  destruct b, b'; try apply Hout; apply values_ok_set; auto.
Qed.

Lemma fallback_step_sane (h : str -> str -> result (option str))
  (out : snapshot) (f : field_spec) :
  helper_ok (Some h) ->
  (forall b, values_ok (bucket out b)) ->
  forall b, values_ok (bucket (fallback_step h out f) b).
Proof.
  intros Hh Hout. destruct f as [[label unit] key]. unfold fallback_step.
  destruct (get_value _ key); [exact Hout|].
  destruct (h label unit) as [[s|]|e] eqn:E; cbn [bind]; try exact Hout.
  rewrite scraper_to_float_ok.
  destruct (value_of (_to_float (Some s))) as [v|] eqn:Ev; [|exact Hout].
  apply bucket_set_sane; [exact Hout|].
  intros x [= <-]. apply (scraper_to_float_num_text s); [|exact Ev].
  now apply (Hh h eq_refl label unit).
Qed.

Lemma second_stage_sane (page : browser) (out : snapshot) :
  helper_ok (dom_helper page) ->
  (forall b, values_ok (bucket out b)) ->
  forall b, values_ok (bucket (second_stage page out) b).
Proof.
  intros Hh Hout. unfold second_stage.
  destruct (missing_fields out) as [|f fs]; [exact Hout|].
  destruct (dom_helper page) as [h|]; [|exact Hout].
  generalize (f :: fs) as todo. intros todo. revert out Hout.
  induction todo as [|g todo IH]; intros out Hout; [exact Hout|].
  cbn [fold_left]. apply IH. now apply fallback_step_sane.
Qed.

(** X2.  When the DOM helper hands back only texts of digits, dots and
    commas (what its pattern [([\d.,]+)] captures), [scrape_once] returns a
    snapshot, and no number in any of its three groups is negative or NaN,
    whatever the pages show. *)
Theorem snapshot_numbers_sane (page : browser) :
  helper_ok (dom_helper page) ->
  exists out,
    scrape_once page = Ok out
    /\ forall b key, reading_ok (get_value (bucket out b) key).
Proof.
  intros Hh. eexists. split; [apply scrape_once_stages|].
  intros b key. apply values_ok_get.
  apply second_stage_sane; [exact Hh | apply first_stage_sane].
Qed.

Lemma snapshot_numbers_sane_witness :
  helper_ok (Some (fun _ _ => Ok (Some (py "7,5"))))
  /\ exists out,
       scrape_once
         (Browser (py "2025-10-20T23:31:15-04:00")
            (first_page_only (py "Bunker / Diésel: 18,5 %")) None
            (Some (fun _ _ => Ok (Some (py "7,5"))))) = Ok out
       /\ forall b key, reading_ok (get_value (bucket out b) key).
Proof.
  assert (H : helper_ok (Some (fun _ _ : str => @Ok (option str) (Some (py "7,5"))))).
  { intros h [= <-] label unit s [= <-]. repeat constructor. }
  split; [exact H|].
  exact (snapshot_numbers_sane
           (Browser (py "2025-10-20T23:31:15-04:00")
              (first_page_only (py "Bunker / Diésel: 18,5 %")) None
              (Some (fun _ _ => Ok (Some (py "7,5"))))) H).
Defined.
End SnapshotNumbers.

Section TimestampFacts.
Import Re ReSpec Scraper.

Lemma lstrip_by_head (p : N -> bool) (s t : str) (c : N) :
  lstrip_by p s = c :: t -> p c = false.
Proof.
  induction s as [|x s IH]; simpl; [discriminate|].
  destruct (p x) eqn:E; [exact IH | intros [= <- _]; exact E].
Qed.

Lemma lstrip_by_suffix (p : N -> bool) (s : str) :
  exists pre, s = pre ++ lstrip_by p s /\ Forall (fun c => p c = true) pre.
Proof.
  induction s as [|x s (pre & E & F)]; simpl.
  - exists []. split; [reflexivity | constructor].
  - destruct (p x) eqn:Hx.
    + exists (x :: pre). split; [simpl; now rewrite <- E | now constructor].
    + exists []. split; [reflexivity | constructor].
Qed.

(** What [strip] returns neither starts nor ends with a character it strips. *)
Lemma strip_by_head (p : N -> bool) (s t : str) (c : N) :
  strip_by p s = c :: t -> p c = false.
Proof.
  unfold strip_by. intros H.
  destruct (lstrip_by_suffix p (rev (lstrip_by p s))) as (pre & E & _).
  apply (f_equal (@rev N)) in H. rewrite rev_involutive in H.
  rewrite H in E. apply (f_equal (@rev N)) in E.
  rewrite rev_involutive, rev_app_distr, rev_involutive in E.
  apply (lstrip_by_head p s (t ++ rev pre)). exact E.
Qed.

Lemma strip_by_last (p : N -> bool) (s t : str) (c : N) :
  strip_by p s = t ++ [c] -> p c = false.
Proof.
  unfold strip_by. intros H.
  apply (f_equal (@rev N)) in H. rewrite rev_involutive, rev_app_distr in H.
  simpl in H. now apply lstrip_by_head in H.
Qed.

Lemma timestamp_group :
  captures 1 (fun c => c <> 10%N /\ c <> 13%N) timestamp_re.
Proof.
  unfold timestamp_re, seqs, plus, ws. simpl.
  assert (H : forall c, negb ((c =? 10)%N || (c =? 13)%N) = true ->
                c <> 10%N /\ c <> 13%N).
  { intros c Hc. apply negb_true_iff, orb_false_iff in Hc as [H1 H2].
    apply N.eqb_neq in H1, H2. now split. }
  repeat split; try exact I;
    match goal with Hc : negb _ = true |- _ => now apply H in Hc end.
Qed.

(** X3.  A label returned by [_search_timestamp] holds no line break
    and neither starts nor ends with a blank. *)
Theorem search_timestamp_clean (page_text s : str) :
  _search_timestamp page_text = Some s ->
  Forall (fun c => c <> 10%N /\ c <> 13%N) s
  /\ (forall c t, s = c :: t -> is_space c = false)
  /\ (forall c t, s = t ++ [c] -> is_space c = false).
Proof.
  unfold _search_timestamp.
  destruct (search timestamp_re page_text) as [m|] eqn:E; [|discriminate].
  intros [= <-]. split; [|split].
  - apply strip_by_Forall. exact (search_groups _ _ _ _ _ E timestamp_group).
  - intros c t. apply strip_by_head.
  - intros c t. apply strip_by_last.
Qed.

Lemma search_timestamp_clean_witness :
  _search_timestamp
    (py "Actualizado 10/20/2025 1:06:02 PM  " ++ newline ++ py "2129 MW")
  = Some (py "10/20/2025 1:06:02 PM")
  /\ Forall (fun c => c <> 10%N /\ c <> 13%N) (py "10/20/2025 1:06:02 PM").
Proof.
  assert (H : _search_timestamp
                (py "Actualizado 10/20/2025 1:06:02 PM  " ++ newline
                   ++ py "2129 MW")
              = Some (py "10/20/2025 1:06:02 PM")) by (vm_compute; reflexivity).
  split; [exact H|].
  exact (proj1 (search_timestamp_clean _ _ H)).
Defined.
End TimestampFacts.

(* ===================================================================== *)
(** * The normaliser on well-formed numbers *)
(* ===================================================================== *)

Section DecimalFacts.
Import NumSpec.

Lemma to_float_parse (s : str) :
  Scraper._to_float (Some s) = Ok (parse_float (Scraper.dot_decimal s)).
Proof. rewrite scraper_to_float_eq. now destruct s. Qed.

Lemma lstrip_by_none (p : N -> bool) (s : str) :
  Forall (fun c => p c = false) s -> lstrip_by p s = s.
Proof. intros [|c t Hc _]; simpl; [reflexivity | now rewrite Hc]. Qed.

Lemma strip_by_none (p : N -> bool) (s : str) :
  Forall (fun c => p c = false) s -> strip_by p s = s.
Proof.
  intros H. unfold strip_by. rewrite (lstrip_by_none p s H).
  rewrite lstrip_by_none by now apply Forall_rev.
  apply rev_involutive.
Qed.

Lemma contains_single (x : N) (s : str) :
  contains [x] s = existsb (N.eqb x) s.
Proof.
  induction s as [|c t IH]; simpl; [reflexivity|].
  destruct (x =? c)%N; [reflexivity | exact IH].
Qed.

Lemma replace_single (o : N) (new s : str) :
  replace [o] new s = flat_map (fun c => if (o =? c)%N then new else [c]) s.
Proof.
  unfold replace.
  assert (H : forall fuel s, (length s < fuel)%nat ->
            replace_fuel fuel [o] new s
            = flat_map (fun c => if (o =? c)%N then new else [c]) s).
  { induction fuel as [|fuel IH]; intros t Ht; [lia|].
    destruct t as [|c t]; [reflexivity|].
    cbn [replace_fuel starts_with flat_map]. simpl in Ht.
    destruct (o =? c)%N; cbn [app]; rewrite IH by lia; reflexivity. }
  apply H. lia.
Qed.

Lemma digit_not (c x : N) :
  is_digit c = true -> is_digit x = false -> (x =? c)%N = false.
Proof.
  intros Hc Hx. apply N.eqb_neq. intros ->. congruence.
Qed.

Lemma digit_text_without (x : N) (new a : str) :
  digit_text a -> is_digit x = false ->
  existsb (N.eqb x) a = false
  /\ flat_map (fun c => if (x =? c)%N then new else [c]) a = a.
Proof.
  intros Ha Hx. induction Ha as [|c a Hc Ha [IH1 IH2]]; [split; reflexivity|].
  simpl. rewrite (digit_not c x Hc Hx). simpl. rewrite IH1, IH2. now split.
Qed.

Lemma digit_text_no_space (a : str) :
  digit_text a -> Forall (fun c => is_space c = false) a.
Proof.
  intros Ha. induction Ha as [|c a Hc Ha IH]; constructor; [|exact IH].
  unfold is_digit, in_range in Hc. apply andb_true_iff in Hc as [H1 H2].
  apply N.leb_le in H1, H2. unfold is_space, in_range.
  repeat match goal with
         | |- context [(?a <=? ?b)%N] =>
           destruct (N.leb_spec a b); try lia
         | |- context [(?a =? ?b)%N] =>
           destruct (N.eqb_spec a b); try lia
         end; reflexivity.
Qed.

Lemma digit_run_text (a rest : str) :
  digit_text a ->
  match rest with
  | [] => True
  | c :: _ => is_digit c = false /\ c <> 95%N
  end ->
  digit_run (a ++ rest) = (a, rest).
Proof.
  intros Ha Hrest. induction Ha as [|c a Hc Ha IH]; simpl.
  - destruct rest as [|c t]; [reflexivity|]. destruct Hrest as [Hd Hu].
    cbn [digit_run]. rewrite Hd. apply N.eqb_neq in Hu. now rewrite Hu.
  - now rewrite Hc, IH.
Qed.

Lemma digitpart_text (a rest : str) :
  digit_text a -> a <> [] ->
  match rest with
  | [] => True
  | c :: _ => is_digit c = false /\ c <> 95%N
  end ->
  digitpart (a ++ rest) = Some (a, rest).
Proof.
  intros Ha Hne Hrest. destruct Ha as [|c a Hc Ha]; [congruence|].
  cbn [app digitpart]. rewrite Hc.
  change (fix digit_run (s : str) : list N * str := _) with digit_run.
  now rewrite (digit_run_text a rest Ha Hrest).
Qed.

Lemma sign_other (c : N) (t : str) :
  c <> 43%N -> c <> 45%N -> sign (c :: t) = (false, c :: t).
Proof.
  intros H43 H45. unfold sign. destruct c as [|c]; [reflexivity|].
  repeat (destruct c as [c|c|]; try reflexivity);
    exfalso; (now apply H43) || (now apply H45).
Qed.

Lemma digit_bounds (c : N) : is_digit c = true -> (48 <= c <= 57)%N.
Proof.
  unfold is_digit, in_range. intros H. apply andb_true_iff in H as [H1 H2].
  apply N.leb_le in H1, H2. lia.
Qed.

(** [float] of a text that starts with a digit: the number read, if the
    rest after it is an exponent. *)
Lemma parse_float_digit_head (c : N) (t : str) :
  is_digit c = true ->
  Forall (fun x => is_space x = false) (c :: t) ->
  parse_float (c :: t)
  = match number (c :: t) with
    | Some (m, sc, r) =>
      match exponent r with
      | Some e => Some (round64 m (sc + e))
      | None => None
      end
    | None => None
    end.
Proof.
  intros Hc Hs. unfold parse_float.
  rewrite (strip_by_none float_space)
    by (eapply List.Forall_impl; [|exact Hs]; intros x Hx;
        unfold float_space; now rewrite Hx).
  pose proof (digit_bounds c Hc) as Hb.
  rewrite sign_other by lia.
  assert (El : lower_char c = c).
  { unfold lower_char, in_range.
    destruct (65 <=? c)%N eqn:E1; [apply N.leb_le in E1; lia|].
    destruct (192 <=? c)%N eqn:E2; [apply N.leb_le in E2; lia|].
    reflexivity. }
  assert (Hw : forall x w, (x = 105 \/ x = 110)%N ->
                 str_eqb (lower (c :: t)) (x :: w) = false).
  { intros x w Hx. simpl. rewrite El.
    destruct (N.eqb_spec c x); [lia | reflexivity]. }
  change (py "inf") with (105%N :: py "nf").
  change (py "infinity") with (105%N :: py "nfinity").
  change (py "nan") with (110%N :: py "an").
  rewrite !Hw by auto. reflexivity.
Qed.
Lemma parse_plain (a : str) :
  digit_text a -> a <> [] -> parse_float a = Some (decimal_of a []).
Proof.
  intros Ha Hne. destruct a as [|c a]; [congruence|].
  inversion Ha as [|? ? Hc Ha']. subst.
  rewrite parse_float_digit_head by (auto using digit_text_no_space).
  unfold number.
  rewrite <- (app_nil_r (c :: a)) at 1.
  rewrite (digitpart_text (c :: a) [] Ha Hne I). cbn [exponent].
  unfold decimal_of. now rewrite app_nil_r.
Qed.

Lemma parse_dotted (a b : str) :
  digit_text a -> a <> [] -> digit_text b -> b <> [] ->
  parse_float (a ++ 46%N :: b) = Some (decimal_of a b).
Proof.
  intros Ha Hna Hb Hnb. destruct a as [|c a]; [congruence|].
  inversion Ha as [|? ? Hc Ha']. subst.
  change ((c :: a) ++ 46%N :: b) with (c :: (a ++ 46%N :: b)).
  rewrite parse_float_digit_head; [|exact Hc|].
  2:{ change (c :: a ++ 46%N :: b) with ((c :: a) ++ [46%N] ++ b).
      apply Forall_app. split; [now apply digit_text_no_space|].
      apply Forall_app. split; [repeat constructor | now apply digit_text_no_space]. }
  change (c :: a ++ 46%N :: b) with ((c :: a) ++ 46%N :: b).
  unfold number.
  rewrite (digitpart_text (c :: a) (46%N :: b) Ha Hna)
    by (split; [reflexivity | discriminate]).
  rewrite <- (app_nil_r b) at 1.
  rewrite (digitpart_text b [] Hb Hnb I). cbn [exponent].
  unfold decimal_of. now rewrite Z.add_0_r.
Qed.

Lemma dot_decimal_plain (a : str) :
  digit_text a -> Scraper.dot_decimal a = a.
Proof.
  intros Ha. unfold Scraper.dot_decimal, strip.
  rewrite strip_by_none by now apply digit_text_no_space.
  change (py ",") with [44%N]. rewrite contains_single.
  now rewrite (proj1 (digit_text_without 44 [] a Ha eq_refl)).
Qed.

(** The separators of a text made of digit groups and separators. *)
Lemma separators_of (x : N) (new a b : str) (sep : N) :
  digit_text a -> is_digit x = false ->
  existsb (N.eqb x) (a ++ sep :: b) = (x =? sep)%N || existsb (N.eqb x) b
  /\ flat_map (fun c => if (x =? c)%N then new else [c]) (a ++ sep :: b)
     = a ++ (if (x =? sep)%N then new else [sep])
         ++ flat_map (fun c => if (x =? c)%N then new else [c]) b.
Proof.
  intros Ha Hx. destruct (digit_text_without x new a Ha Hx) as [H1 H2].
  rewrite existsb_app, flat_map_app, H1, H2. split; reflexivity.
Qed.

Ltac seps :=
  repeat first
    [ progress (change (44 =? 44)%N with true)
    | progress (change (46 =? 46)%N with true)
    | progress (change (44 =? 46)%N with false)
    | progress (change (46 =? 44)%N with false) ];
  cbn [orb andb app].

(** X4.  On non-empty digit strings [g], [a], [b], [_to_float] reads
    "a" as the integer a, "a.b" and "a,b" as the decimal a.b, and "g,a.b"
    (comma as thousands separator) as the decimal ga.b. *)
Theorem to_float_reads_decimals (g a b : str) :
  digit_text g -> g <> [] -> digit_text a -> a <> [] ->
  digit_text b -> b <> [] ->
  Scraper._to_float (Some a) = Ok (Some (decimal_of a []))
  /\ Scraper._to_float (Some (a ++ py "." ++ b)) = Ok (Some (decimal_of a b))
  /\ Scraper._to_float (Some (a ++ py "," ++ b)) = Ok (Some (decimal_of a b))
  /\ Scraper._to_float (Some (g ++ py "," ++ a ++ py "." ++ b))
     = Ok (Some (decimal_of (g ++ a) b)).
Proof.
  intros Hg Hng Ha Hna Hb Hnb.
  change (py ".") with [46%N]. change (py ",") with [44%N]. cbn [app].
  assert (Sb : Forall (fun c => is_space c = false) b)
    by now apply digit_text_no_space.
  assert (Sa : Forall (fun c => is_space c = false) a)
    by now apply digit_text_no_space.
  assert (Sg : Forall (fun c => is_space c = false) g)
    by now apply digit_text_no_space.
  destruct (digit_text_without 44 [] b Hb eq_refl) as [Cb Rb].
  destruct (digit_text_without 46 [] b Hb eq_refl) as [Db Eb].
  destruct (digit_text_without 44 [46%N] b Hb eq_refl) as [_ Fb].
  rewrite !to_float_parse. repeat split; f_equal.
  - rewrite dot_decimal_plain by exact Ha. now apply parse_plain.
  - unfold Scraper.dot_decimal, strip.
    rewrite strip_by_none
      by (apply Forall_app; split; [exact Sa | constructor; [reflexivity | exact Sb]]).
    change (py ",") with [44%N]. change (py ".") with [46%N].
    rewrite !contains_single.
    rewrite (proj1 (separators_of 44 [] a b 46 Ha eq_refl)), Cb.
    seps. now apply parse_dotted.
  - unfold Scraper.dot_decimal, strip.
    rewrite strip_by_none
      by (apply Forall_app; split; [exact Sa | constructor; [reflexivity | exact Sb]]).
    change (py ",") with [44%N]. change (py ".") with [46%N].
    change (py "") with (@nil N).
    rewrite !contains_single.
    rewrite (proj1 (separators_of 44 [] a b 44 Ha eq_refl)).
    rewrite (proj1 (separators_of 46 [] a b 44 Ha eq_refl)), Db.
    seps.
    rewrite !replace_single.
    rewrite (proj2 (separators_of 46 [] a b 44 Ha eq_refl)), Eb.
    seps.
    rewrite (proj2 (separators_of 44 [46%N] a b 44 Ha eq_refl)), Fb.
    seps. now apply parse_dotted.
  - assert (Hab : Forall (fun c => is_space c = false) (a ++ 46%N :: b))
      by (apply Forall_app; split; [exact Sa | constructor; [reflexivity | exact Sb]]).
    unfold Scraper.dot_decimal, strip.
    rewrite strip_by_none
      by (apply Forall_app; split; [exact Sg | constructor; [reflexivity | exact Hab]]).
    change (py ",") with [44%N]. change (py ".") with [46%N].
    change (py "") with (@nil N).
    rewrite !contains_single.
    rewrite (proj1 (separators_of 44 [] g (a ++ 46%N :: b) 44 Hg eq_refl)).
    rewrite (proj1 (separators_of 46 [] g (a ++ 46%N :: b) 44 Hg eq_refl)).
    rewrite (proj1 (separators_of 46 [] a b 46 Ha eq_refl)).
    seps.
    rewrite replace_single.
    rewrite (proj2 (separators_of 44 [] g (a ++ 46%N :: b) 44 Hg eq_refl)).
    rewrite (proj2 (separators_of 44 [] a b 46 Ha eq_refl)), Rb.
    seps.
    rewrite app_assoc. apply parse_dotted; auto.
    + now apply Forall_app.
    + intros H. apply app_eq_nil in H as [H _]. contradiction.
Qed.

Lemma to_float_reads_decimals_witness :
  digit_text (py "1") /\ digit_text (py "234") /\ digit_text (py "56")
  /\ Scraper._to_float (Some (py "234" ++ py "," ++ py "56"))
     = Ok (Some (decimal_of (py "234") (py "56")))
  /\ Scraper._to_float (Some (py "1" ++ py "," ++ py "234" ++ py "." ++ py "56"))
     = Ok (Some (decimal_of (py "1" ++ py "234") (py "56"))).
Proof.
  assert (H1 : digit_text (py "1")) by (repeat constructor).
  assert (H2 : digit_text (py "234")) by (repeat constructor).
  assert (H3 : digit_text (py "56")) by (repeat constructor).
  destruct (to_float_reads_decimals (py "1") (py "234") (py "56") H1
              ltac:(discriminate) H2 ltac:(discriminate) H3
              ltac:(discriminate)) as (_ & _ & Hc & Hg).
  repeat split; assumption.
Defined.
End DecimalFacts.

(* ===================================================================== *)
(** * What [float] accepts *)
(* ===================================================================== *)

Section SeparatorFacts.
Import NumSpec.

Lemma scraper_plants_to_float (x : option str) :
  Plants._to_float x = Scraper._to_float x.
Proof.
  destruct x as [s|]; [|reflexivity].
  now rewrite plants_to_float_eq, scraper_to_float_eq, plants_dot_decimal_eq.
Qed.

(** X5.  The two copies of [_to_float], in genera_scraper.py and in
    genera_plants_scraper.py, return the same result on every argument,
    their different [if]/[elif] layout and [except] clauses
    notwithstanding. *)
Theorem to_float_same_in_both_scrapers (x : option str) :
  Plants._to_float x = Scraper._to_float x.
Proof. apply scraper_plants_to_float. Qed.

(** *** Blanks around the number *)

Lemma lstrip_by_all (p : N -> bool) (s : str) :
  Forall (fun c => p c = true) s -> lstrip_by p s = [].
Proof. induction 1 as [|c s Hc Hs IH]; simpl; [reflexivity | now rewrite Hc]. Qed.

Lemma lstrip_by_pad (p : N -> bool) (pad s : str) :
  Forall (fun c => p c = true) pad -> lstrip_by p (pad ++ s) = lstrip_by p s.
Proof. induction 1 as [|c pad Hc Hp IH]; simpl; [reflexivity | now rewrite Hc]. Qed.

Lemma lstrip_by_app (p : N -> bool) (s u : str) :
  lstrip_by p (s ++ u)
  = match lstrip_by p s with
    | [] => lstrip_by p u
    | kept => kept ++ u
    end.
Proof.
  induction s as [|c s IH]; simpl; [now destruct (lstrip_by p u)|].
  destruct (p c); [exact IH | reflexivity].
Qed.

Lemma strip_by_pad (p : N -> bool) (pad pad' s : str) :
  Forall (fun c => p c = true) pad -> Forall (fun c => p c = true) pad' ->
  strip_by p (pad ++ s ++ pad') = strip_by p s.
Proof.
  intros Hp Hp'. unfold strip_by. rewrite (lstrip_by_pad p pad _ Hp).
  rewrite lstrip_by_app. destruct (lstrip_by p s) as [|c t] eqn:E.
  - now rewrite (lstrip_by_all p pad' Hp').
  - rewrite rev_app_distr. rewrite lstrip_by_pad by now apply Forall_rev.
    reflexivity.
Qed.

(** X6.  Blanks around the text do not change what either [_to_float]
    returns. *)
Theorem to_float_ignores_blanks (pad pad' s : str) :
  Forall (fun c => is_space c = true) pad ->
  Forall (fun c => is_space c = true) pad' ->
  Scraper._to_float (Some (pad ++ s ++ pad')) = Scraper._to_float (Some s)
  /\ Plants._to_float (Some (pad ++ s ++ pad')) = Plants._to_float (Some s).
Proof.
  intros Hp Hp'.
  assert (E : Scraper._to_float (Some (pad ++ s ++ pad'))
              = Scraper._to_float (Some s)).
  { rewrite !to_float_parse. unfold Scraper.dot_decimal, strip.
    now rewrite (strip_by_pad is_space pad pad' s Hp Hp'). }
  split; [exact E | now rewrite !scraper_plants_to_float].
Qed.

Lemma to_float_ignores_blanks_witness :
  Forall (fun c => is_space c = true) (py "  ")
  /\ Forall (fun c => is_space c = true) newline
  /\ Scraper._to_float (Some (py "  " ++ py "230,5" ++ newline))
     = Scraper._to_float (Some (py "230,5")).
Proof.
  assert (H1 : Forall (fun c => is_space c = true) (py "  "))
    by (repeat constructor).
  assert (H2 : Forall (fun c => is_space c = true) newline)
    by (repeat constructor).
  split; [exact H1|]. split; [exact H2|].
  exact (proj1 (to_float_ignores_blanks _ _ (py "230,5") H1 H2)).
Defined.

(** *** Counting separators *)

Lemma count_char_app (x : N) (s t : str) :
  count_char x (s ++ t) = (count_char x s + count_char x t)%nat.
Proof. unfold count_char. now rewrite List.filter_app, length_app. Qed.

Lemma count_char_cons (x c : N) (s : str) :
  count_char x (c :: s)
  = ((if (x =? c)%N then 1 else 0) + count_char x s)%nat.
Proof. unfold count_char. simpl. now destruct (x =? c)%N. Qed.

Lemma count_char_none (x : N) (P : N -> Prop) (s : str) :
  Forall P s -> ~ P x -> count_char x s = 0%nat.
Proof.
  intros Hs Hx. induction Hs as [|c s Hc Hs IH]; [reflexivity|].
  rewrite count_char_cons, IH.
  destruct (N.eqb_spec x c); [subst; contradiction | reflexivity].
Qed.

Lemma count_char_contains (x : N) (s : str) :
  contains [x] s = negb (count_char x s =? 0)%nat.
Proof.
  rewrite contains_single. induction s as [|c s IH]; [reflexivity|].
  rewrite count_char_cons. simpl. destruct (x =? c)%N; [reflexivity | exact IH].
Qed.

Lemma count_char_replace (x o : N) (new s : str) :
  count_char x (replace [o] new s)
  = (count_char o s * count_char x new
     + (if (x =? o)%N then 0 else count_char x s))%nat.
Proof.
  rewrite replace_single. induction s as [|c s IH]; simpl.
  - now destruct (x =? o)%N.
  - rewrite count_char_app, IH, !count_char_cons.
    assert (E1 : count_char x [c] = if (x =? c)%N then 1%nat else 0%nat).
    { unfold count_char. simpl. now destruct (x =? c)%N. }
    destruct (N.eqb_spec o c) as [Hoc|Hoc]; [|rewrite E1];
      destruct (N.eqb_spec x o) as [Hxo|Hxo];
      destruct (N.eqb_spec x c) as [Hxc|Hxc];
      subst; try contradiction; try congruence; nia.
Qed.

Lemma strip_by_parts (p : N -> bool) (s : str) :
  exists pre post,
    s = pre ++ strip_by p s ++ post
    /\ Forall (fun c => p c = true) pre
    /\ Forall (fun c => p c = true) post.
Proof.
  unfold strip_by.
  destruct (lstrip_by_suffix p s) as (pre & E1 & F1).
  destruct (lstrip_by_suffix p (rev (lstrip_by p s))) as (post & E2 & F2).
  exists pre, (rev post). split; [|split; [exact F1 | now apply Forall_rev]].
  rewrite <- rev_app_distr, <- E2, rev_involutive. exact E1.
Qed.

Lemma count_char_strip_by (p : N -> bool) (x : N) (s : str) :
  p x = false -> count_char x (strip_by p s) = count_char x s.
Proof.
  intros Hx.
  destruct (strip_by_parts p s) as (pre & post & E & Fpre & Fpost).
  rewrite E at 2. rewrite !count_char_app.
  rewrite (count_char_none x _ pre Fpre) by congruence.
  rewrite (count_char_none x _ post Fpost) by congruence. lia.
Qed.

Lemma count_char_strip (x : N) (s : str) :
  is_space x = false -> count_char x (strip s) = count_char x s.
Proof. apply count_char_strip_by. Qed.

(** *** The shape of what [float] parses *)

Lemma sign_cases (s : str) :
  sign s = match s with
           | [] => (false, [])
           | c :: t => if (c =? 45)%N then (true, t)
                       else if (c =? 43)%N then (false, t)
                       else (false, s)
           end.
Proof.
  destruct s as [|c t]; [reflexivity|]. unfold sign.
  destruct c as [|c]; [reflexivity|].
  repeat (destruct c as [c|c|]; try reflexivity).
Qed.

Lemma number_cases (s : str) :
  number s
  = match digitpart s with
    | Some (ip, r) =>
      match r with
      | [] => Some (digits_value ip, 0%Z, r)
      | c :: r1 =>
        if (c =? 46)%N
        then match digitpart r1 with
             | Some (fp, r2) =>
               Some (digits_value (ip ++ fp), (- Z.of_nat (length fp))%Z, r2)
             | None => Some (digits_value ip, 0%Z, r1)
             end
        else Some (digits_value ip, 0%Z, r)
      end
    | None =>
      match s with
      | [] => None
      | c :: r1 =>
        if (c =? 46)%N
        then match digitpart r1 with
             | Some (fp, r2) =>
               Some (digits_value fp, (- Z.of_nat (length fp))%Z, r2)
             | None => None
             end
        else None
      end
    end.
Proof.
  unfold number. destruct (digitpart s) as [[ip r]|].
  - destruct r as [|c r1]; [reflexivity|].
    destruct c as [|c]; [reflexivity|].
    repeat (destruct c as [c|c|]; try reflexivity).
  - destruct s as [|c r1]; [reflexivity|].
    destruct c as [|c]; [reflexivity|].
    repeat (destruct c as [c|c|]; try reflexivity).
Qed.

(** A run of digits is made of digits and underscores. *)
Lemma digit_run_parts (s : str) :
  exists u, s = u ++ snd (digit_run s)
            /\ Forall (fun c => is_digit c = true \/ c = 95%N) u.
Proof.
  assert (H : forall n s, (length s <= n)%nat ->
            exists u, s = u ++ snd (digit_run s)
                      /\ Forall (fun c => is_digit c = true \/ c = 95%N) u).
  { induction n as [|n IH]; intros t Ht.
    - destruct t; [|simpl in Ht; lia]. exists []. split; [reflexivity | constructor].
    - destruct t as [|c t]; [exists []; split; [reflexivity | constructor]|].
      simpl in Ht. cbn [digit_run].
      destruct (is_digit c) eqn:Hc.
      + destruct (IH t ltac:(lia)) as (u & E & F).
        destruct (digit_run t) as [ds r]. cbn [snd] in *.
        exists (c :: u). split; [simpl; now rewrite <- E | constructor; auto].
      + destruct (N.eqb_spec c 95) as [->|Hu];
          [|exists []; split; [reflexivity | constructor]].
        destruct t as [|d t']; [exists []; split; [reflexivity | constructor]|].
        destruct (is_digit d) eqn:Hd;
          [|exists []; split; [reflexivity | constructor]].
        simpl in Ht. destruct (IH t' ltac:(lia)) as (u & E & F).
        destruct (digit_run t') as [ds r]. cbn [snd] in *.
        exists (95%N :: d :: u). split; [simpl; now rewrite <- E|].
        constructor; [now right|]. constructor; [now left | exact F]. }
  apply (H (length s)). lia.
Qed.

Lemma digitpart_parts (s r : str) (ds : list N) :
  digitpart s = Some (ds, r) ->
  exists u, s = u ++ r /\ Forall (fun c => is_digit c = true \/ c = 95%N) u.
Proof.
  destruct s as [|c t]; [discriminate|]. cbn [digitpart].
  destruct (is_digit c) eqn:Hc; [|discriminate].
  destruct (digit_run_parts t) as (u & E & F).
  change (fix digit_run (s : str) : list N * str := _) with digit_run.
  destruct (digit_run t) as [ds' r']. cbn [snd] in E.
  intros [= _ <-]. exists (c :: u). split; [simpl; now rewrite <- E|].
  constructor; auto.
Qed.

Lemma plain_count (x : N) (u : str) :
  x = 44%N \/ x = 46%N ->
  Forall (fun c => is_digit c = true \/ c = 95%N) u -> count_char x u = 0%nat.
Proof.
  intros Hx Hu. apply (count_char_none x _ u Hu).
  intros [H|H]; destruct Hx; subst; discriminate.
Qed.

Lemma number_count (s r : str) (m sc : Z) :
  number s = Some (m, sc, r) ->
  exists u, s = u ++ r /\ count_char 44 u = 0%nat /\ (count_char 46 u <= 1)%nat.
Proof.
  rewrite number_cases. destruct (digitpart s) as [[ip r0]|] eqn:E.
  - apply digitpart_parts in E as (u & -> & Fu).
    pose proof (plain_count 44 u (or_introl eq_refl) Fu) as C1.
    pose proof (plain_count 46 u (or_intror eq_refl) Fu) as C2.
    destruct r0 as [|c r1].
    + intros [= _ _ <-]. exists u. repeat split; [exact C1 | lia].
    + destruct (N.eqb_spec c 46) as [->|Hc].
      * destruct (digitpart r1) as [[fp r2]|] eqn:E1.
        -- apply digitpart_parts in E1 as (u1 & -> & Fu1).
           intros [= _ _ <-]. exists (u ++ 46%N :: u1).
           split; [now rewrite <- app_assoc|].
           rewrite !count_char_app, !count_char_cons, C1, C2.
           rewrite (plain_count 44 u1 (or_introl eq_refl) Fu1).
           rewrite (plain_count 46 u1 (or_intror eq_refl) Fu1).
           split; [reflexivity | cbv; lia].
        -- intros [= _ _ <-]. exists (u ++ [46%N]).
           split; [now rewrite <- app_assoc|].
           rewrite !count_char_app, C1, C2. split; [reflexivity | cbv; lia].
      * intros [= _ _ <-]. exists u. repeat split; [exact C1 | lia].
  - destruct s as [|c r1]; [discriminate|].
    destruct (N.eqb_spec c 46) as [->|Hc]; [|discriminate].
    destruct (digitpart r1) as [[fp r2]|] eqn:E1; [|discriminate].
    apply digitpart_parts in E1 as (u1 & -> & Fu1).
    intros [= _ _ <-]. exists (46%N :: u1). split; [reflexivity|].
    rewrite !count_char_cons.
    rewrite (plain_count 44 u1 (or_introl eq_refl) Fu1).
    rewrite (plain_count 46 u1 (or_intror eq_refl) Fu1).
    split; [reflexivity | cbv; lia].
Qed.

Lemma exponent_count (r : str) (e : Z) (x : N) :
  x = 44%N \/ x = 46%N -> exponent r = Some e -> count_char x r = 0%nat.
Proof.
  intros Hx. unfold exponent. destruct r as [|c t]; [reflexivity|].
  destruct ((c =? 101)%N || (c =? 69)%N) eqn:Hc; [|discriminate].
  rewrite sign_cases.
  assert (Hxc : (x =? c)%N = false).
  { apply orb_true_iff in Hc as [H|H]; apply N.eqb_eq in H; subst c;
      destruct Hx; subst x; reflexivity. }
  rewrite count_char_cons, Hxc.
  assert (Hpart : forall t', match digitpart t' with
                             | Some (ds, []) => True
                             | _ => False
                             end -> count_char x t' = 0%nat).
  { intros t' H. destruct (digitpart t') as [[ds [|? ?]]|] eqn:E; try contradiction.
    apply digitpart_parts in E as (u & -> & Fu).
    rewrite app_nil_r. now apply plain_count. }
  destruct t as [|d t']; [discriminate|].
  destruct (N.eqb_spec d 45) as [->|H45];
    [|destruct (N.eqb_spec d 43) as [->|H43]].
  - intros H. rewrite count_char_cons.
    replace (x =? 45)%N with false by (destruct Hx; subst x; reflexivity).
    simpl. apply Hpart. destruct (digitpart t') as [[ds [|? ?]]|]; auto; discriminate.
  - intros H. rewrite count_char_cons.
    replace (x =? 43)%N with false by (destruct Hx; subst x; reflexivity).
    simpl. apply Hpart. destruct (digitpart t') as [[ds [|? ?]]|]; auto; discriminate.
  - intros H. simpl. apply Hpart.
    destruct (digitpart (d :: t')) as [[ds [|? ?]]|]; auto; discriminate.
Qed.

Lemma lower_char_sep (x c : N) :
  x = 44%N \/ x = 46%N -> (x =? lower_char c)%N = (x =? c)%N.
Proof.
  intros Hx. unfold lower_char, in_range.
  destruct (N.leb_spec 65 c); destruct (N.leb_spec c 90);
    destruct (N.leb_spec 192 c); destruct (N.leb_spec c 222);
    destruct (N.eqb_spec c 215); cbn [andb negb];
    destruct (N.eqb_spec x c); destruct Hx; subst x;
    repeat match goal with
           | |- context [(?a =? ?b)%N] => destruct (N.eqb_spec a b)
           end; try reflexivity; lia.
Qed.

Lemma count_char_lower (x : N) (s : str) :
  x = 44%N \/ x = 46%N -> count_char x (lower s) = count_char x s.
Proof.
  intros Hx. induction s as [|c s IH]; [reflexivity|].
  change (lower (c :: s)) with (lower_char c :: lower s).
  now rewrite !count_char_cons, IH, lower_char_sep.
Qed.

(** [float] takes no comma and at most one dot. *)
Lemma parse_float_separators (s : str) (v : float) :
  parse_float s = Some v ->
  count_char 44 s = 0%nat /\ (count_char 46 s <= 1)%nat.
Proof.
  unfold parse_float.
  rewrite <- (count_char_strip_by float_space 44 s eq_refl).
  rewrite <- (count_char_strip_by float_space 46 s eq_refl).
  generalize (strip_by float_space s) as t. intros t. rewrite sign_cases.
  assert (Hbody : forall neg body,
    (if str_eqb (lower body) (py "inf") || str_eqb (lower body) (py "infinity")
     then Some (Inf neg)
     else if str_eqb (lower body) (py "nan") then Some NaN
     else match number body with
          | Some (m, sc, r) =>
            match exponent r with
            | Some e => Some (round64 (if neg then (- m)%Z else m) (sc + e))
            | None => None
            end
          | None => None
          end) = Some v ->
    count_char 44 body = 0%nat /\ (count_char 46 body <= 1)%nat).
  { intros neg body.
    assert (Hword : forall w, str_eqb (lower body) w = true ->
              count_char 44 w = 0%nat -> count_char 46 w = 0%nat ->
              count_char 44 body = 0%nat /\ (count_char 46 body <= 1)%nat).
    { intros w Hw H44 H46. apply str_eqb_eq in Hw.
      rewrite <- (count_char_lower 44 body), <- (count_char_lower 46 body), Hw
        by auto. lia. }
    destruct (str_eqb (lower body) (py "inf")) eqn:E1;
      [intros _; now apply (Hword _ E1)|].
    destruct (str_eqb (lower body) (py "infinity")) eqn:E2;
      [intros _; now apply (Hword _ E2)|].
    destruct (str_eqb (lower body) (py "nan")) eqn:E3;
      [intros _; now apply (Hword _ E3)|].
    cbn [orb].
    destruct (number body) as [[[m sc] r]|] eqn:En; [|discriminate].
    destruct (exponent r) as [e|] eqn:Ee; [|discriminate].
    intros _. apply number_count in En as (u & -> & C1 & C2).
    rewrite !count_char_app, C1.
    rewrite (exponent_count r e 44 (or_introl eq_refl) Ee).
    rewrite (exponent_count r e 46 (or_intror eq_refl) Ee). lia. }
  destruct t as [|c t']; [apply Hbody|].
  destruct (N.eqb_spec c 45) as [->|H45];
    [|destruct (N.eqb_spec c 43) as [->|H43]].
  - intros H. apply Hbody in H. rewrite !count_char_cons. simpl. exact H.
  - intros H. apply Hbody in H. rewrite !count_char_cons. simpl. exact H.
  - apply Hbody.
Qed.

Ltac sep_counts :=
  change (count_char 46 [46%N]) with 1%nat;
  change (count_char 44 (@nil N)) with 0%nat;
  change (count_char 46 (@nil N)) with 0%nat;
  change (44 =? 46)%N with false; change (46 =? 44)%N with false;
  change (46 =? 46)%N with true; change (44 =? 44)%N with true;
  cbv iota beta.

(** X7.  A text with two commas or more and no dot, or with a comma
    and two dots or more, is not a number for either [_to_float]: the
    result is [None], so "1,234,567" and "1.234.567,8" are dropped. *)
Theorem to_float_rejects_repeated_separators (s : str) :
  (count_char 46 s = 0%nat /\ (2 <= count_char 44 s)%nat)
  \/ ((1 <= count_char 44 s)%nat /\ (2 <= count_char 46 s)%nat) ->
  Scraper._to_float (Some s) = Ok None
  /\ Plants._to_float (Some s) = Ok None.
Proof.
  intros H.
  assert (E : Scraper._to_float (Some s) = Ok None).
  { rewrite to_float_parse.
    destruct (parse_float (Scraper.dot_decimal s)) as [v|] eqn:Ev;
      [|reflexivity].
    exfalso. apply parse_float_separators in Ev as [_ Ev].
    revert Ev. unfold Scraper.dot_decimal.
    change (py ",") with [44%N]. change (py ".") with [46%N].
    change (py "") with (@nil N).
    rewrite !count_char_contains.
    rewrite !(count_char_strip _ s) by reflexivity.
    destruct H as [[H46 H44]|[H44 H46]].
    - rewrite H46. cbn [Nat.eqb negb andb].
      destruct (count_char 44 s) as [|n] eqn:E44; [lia|]. cbn [Nat.eqb negb andb].
      rewrite !count_char_replace, !count_char_strip by reflexivity.
      rewrite E44, H46. sep_counts. lia.
    - destruct (count_char 44 s) as [|n] eqn:E44; [lia|].
      destruct (count_char 46 s) as [|k] eqn:E46; [lia|].
      cbn [Nat.eqb negb andb].
      rewrite !count_char_replace, !count_char_strip by reflexivity.
      rewrite E44, E46. sep_counts. lia. }
  split; [exact E | now rewrite scraper_plants_to_float].
Qed.

Lemma to_float_rejects_repeated_separators_witness :
  (count_char 46 (py "1,234,567") = 0%nat
   /\ (2 <= count_char 44 (py "1,234,567"))%nat)
  /\ Scraper._to_float (Some (py "1,234,567")) = Ok None.
Proof.
  assert (H : count_char 46 (py "1,234,567") = 0%nat
              /\ (2 <= count_char 44 (py "1,234,567"))%nat).
  { split; [reflexivity | vm_compute; lia]. }
  split; [exact H|].
  exact (proj1 (to_float_rejects_repeated_separators _ (or_introl H))).
Defined.
End SeparatorFacts.

(* ===================================================================== *)
(** * More on the ingestion sink *)
(* ===================================================================== *)

Section SinkMore.
Import Logger LoggerSpec.

Ltac world_simpl :=
  cbn [json_file csv_file db_file stdout stderr with_csv with_db print
       print_err ensure_csv ensure_sqlite write_csv db_rows csv_lines
       csv_rows fst snd tl] in *.

Lemma for_each_length {X A : Type} (body : list A -> X -> result (list A))
  (xs : list X) :
  (forall acc x res, body acc x = Ok res -> length res = S (length acc)) ->
  forall acc res,
    for_each body xs acc = Ok res ->
    length res = (length acc + length xs)%nat.
Proof.
  intros Hbody. induction xs as [|x xs IH]; intros acc res H; simpl in *.
  - injection H as <-. lia.
  - destruct (body acc x) as [acc'|e] eqn:E; [|discriminate].
    simpl in H. apply IH in H. apply Hbody in E. lia.
Qed.

(** X8.  Whenever [parse_row] returns a row, it has eleven readings
    and as many cells as [COLUMNS] has names, whatever the payload holds
    or lacks. *)
Theorem parse_row_fills_every_column (iso_roundtrip : str -> option str)
  (str_of : value -> str) (payload : value) (r : row) :
  parse_row iso_roundtrip str_of payload = Ok r ->
  length (readings r) = 11%nat
  /\ length (cells r) = length COLUMNS.
Proof.
  intros H.
  assert (L : length (readings r) = 11%nat).
  { destruct payload as [| | | | | |entries]; try discriminate.
    unfold parse_row in H.
    match type of H with
    | context [bind (for_each ?b ?l ?a) _] =>
      destruct (for_each b l a) as [rs|e] eqn:E; [|discriminate];
      apply for_each_length in E
    end.
    - cbn [bind] in H. destruct (join_pages _); [|discriminate].
      cbn [bind] in H. injection H as <-. exact E.
    - intros acc [g key] res Hres.
      destruct (value_get g key) as [x|]; [|discriminate]. cbn [bind] in Hres.
      destruct (num x) as [f|]; [|discriminate]. cbn [bind] in Hres.
      injection Hres as <-. rewrite length_app. simpl. lia. }
  split; [exact L|].
  unfold cells. cbn [length]. rewrite length_app, length_map, L. reflexivity.
Qed.

Lemma parse_row_fills_every_column_witness :
  parse_row iso_seconds str_scalar scenario_payload
  = Ok (row_of scenario_payload)
  /\ length (cells (row_of scenario_payload)) = 14%nat.
Proof.
  assert (H : parse_row iso_seconds str_scalar scenario_payload
              = Ok (row_of scenario_payload)) by (vm_compute; reflexivity).
  split; [exact H|].
  exact (proj2 (parse_row_fills_every_column _ _ _ _ H)).
Defined.

(** *** The table never loses a row *)

Lemma insert_or_ignore_keeps (db : gmap str row) (r old : row) (k : str) :
  db !! k = Some old -> insert_or_ignore db r !! k = Some old.
Proof.
  intros H. unfold insert_or_ignore.
  destruct (db !! scraped_at_iso r) eqn:E; [exact H|].
  rewrite lookup_insert_ne; [exact H|]. intros Heq. rewrite Heq in E. congruence.
Qed.

Lemma write_sqlite_rows (r : row) (w : world) :
  db_rows (fst (write_sqlite r w)) = db_rows w
  \/ (bindable r
      /\ db_rows (fst (write_sqlite r w)) = insert_or_ignore (db_rows w) r).
Proof.
  rewrite write_sqlite_cases. unfold bindable.
  destruct (for_each _ (cells r) tt) as [[]|e].
  - right. split; [reflexivity|]. destruct w as [jf cf [db|] out err]; reflexivity.
  - left. destruct w as [jf cf [db|] out err]; reflexivity.
Qed.

Lemma write_sqlite_other_files (r : row) (w : world) :
  json_file (fst (write_sqlite r w)) = json_file w
  /\ csv_file (fst (write_sqlite r w)) = csv_file w
  /\ stdout (fst (write_sqlite r w)) = stdout w
  /\ stderr (fst (write_sqlite r w)) = stderr w.
Proof.
  rewrite write_sqlite_cases.
  destruct (for_each _ (cells r) tt) as [[]|e];
    destruct w as [jf cf [db|] out err]; repeat split.
Qed.

(** What [process_once] does to the files, outcome by outcome. *)
Lemma process_once_effect (iso_roundtrip : str -> option str)
  (str_of : value -> str) (json_path csv_path db_path : str) (verbose : bool)
  (w : world) :
  let w' := fst (process_once iso_roundtrip str_of json_path csv_path db_path
                   verbose w) in
  let res := snd (process_once iso_roundtrip str_of json_path csv_path db_path
                    verbose w) in
  json_file w' = json_file w
  /\ ((db_rows w' = db_rows w /\ csv_file w' = csv_file w)
      \/ (exists r,
            res = Ok tt /\ bindable r
            /\ db_rows w' = insert_or_ignore (db_rows w) r
            /\ csv_lines w' = csv_lines (ensure_csv w) ++ [cells r]
            /\ csv_file w' <> None))
  /\ (forall e, res = Raise e ->
        csv_file w' = csv_file w /\ db_rows w' = db_rows w
        /\ stdout w' = stdout w /\ stderr w' = stderr w).
Proof.
  cbv zeta. unfold process_once.
  destruct (json_file w) as [[err|payload]|] eqn:J.
  - match goal with |- context [print_err _ ?l] => set (line := l) end.
    cbn [fst snd]. destruct w as [jf cf df out er]. world_simpl.
    split; [exact J|]. split; [now left | discriminate].
  - destruct (parse_row _ _ payload) as [r|e].
    2:{ cbn [fst snd]. split; [exact J|]. split; [now left|]. now intros. }
    rewrite write_sqlite_cases. unfold bindable.
    destruct (for_each _ (cells r) tt) as [[]|e] eqn:B.
    + match goal with
      | |- context [print _ ?l] => set (line := l)
      end.
      destruct (ingested_files r w verbose line) as (J1 & D1 & C1 & N1).
      cbn [fst snd]. split; [now rewrite J1|].
      split; [|discriminate].
      right. exists r. repeat split; assumption.
    + cbn [fst snd]. split; [destruct w as [jf cf [db|] out er]; exact J|].
      split.
      * left. destruct w as [jf cf [db|] out er]; split; reflexivity.
      * intros _ _. destruct w as [jf cf [db|] out er]; repeat split.
  - match goal with |- context [print _ ?l] => set (line := l) end.
    destruct w as [jf cf df out er], verbose; cbn [fst snd]; world_simpl;
      (split; [exact J|]; split; [now left | discriminate]).
Qed.

(** X9.  [process_once] never changes or removes a row the table
    [readings] already holds, whatever the snapshot file contains and
    however the call ends. *)
Theorem process_once_keeps_stored_rows (iso_roundtrip : str -> option str)
  (str_of : value -> str) (json_path csv_path db_path : str) (verbose : bool)
  (w : world) (k : str) (old : row) :
  db_rows w !! k = Some old ->
  db_rows (fst (process_once iso_roundtrip str_of json_path csv_path db_path
                  verbose w)) !! k = Some old.
Proof.
  intros H.
  destruct (process_once_effect iso_roundtrip str_of json_path csv_path
              db_path verbose w) as (_ & [[D _]|(r & _ & _ & D & _)] & _).
  - now rewrite D.
  - rewrite D. now apply insert_or_ignore_keeps.
Qed.

Lemma process_once_keeps_stored_rows_witness :
  db_rows ingested_once !! scraped_at_iso (row_of scenario_payload)
  = Some (row_of scenario_payload)
  /\ db_rows (fst (ingest true ingested_once))
       !! scraped_at_iso (row_of scenario_payload)
     = Some (row_of scenario_payload).
Proof.
  assert (H : db_rows ingested_once !! scraped_at_iso (row_of scenario_payload)
              = Some (row_of scenario_payload)) by (vm_compute; reflexivity).
  split; [exact H|].
  exact (process_once_keeps_stored_rows iso_seconds str_scalar
           (py "/data/snapshot.json") (py "/data/generation_log.csv")
           (py "/data/generation_log.sqlite") true _ _ _ H).
Defined.

(** X10.  When [process_once] ends with an exception, the CSV file,
    the rows of the table and both output streams are as they were: the
    table is written before the CSV file, and a row that cannot be built or
    bound reaches neither. *)
Theorem process_once_failure_writes_nothing
  (iso_roundtrip : str -> option str) (str_of : value -> str)
  (json_path csv_path db_path : str) (verbose : bool) (w w' : world)
  (e : exn) :
  process_once iso_roundtrip str_of json_path csv_path db_path verbose w
  = (w', Raise e) ->
  csv_file w' = csv_file w /\ db_rows w' = db_rows w
  /\ stdout w' = stdout w /\ stderr w' = stderr w.
Proof.
  intros H.
  destruct (process_once_effect iso_roundtrip str_of json_path csv_path
              db_path verbose w) as (_ & _ & F).
  rewrite H in F. cbn [fst snd] in F. now apply (F e).
Qed.

Lemma process_once_failure_writes_nothing_witness :
  ingest true (fresh_world (Payload (VList [])))
  = (fresh_world (Payload (VList [])), Raise AttributeError)
  /\ csv_file (fresh_world (Payload (VList []))) = None
  /\ db_rows (fresh_world (Payload (VList []))) = ∅
  /\ stdout (fresh_world (Payload (VList []))) = []
  /\ stderr (fresh_world (Payload (VList []))) = [].
Proof.
  assert (H : ingest true (fresh_world (Payload (VList [])))
              = (fresh_world (Payload (VList [])), Raise AttributeError))
    by reflexivity.
  split; [exact H|].
  exact (process_once_failure_writes_nothing iso_seconds str_scalar
           (py "/data/snapshot.json") (py "/data/generation_log.csv")
           (py "/data/generation_log.sqlite") true _ _ _ H).
Defined.
End SinkMore.

Section SinkInvariants.
Import Logger LoggerSpec.

Ltac world_simpl :=
  cbn [json_file csv_file db_file stdout stderr with_csv with_db print
       print_err ensure_csv ensure_sqlite write_csv db_rows csv_lines
       csv_rows fst snd tl] in *.

(** X11.  For a row that can be bound and whose key is not in the
    table, [write_sqlite] succeeds, stores the row under its key, adds one
    row to the table and leaves every other key as it was. *)
Theorem write_sqlite_new_key (r : row) (w : world) :
  db_rows w !! scraped_at_iso r = None ->
  bindable r ->
  snd (write_sqlite r w) = Ok tt
  /\ db_rows (fst (write_sqlite r w)) !! scraped_at_iso r = Some r
  /\ size (db_rows (fst (write_sqlite r w))) = S (size (db_rows w))
  /\ forall k, k <> scraped_at_iso r ->
       db_rows (fst (write_sqlite r w)) !! k = db_rows w !! k.
Proof.
  intros Hnew Hb. rewrite write_sqlite_cases. unfold bindable in Hb.
  rewrite Hb. cbn [fst snd].
  assert (E : db_rows (with_db (ensure_sqlite w) (insert_or_ignore (db_rows w) r))
              = <[scraped_at_iso r := r]> (db_rows w)).
  { unfold insert_or_ignore. rewrite Hnew.
    destruct w as [jf cf [db|] out err]; reflexivity. }
  rewrite E. split; [reflexivity|]. split; [apply lookup_insert_eq|].
  split; [now apply map_size_insert_None|].
  intros k Hk. now apply lookup_insert_ne.
Qed.

Lemma write_sqlite_new_key_witness :
  db_rows (fresh_world (Payload scenario_payload))
    !! scraped_at_iso (row_of scenario_payload) = None
  /\ bindable (row_of scenario_payload)
  /\ db_rows (fst (write_sqlite (row_of scenario_payload)
                     (fresh_world (Payload scenario_payload))))
       !! scraped_at_iso (row_of scenario_payload)
     = Some (row_of scenario_payload).
Proof.
  assert (H1 : db_rows (fresh_world (Payload scenario_payload))
                 !! scraped_at_iso (row_of scenario_payload) = None)
    by reflexivity.
  assert (H2 : bindable (row_of scenario_payload)) by (vm_compute; reflexivity).
  split; [exact H1|]. split; [exact H2|].
  exact (proj1 (proj2 (write_sqlite_new_key _ _ H1 H2))).
Defined.

(** X12.  Rows written one after the other by [write_csv] land in the
    file in call order after what it held; the header is written once, and
    only when the file did not exist: starting without a file, the file is
    the header followed by the rows. *)
Theorem write_csv_appends_under_one_header (rows : list row) (w : world) :
  csv_lines (fold_left (fun w r => write_csv r w) rows w)
  = match rows with
    | [] => csv_lines w
    | _ :: _ => csv_lines (ensure_csv w) ++ map cells rows
    end
  /\ (csv_file w = None -> rows <> [] ->
      csv_lines (fold_left (fun w r => write_csv r w) rows w)
      = map VStr COLUMNS :: map cells rows).
Proof.
  assert (Hone : forall r w0,
            csv_lines (write_csv r w0) = csv_lines (ensure_csv w0) ++ [cells r]
            /\ csv_lines (ensure_csv (write_csv r w0)) = csv_lines (write_csv r w0)).
  { intros r [jf [lines|] df out err]; split; reflexivity. }
  assert (Hall : forall rows w0 r,
            csv_lines (fold_left (fun w r => write_csv r w) rows (write_csv r w0))
            = csv_lines (ensure_csv w0) ++ cells r :: map cells rows).
  { induction rows0 as [|r' rows0 IH]; intros w0 r; cbn [fold_left map].
    - apply Hone.
    - rewrite IH. destruct (Hone r w0) as [E1 E2]. rewrite E2, E1.
      now rewrite <- app_assoc. }
  split.
  - destruct rows as [|r rows]; [reflexivity|]. cbn [fold_left map]. apply Hall.
  - intros Hnone Hrows. destruct rows as [|r rows]; [congruence|].
    cbn [fold_left map]. rewrite Hall. unfold ensure_csv. rewrite Hnone.
    reflexivity.
Qed.

(** *** The log never runs ahead of the table *)

Lemma insert_or_ignore_has (db : gmap str row) (r : row) (k : str) :
  is_Some (db !! k) -> is_Some (insert_or_ignore db r !! k).
Proof. intros [old H]. exists old. now apply insert_or_ignore_keeps. Qed.

(** X13.  If every line of the CSV log is the header or starts with a
    key held by the table, this is still so after [process_once]: the log
    never gets a line whose key the table lacks. *)
Theorem process_once_keeps_log_in_store (iso_roundtrip : str -> option str)
  (str_of : value -> str) (json_path csv_path db_path : str) (verbose : bool)
  (w : world) :
  log_in_store w ->
  log_in_store (fst (process_once iso_roundtrip str_of json_path csv_path
                       db_path verbose w)).
Proof.
  intros Hinv.
  destruct (process_once_effect iso_roundtrip str_of json_path csv_path
              db_path verbose w)
    as (_ & [[D C]|(r & _ & _ & D & C & _)] & _).
  - unfold log_in_store, csv_lines. rewrite D, C. exact Hinv.
  - unfold log_in_store. rewrite C, D. intros line Hin.
    apply in_app_or in Hin as [Hin|[<-|[]]].
    + assert (Hold : line = map VStr COLUMNS
                     \/ exists k, hd VNone line = VStr k
                                  /\ is_Some (db_rows w !! k)).
      { unfold ensure_csv in Hin. destruct (csv_file w) as [lines|] eqn:E.
        - apply Hinv. exact Hin.
        - left. destruct Hin as [<-|[]]. reflexivity. }
      destruct Hold as [Hh|(k & Hk & Hs)]; [now left|].
      right. exists k. split; [exact Hk | now apply insert_or_ignore_has].
    + right. exists (scraped_at_iso r). split; [reflexivity|].
      destruct (insert_or_ignore_lookup (db_rows w) r) as [kept H].
      now exists kept.
Qed.

Lemma process_once_keeps_log_in_store_witness :
  log_in_store (fresh_world (Payload scenario_payload))
  /\ log_in_store (fst (ingest false (fresh_world (Payload scenario_payload)))).
Proof.
  assert (H : log_in_store (fresh_world (Payload scenario_payload))).
  { intros line []. }
  split; [exact H|].
  exact (process_once_keeps_log_in_store iso_seconds str_scalar
           (py "/data/snapshot.json") (py "/data/generation_log.csv")
           (py "/data/generation_log.sqlite") false _ H).
Defined.

(** *** Payloads with groups left out *)

Lemma get_or_default (entries : dict value) (key : str) (default : value) :
  absent_or_falsy entries key -> get_or entries key default = default.
Proof.
  unfold absent_or_falsy, get_or. destruct (get entries key) as [v|];
    [now intros -> | reflexivity].
Qed.

(** X14.  A payload whose three groups and page list are missing or
    falsy ([None], an empty dictionary or list) gives a row with eleven
    empty readings and an empty [source_pages]; [parse_row] does not
    raise on it. *)
Theorem parse_row_without_groups (iso_roundtrip : str -> option str)
  (str_of : value -> str) (entries : dict value) :
  absent_or_falsy entries (py "detalles_generacion") ->
  absent_or_falsy entries (py "pronostico_demanda") ->
  absent_or_falsy entries (py "fuel_mix_pct") ->
  absent_or_falsy entries (py "source_pages") ->
  exists r,
    parse_row iso_roundtrip str_of (VDict entries) = Ok r
    /\ readings r = repeat None 11
    /\ source_pages r = [].
Proof.
  intros H1 H2 H3 H4. unfold parse_row.
  rewrite !get_or_default by assumption.
  cbn [for_each bind value_get get num app join_pages join].
  eexists. split; [reflexivity|]. split; reflexivity.
Qed.

Lemma parse_row_without_groups_witness :
  absent_or_falsy [(py "scraped_at", VStr (py "2025-10-20T23:31:15-04:00"));
                   (py "fuel_mix_pct", VNone)] (py "fuel_mix_pct")
  /\ exists r,
       parse_row iso_seconds str_scalar
         (VDict [(py "scraped_at", VStr (py "2025-10-20T23:31:15-04:00"));
                 (py "fuel_mix_pct", VNone)]) = Ok r
       /\ readings r = repeat None 11.
Proof.
  assert (H : forall k,
            In k [py "detalles_generacion"; py "pronostico_demanda";
                  py "fuel_mix_pct"; py "source_pages"] ->
            absent_or_falsy
              [(py "scraped_at", VStr (py "2025-10-20T23:31:15-04:00"));
               (py "fuel_mix_pct", VNone)] k).
  { intros k Hk. simpl in Hk.
    destruct Hk as [<-|[<-|[<-|[<-|[]]]]]; vm_compute; auto. }
  split; [apply H; simpl; auto|].
  destruct (parse_row_without_groups iso_seconds str_scalar _
              (H _ (or_introl eq_refl))
              (H _ (or_intror (or_introl eq_refl)))
              (H _ (or_intror (or_intror (or_introl eq_refl))))
              (H _ (or_intror (or_intror (or_intror (or_introl eq_refl))))))
    as (r & Hr & Hread & _).
  exists r. split; [exact Hr | exact Hread].
Defined.
End SinkInvariants.

(* ===================================================================== *)
(** * The polling loop and the interchange *)
(* ===================================================================== *)

Section LoopFacts.
Import Logger Poller.

(** X15.  One turn of the polling loop of [main] that ends normally on
    a file with modification time [m] (not NaN) leaves a remembered time
    equal to [m]; the next turn on the same time keeps it and changes no
    file and nothing on the error stream: an unchanged snapshot is not
    ingested again. *)
Theorem poll_ingests_a_version_once (iso_roundtrip : str -> option str)
  (str_of : value -> str) (json_path csv_path db_path : str) (verbose : bool)
  (last_seen : option float) (m : float) (w w1 : world)
  (seen1 : option float) :
  float_eqb m m = true ->
  poll iso_roundtrip str_of json_path csv_path db_path verbose last_seen
    (Some m) w = (w1, Ok seen1) ->
  (exists seen, seen1 = Some seen /\ float_eqb m seen = true)
  /\ exists w2,
       poll iso_roundtrip str_of json_path csv_path db_path verbose seen1
         (Some m) w1 = (w2, Ok seen1)
       /\ json_file w2 = json_file w1
       /\ csv_file w2 = csv_file w1
       /\ db_file w2 = db_file w1
       /\ stderr w2 = stderr w1.
Proof.
  intros Hm H.
  assert (E : exists seen, seen1 = Some seen /\ float_eqb m seen = true).
  { unfold poll in H.
    destruct (match last_seen with
              | Some seen => negb (float_eqb m seen)
              | None => true
              end) eqn:Hchg.
    - destruct (process_once _ _ _ _ _ _ _) as [w' [[]|e]];
        [|discriminate].
      injection H as _ <-. now exists m.
    - injection H as _ <-. destruct last_seen as [seen|]; [|discriminate].
      apply negb_false_iff in Hchg. now exists seen. }
  split; [exact E|]. destruct E as (seen & -> & Hs).
  unfold poll. rewrite Hs. cbn [negb].
  eexists. split; [reflexivity|].
  destruct verbose; repeat split.
Qed.

Lemma poll_ingests_a_version_once_witness :
  float_eqb (decimal 1761017475 0) (decimal 1761017475 0) = true
  /\ poll iso_seconds str_scalar (py "/data/snapshot.json")
       (py "/data/generation_log.csv") (py "/data/generation_log.sqlite")
       false None (Some (decimal 1761017475 0))
       (fresh_world (Payload scenario_payload))
     = (ingested_once, Ok (Some (decimal 1761017475 0)))
  /\ exists w2,
       poll iso_seconds str_scalar (py "/data/snapshot.json")
         (py "/data/generation_log.csv") (py "/data/generation_log.sqlite")
         false (Some (decimal 1761017475 0)) (Some (decimal 1761017475 0))
         ingested_once
       = (w2, Ok (Some (decimal 1761017475 0)))
       /\ csv_file w2 = csv_file ingested_once.
Proof.
  assert (H1 : float_eqb (decimal 1761017475 0) (decimal 1761017475 0) = true)
    by (vm_compute; reflexivity).
  assert (H2 : poll iso_seconds str_scalar (py "/data/snapshot.json")
                 (py "/data/generation_log.csv")
                 (py "/data/generation_log.sqlite")
                 false None (Some (decimal 1761017475 0))
                 (fresh_world (Payload scenario_payload))
               = (ingested_once, Ok (Some (decimal 1761017475 0))))
    by (vm_compute; reflexivity).
  split; [exact H1|]. split; [exact H2|].
  destruct (poll_ingests_a_version_once _ _ _ _ _ _ _ _ _ _ _ H1 H2)
    as (_ & w2 & Hp & _ & Hc & _).
  exists w2. split; [exact Hp | exact Hc].
Defined.

End LoopFacts.

Section InterchangeFacts.
Import Logger Interchange.

Lemma json_group_get (d : dict (option float)) (key : str) :
  get (map (fun kv => (fst kv, json_number (snd kv))) d) key
  = option_map json_number (get d key).
Proof.
  induction d as [|[k v] d IH]; simpl; [reflexivity|].
  destruct (str_eqb k key); [reflexivity | exact IH].
Qed.

Lemma json_group_reading (d : dict (option float)) (key : str) :
  bind (value_get (json_group d) key) num = Ok (Scraper.get_value d key).
Proof.
  unfold json_group, value_get, Scraper.get_value. rewrite json_group_get.
  destruct (get d key) as [[f|]|]; reflexivity.
Qed.

Lemma reading_step {A : Type} (d : dict (option float)) (key : str)
  (k : option float -> result A) :
  bind (value_get (json_group d) key) (fun x => bind (num x) k)
  = k (Scraper.get_value d key).
Proof.
  unfold json_group, value_get, Scraper.get_value. rewrite json_group_get.
  destruct (get d key) as [[f|]|]; reflexivity.
Qed.

Lemma json_group_or_empty (d : dict (option float)) :
  (if truthy (json_group d) then json_group d else VDict []) = json_group d.
Proof. destruct d; reflexivity. Qed.

Lemma join_pages_list (pages : list str) :
  join_pages (if truthy (VList (map VStr pages))
              then VList (map VStr pages) else VList [])
  = Ok (join (py ",") pages).
Proof.
  assert (H : forall ps acc,
            for_each (fun acc item =>
                        match item with
                        | VStr s => Ok (acc ++ [s])
                        | _ => Raise TypeError
                        end) (map VStr ps) acc = Ok (acc ++ ps)).
  { induction ps as [|p ps IH]; intros acc; simpl.
    - now rewrite app_nil_r.
    - rewrite IH. now rewrite <- app_assoc. }
  assert (E : (if truthy (VList (map VStr pages))
               then VList (map VStr pages) else VList [])
              = VList (map VStr pages)) by (destruct pages; reflexivity).
  rewrite E. unfold join_pages. rewrite H. reflexivity.
Qed.

Lemma snapshot_entry (out : Scraper.snapshot) :
  get (snapshot_entries out) (py "scraped_at")
  = Some (VStr (Scraper.scraped_at out))
  /\ get (snapshot_entries out) (py "updated_label_raw")
     = Some (json_text (Scraper.updated_label_raw out))
  /\ get (snapshot_entries out) (py "detalles_generacion")
     = Some (json_group (Scraper.detalles_generacion out))
  /\ get (snapshot_entries out) (py "pronostico_demanda")
     = Some (json_group (Scraper.pronostico_demanda out))
  /\ get (snapshot_entries out) (py "fuel_mix_pct")
     = Some (json_group (Scraper.fuel_mix_pct out))
  /\ get (snapshot_entries out) (py "source_pages")
     = Some (VList (map VStr (Scraper.source_pages out))).
Proof.
  split; [vm_compute; reflexivity|]. split; [vm_compute; reflexivity|].
  split; [vm_compute; reflexivity|]. split; [vm_compute; reflexivity|].
  split; vm_compute; reflexivity.
Qed.

(** X16.  The logger reads back what the scraper prints: on the JSON
    form of any snapshot, [parse_row] succeeds, and the row carries the
    snapshot's time stamp (normalised when it parses as ISO), its label,
    its eleven numbers, each column fed by the snapshot field listed in
    [column_sources], and its pages joined by commas. *)
Theorem snapshot_becomes_row (iso_roundtrip : str -> option str)
  (str_of : value -> str) (out : Scraper.snapshot) :
  exists r,
    parse_row iso_roundtrip str_of (to_json out) = Ok r
    /\ scraped_at_iso r
       = match iso_roundtrip (Scraper.scraped_at out) with
         | Some iso => iso
         | None => Scraper.scraped_at out
         end
    /\ updated_label_raw r = json_text (Scraper.updated_label_raw out)
    /\ readings r
       = map (fun bk => Scraper.get_value (Scraper.bucket out (fst bk)) (snd bk))
           column_sources
    /\ source_pages r = join (py ",") (Scraper.source_pages out).
Proof.
  destruct (snapshot_entry out) as (E1 & E2 & E3 & E4 & E5 & E6).
  unfold to_json, parse_row, get_or.
  rewrite E1, E2, E3, E4, E5, E6.
  rewrite !json_group_or_empty, join_pages_list.
  cbn [for_each]. cbv beta iota.
  repeat (rewrite reading_step; cbn [bind app]).
  eexists. split; [reflexivity|].
  unfold column_sources.
  cbn [map fst snd Scraper.bucket Scraper.bucket_of app
       scraped_at_iso updated_label_raw readings source_pages].
  split; [reflexivity|]. split; [reflexivity|]. split; reflexivity.
Qed.
End InterchangeFacts.

Section SessionFacts.
Import Re Plants PlantsSession.

Lemma harvest_for_found (pg : page) (title : str) :
  has_card pg title = true ->
  exists total per_unit,
    harvest_for pg title = Ok (Some (Plant title total per_unit)).
Proof.
  intros Hcard. unfold harvest_for. rewrite Hcard. cbn [negb].
  rewrite extract_mw_values_eq. cbn [bind].
  rewrite harvest_lines_fold. cbn [bind]. eauto.
Qed.

Lemma harvest_cases (s : session) (title : str) :
  match card_of s title with
  | Panel _ => exists total per_unit,
      harvest s title = Ok (Some (Plant title total per_unit))
  | NoCard => harvest s title = Ok None
  | Crashed e => harvest s title = Raise e
  end.
Proof.
  unfold harvest. destruct (card_of s title) as [|text|e].
  - reflexivity.
  - apply harvest_for_found. reflexivity.
  - reflexivity.
Qed.

Lemma collect_names (s : session) (labels : list str) :
  map nombre (collect s labels) = List.filter (shows_panel s) labels.
Proof.
  unfold collect.
  assert (H : forall items,
    map nombre
      (fold_left
         (fun items name =>
            match harvest s name with
            | Ok (Some item) => items ++ [item]
            | Ok None | Raise _ => items
            end) labels items)
    = map nombre items ++ List.filter (shows_panel s) labels).
  { induction labels as [|name labels IH]; intros items; cbn [fold_left List.filter].
    - now rewrite app_nil_r.
    - rewrite IH. pose proof (harvest_cases s name) as Hc.
      unfold shows_panel. destruct (card_of s name) as [|text|e].
      + now rewrite Hc.
      + destruct Hc as (total & per_unit & ->).
        rewrite map_app. cbn [map nombre]. now rewrite <- app_assoc.
      + now rewrite Hc. }
  exact (H []).
Qed.


Lemma robust_goto_timeout (try : nat -> attempt) (e : exn) :
  fst (robust_goto try) = Raise e -> is_timeout e = true ->
  exists e1, try 1%nat = Raised e1 /\ is_timeout e1 = true
             /\ try 2%nat = Raised e.
Proof.
  unfold robust_goto. destruct (try 1%nat) as [|e1]; [discriminate|].
  destruct (is_timeout e1) eqn:T1.
  - destruct (try 2%nat) as [|e2]; [discriminate|].
    cbn [fst]. intros [= <-] _. eauto.
  - cbn [fst]. intros [= <-] T. congruence.
Qed.

Lemma load_page_timeout (s : session) (sels : list str) (e : exn) :
  load_page s sels = Some e -> is_timeout e = true ->
  last_resort s = Raise e
  /\ forall sel, In sel sels ->
       exists e1 e2,
         navigation s sel 1%nat = Raised e1 /\ is_timeout e1 = true
         /\ navigation s sel 2%nat = Raised e2 /\ is_timeout e2 = true.
Proof.
  intros H T. induction sels as [|sel sels IH]; cbn [load_page] in H.
  - destruct (last_resort s) as [u|e0]; [discriminate|].
    injection H as <-. split; [reflexivity | intros sel []].
  - destruct (fst (robust_goto (navigation s sel))) as [b|e0] eqn:R;
      [discriminate|].
    destruct (is_timeout e0) eqn:T0.
    + destruct (IH H) as (L & A). split; [exact L|].
      intros sel' [<-|Hin]; [|exact (A sel' Hin)].
      destruct (robust_goto_timeout _ _ R T0) as (e1 & H1 & T1 & H2).
      eauto 6.
    + injection H as <-. congruence.
Qed.

(** X18.  A timeout escapes [scrape_plants] only from the last-resort
    load: then each of the seven selectors has timed out twice.  A timeout
    of a selector wait or of the dialog wait never ends the scrape. *)
Theorem scrape_plants_timeout_only_from_last_resort (s : session) (e : exn) :
  scrape_plants s = Raise e -> is_timeout e = true ->
  last_resort s = Raise e
  /\ forall sel, In sel selectors ->
       exists e1 e2,
         navigation s sel 1%nat = Raised e1 /\ is_timeout e1 = true
         /\ navigation s sel 2%nat = Raised e2 /\ is_timeout e2 = true.
Proof.
  unfold scrape_plants. intros H T.
  destruct (load_page s selectors) as [e0|] eqn:L.
  - injection H as ->. exact (load_page_timeout s selectors e L T).
  - unfold await_dialog in H. destruct (dialog_wait s) as [|e0]; [discriminate|].
    destruct (is_timeout e0) eqn:T0; [discriminate|].
    injection H as ->. congruence.
Qed.

Lemma scrape_plants_timeout_only_from_last_resort_witness :
  scrape_plants stalled = Raise PWTimeout
  /\ is_timeout PWTimeout = true
  /\ last_resort stalled = Raise PWTimeout
  /\ forall sel, In sel selectors ->
       exists e1 e2,
         navigation stalled sel 1%nat = Raised e1 /\ is_timeout e1 = true
         /\ navigation stalled sel 2%nat = Raised e2 /\ is_timeout e2 = true.
Proof.
  assert (H : scrape_plants stalled = Raise PWTimeout)
    by (vm_compute; reflexivity).
  assert (T : is_timeout PWTimeout = true) by (vm_compute; reflexivity).
  split; [exact H|]. split; [exact T|].
  exact (scrape_plants_timeout_only_from_last_resort stalled PWTimeout H T).
Defined.

(** X19.  When [scrape_plants] returns, its plants and private
    producers are, in the order of [PLANT_LABELS] and [PRIVATE_LABELS],
    exactly the titles whose card was found and read; a title without a
    card, or whose card raises, is left out and stops nothing.  The source
    page is [TARGET_URL]. *)
Theorem scrape_plants_skips_unreadable_cards (s : session)
  (snap : plants_snapshot) :
  scrape_plants s = Ok snap ->
  map nombre (plants snap) = List.filter (shows_panel s) PLANT_LABELS
  /\ map nombre (private_producers snap)
     = List.filter (shows_panel s) PRIVATE_LABELS
  /\ source_page snap = TARGET_URL.
Proof.
  unfold scrape_plants. intros H.
  destruct (load_page s selectors); [discriminate|].
  destruct (await_dialog s); [discriminate|].
  injection H as <-. cbn [plants private_producers source_page].
  rewrite !collect_names. repeat split.
Qed.

Lemma scrape_plants_skips_unreadable_cards_witness :
  exists snap,
    scrape_plants patchy = Ok snap
    /\ map nombre (plants snap)
       = [ py "San Juan"; py "Palo Seco"; py "Costa Sur" ]
    /\ map nombre (private_producers snap) = [ py "Ecoeléctrica" ]
    /\ source_page snap = TARGET_URL.
Proof.
  assert (E : exists snap, scrape_plants patchy = Ok snap)
    by (vm_compute; eexists; reflexivity).
  destruct E as [snap E]. exists snap. split; [exact E|].
  destruct (scrape_plants_skips_unreadable_cards patchy snap E)
    as (H1 & H2 & H3).
  split; [rewrite H1; vm_compute; reflexivity|].
  split; [rewrite H2; vm_compute; reflexivity | exact H3].
Defined.
End SessionFacts.

Section TableFacts.
Import NumSpec FuelTable.

Lemma extract_rows_flat (tables : list (list (list str))) :
  extract_rows_from_tables tables
  = flat_map row_of_cells (concat tables).
Proof.
  unfold extract_rows_from_tables.
  assert (H : forall rows,
    fold_left
      (fun rows tbody_rows =>
         fold_left (fun rows tds => rows ++ row_of_cells tds) tbody_rows rows)
      tables rows
    = rows ++ flat_map row_of_cells (concat tables)).
  { induction tables as [|t tables IH]; intros rows; cbn [fold_left concat].
    - cbn. now rewrite app_nil_r.
    - rewrite IH, fold_append_flat_map, flat_map_app. now rewrite app_assoc. }
  exact (H []).
Qed.

Lemma percent_sign : py "%" = [37%N].
Proof. vm_compute. reflexivity. Qed.

Lemma empty_text : py "" = [].
Proof. vm_compute. reflexivity. Qed.

Lemma number_cell_has_no_comma (cell : str) (v : float) :
  float_of_str (strip (replace (py "%") (py "") (strip cell))) = Ok v ->
  count_char 44 cell = 0%nat.
Proof.
  rewrite float_of_str_cases.
  destruct (parse_float _) as [v'|] eqn:E; [|discriminate]. intros _.
  apply parse_float_separators in E as [E _].
  rewrite count_char_strip in E by reflexivity.
  rewrite percent_sign, empty_text, count_char_replace in E.
  change (44 =? 37)%N with false in E.
  rewrite (count_char_strip 44) in E by reflexivity.
  change (count_char 44 []) with 0%nat in E. lia.
Qed.

Lemma row_of_cells_cases (tds : list str) :
  row_of_cells tds
  = if (2 <=? length tds)%nat && nonempty (strip (nth 0 tds []))
    then [(strip (nth 0 tds []),
           match float_of_str
                   (strip (replace (py "%") (py "") (strip (nth 1 tds []))))
           with
           | Ok pct => Number pct
           | Raise _ => Text (strip (nth 1 tds []))
           end)]
    else [].
Proof.
  unfold row_of_cells.
  destruct (Nat.ltb_spec (length tds) 2) as [H|H];
    destruct (Nat.leb_spec 2 (length tds)) as [H'|H']; try lia.
  - reflexivity.
  - cbn [andb]. now destruct (strip (nth 0 tds [])).
Qed.

(** X20.  Every row returned by [extract_rows_from_tables] comes from
    a table row with two cells at least; its label is the stripped first
    cell and is not empty; its percentage is a number only when the second
    cell holds no comma, else it is the stripped text of that cell (so
    "45,6 %" stays a text). *)
Theorem extract_rows_from_wide_rows (tables : list (list (list str)))
  (fuel : str) (pct : percent) :
  In (fuel, pct) (extract_rows_from_tables tables) ->
  exists tds,
    In tds (wide_rows tables)
    /\ fuel = strip (nth 0 tds []) /\ fuel <> []
    /\ match pct with
       | Number _ => count_char 44 (nth 1 tds []) = 0%nat
       | Text pct_raw => pct_raw = strip (nth 1 tds [])
       end.
Proof.
  rewrite extract_rows_flat. intros H.
  apply in_flat_map in H as (tds & Hin & H). exists tds.
  rewrite row_of_cells_cases in H.
  destruct (Nat.leb_spec 2 (length tds)) as [Hlen|Hlen]; [|destruct H].
  cbn [andb] in H.
  destruct (strip (nth 0 tds [])) as [|c fuel'] eqn:Ef; [destruct H|].
  cbn [nonempty] in H. destruct H as [H|[]].
  injection H as <- <-.
  split.
  { unfold wide_rows. apply List.filter_In. split; [exact Hin|].
    now apply Nat.leb_le. }
  split; [reflexivity|]. split; [discriminate|].
  destruct (float_of_str _) as [v|e] eqn:E.
  - exact (number_cell_has_no_comma _ v E).
  - reflexivity.
Qed.

Lemma extract_rows_from_wide_rows_witness :
  In (py "Gas Natural", Text (py "45,6 %"))
     (extract_rows_from_tables
        [ [ [ py " Gas Natural "; py "45,6 %" ]; [ py "Total" ] ] ])
  /\ exists tds,
       In tds (wide_rows [ [ [ py " Gas Natural "; py "45,6 %" ];
                             [ py "Total" ] ] ])
       /\ py "Gas Natural" = strip (nth 0 tds []) /\ py "Gas Natural" <> []
       /\ py "45,6 %" = strip (nth 1 tds []).
Proof.
  assert (H : In (py "Gas Natural", Text (py "45,6 %"))
                (extract_rows_from_tables
                   [ [ [ py " Gas Natural "; py "45,6 %" ]; [ py "Total" ] ] ]))
    by (vm_compute; left; reflexivity).
  split; [exact H|].
  exact (extract_rows_from_wide_rows _ _ _ H).
Defined.

(** X21.  [extract_rows_from_tables] returns one row for each table row
    with two cells at least and a non-blank first cell, in document order,
    whether or not its percentage parses. *)
Theorem extract_rows_labels_in_order (tables : list (list (list str))) :
  map fst (extract_rows_from_tables tables)
  = List.filter nonempty
      (map (fun tds => strip (nth 0 tds [])) (wide_rows tables)).
Proof.
  rewrite extract_rows_flat. unfold wide_rows.
  induction (concat tables) as [|tds rows IH]; [reflexivity|].
  cbn [flat_map List.filter]. rewrite map_app, IH, row_of_cells_cases.
  destruct (2 <=? length tds)%nat; cbn [andb map List.filter app];
    [|reflexivity].
  match goal with
  | |- context [nonempty ?x] =>
    set (b := nonempty x); change (nonempty (strip (nth 0 tds []))) with b
  end.
  destruct b; reflexivity.
Qed.



End TableFacts.
